(** * ibm_cloud_sdk_core.base_service: credential resolution and request
      dispatch of [BaseService], embedded from
      [src/ibm_cloud_sdk_core/base_service.py].

    Python [str] values are modelled as [string], the bytes of their UTF-8
    encoding; [lower] and [strip] are those of ASCII text, and what is
    proved about a text that goes through them is stated for ASCII text
    ([Str.is_ascii]). [None]-able values are modelled as [option], [dict]s handed in
    by the caller as association lists in insertion order, the
    [CaseInsensitiveDict] of [requests] as a [gmap] keyed by the lowercased
    name, and [self] as a record threaded through a state-and-exception
    monad. *)

From Stdlib Require Import ZArith Ascii.
From stdpp Require Import base option list gmap strings fin_maps.

Local Open Scope Z_scope.

(** ** Python [str] methods used by the module *)

Module Str.

Definition quote_char : ascii := "034"%char.

(** [s.startswith(p)] *)
Definition startswith (p s : string) : bool := String.prefix p s.

(** last character of [s], if any *)
Fixpoint last (s : string) : option ascii :=
  match s with
  | EmptyString => None
  | String c EmptyString => Some c
  | String _ s' => last s'
  end.

Definition first (s : string) : option ascii :=
  match s with
  | EmptyString => None
  | String c _ => Some c
  end.

(** [sub in s] *)
Fixpoint contains (sub s : string) : bool :=
  String.prefix sub s ||
  match s with
  | EmptyString => false
  | String _ s' => contains sub s'
  end.

(** A text of ASCII characters only (code points below 128). On such a
    text [lower] and [strip] below are what Python 3 computes; for other
    characters Python 3 goes by the Unicode tables (['É'.lower()] is ['é'],
    a no-break space is white space), which are not modelled. *)
Definition is_ascii_char (c : ascii) : bool := Nat.ltb (nat_of_ascii c) 128.

Fixpoint is_ascii (s : string) : bool :=
  match s with
  | EmptyString => true
  | String c s' => is_ascii_char c && is_ascii s'
  end.

Definition lower_char (c : ascii) : ascii :=
  let n := nat_of_ascii c in
  if (Nat.leb 65 n && Nat.leb n 90)%bool then ascii_of_nat (n + 32) else c.

(** [s.lower()] of an ASCII text: the letters A to Z are mapped, every other
    character is kept. *)
Fixpoint lower (s : string) : string :=
  match s with
  | EmptyString => EmptyString
  | String c s' => String (lower_char c) (lower s')
  end.

(** [s.replace(a, b)] for one-character [a] and [b] *)
Fixpoint replace (a b : ascii) (s : string) : string :=
  match s with
  | EmptyString => EmptyString
  | String c s' => String (if Ascii.eqb c a then b else c) (replace a b s')
  end.

(** [c.isspace()] of an ASCII character, as Python 3 has it for [str]:
    9 to 13, 28 to 31 and the blank. *)
Definition isspace (c : ascii) : bool :=
  let n := nat_of_ascii c in
  ((Nat.leb 9 n && Nat.leb n 13) || (Nat.leb 28 n && Nat.leb n 32))%bool.

Fixpoint lstrip (s : string) : string :=
  match s with
  | EmptyString => EmptyString
  | String c s' => if isspace c then lstrip s' else s
  end.

Fixpoint rstrip (s : string) : string :=
  match s with
  | EmptyString => EmptyString
  | String c s' =>
      match rstrip s' with
      | EmptyString => if isspace c then EmptyString else String c EmptyString
      | r => String c r
      end
  end.

(** [s.strip()] of an ASCII text *)
Definition strip (s : string) : string := rstrip (lstrip s).

(** [s.split(sep)] for a non-empty [sep]: [skip] counts the characters of
    a separator just matched that are still to be dropped, [cur] is the
    piece being read, reversed. *)
Fixpoint split_aux (sep : string) (skip : nat) (cur : string) (s : string)
  : list string :=
  match s with
  | EmptyString => [String.rev cur]
  | String c s' =>
      match skip with
      | S k => split_aux sep k cur s'
      | O =>
          if String.prefix sep s
          then String.rev cur :: split_aux sep (String.length sep - 1) EmptyString s'
          else split_aux sep 0 (String c cur) s'
      end
  end.

Definition split (sep s : string) : list string := split_aux sep 0 EmptyString s.

End Str.

(** ** Values and dictionaries *)

(** Scalar values found in the dictionaries the module handles. *)
Inductive Atom :=
| ANone
| ABool (b : bool)
| AInt (z : Z)
| AStr (s : string).

(** A [dict] with [str] keys as passed by callers, in insertion order. *)
Definition Dict := list (string * Atom).

(** What callers pass as [data] or [json]. *)
Inductive Body :=
| BDict (d : Dict)
| BStr (s : string)
| BBytes (b : string)
| BList (l : list Atom).

(** [requests.structures.CaseInsensitiveDict]: the store is keyed by the
    lowercased name and keeps the name as last written next to the value. *)
Definition ci_set {V} (k : string) (v : V) (m : gmap string (string * V))
  : gmap string (string * V) :=
  <[Str.lower k := (k, v)]> m.

(** [m.update(d)] *)
Definition ci_update {V} (d : list (string * V)) (m : gmap string (string * V))
  : gmap string (string * V) :=
  fold_left (fun acc kv => ci_set kv.1 kv.2 acc) d m.

(** [m[k]] / [m.get(k)] *)
Definition ci_get {V} (k : string) (m : gmap string (string * V)) : option V :=
  snd <$> m !! Str.lower k.

(** [CaseInsensitiveDict(data)], where [data] may be [None] *)
Definition CaseInsensitiveDict {V} (data : option (list (string * V)))
  : gmap string (string * V) :=
  match data with
  | None => ∅
  | Some d => ci_update d ∅
  end.

(** ** Collaborating objects *)

(** [http.cookiejar.CookieJar()]: a new, empty jar. *)
Inductive CookieJar := EmptyJar.

(** The [requests] response, as far as [request] looks at it:
    [json_result] is what [response.json()] returns, [None] when it raises. *)
Record Response := {
  status_code : Z;
  resp_headers : gmap string (string * string);
  resp_text : string;
  json_result : option Body
}.

(** Modelled from the spec: [IAMTokenManager] (iam_token_manager.py is not
    among the sources). The spec gives it the fields apiKey, iamUrl and the
    access token, each overwritten by its mutator; the constructor takes
    them in the order [iam_apikey], [iam_access_token], [iam_url]. How
    [get_token] produces a token is left to [Collaborators] below. *)
Record IAMTokenManager := {
  tm_iam_apikey : option string;
  tm_iam_access_token : option string;
  tm_iam_url : option string
}.

Definition tm_set_access_token (t : option string) (tm : IAMTokenManager) :=
  {| tm_iam_apikey := tm_iam_apikey tm; tm_iam_access_token := t;
     tm_iam_url := tm_iam_url tm |}.
Definition tm_set_iam_url (u : option string) (tm : IAMTokenManager) :=
  {| tm_iam_apikey := tm_iam_apikey tm;
     tm_iam_access_token := tm_iam_access_token tm; tm_iam_url := u |}.
Definition tm_set_iam_apikey (k : option string) (tm : IAMTokenManager) :=
  {| tm_iam_apikey := k; tm_iam_access_token := tm_iam_access_token tm;
     tm_iam_url := tm_iam_url tm |}.

(** Modelled from the spec: [DetailedResponse] (detailed_response.py is not
    among the sources): parsed body (JSON value, raw response, or absent),
    response headers, integer status code. *)
Inductive Result :=
| RNone
| RJson (j : Body)
| RRaw (r : Response).

Record DetailedResponse := {
  dr_result : Result;
  dr_headers : gmap string (string * string);
  dr_status_code : Z
}.

(** Which credential a [ValueError] about braces and quotes names. *)
Inductive Field := FUrl | FUsername | FPassword | FCredentials.

(** Exceptions. [ApiException] is modelled from the spec (api_exception.py
    is not among the sources): it carries the status code, the optional
    message, and the raw response. *)
Inductive Exception :=
| ValueError_bad_char (f : Field)
| ValueError_no_credentials
| ValueError_json
| ValueError_empty_separator
| TypeError
| AttributeError
| KeyError (k : string)
| IndexError
| IOError
| ApiException (code : Z) (message : option string) (http_response : Response)
| Foreign (what : string).

Inductive Outcome (A : Type) :=
| Ok (a : A)
| Raise (e : Exception).
Arguments Ok {A} a.
Arguments Raise {A} e.

(** The credentials object of a service binding in VCAP_SERVICES: a JSON
    object with string or null members, or some other JSON value. *)
Inductive Credentials :=
| CredDict (d : gmap string (option string))
| CredOther.

(** A binding, by its credentials member if it has one. *)
Definition Binding := option Credentials.

(** The text of VCAP_SERVICES as [json.loads] reads it. *)
Inductive VcapDoc :=
| VcapInvalid
| VcapObject (services : gmap string (list Binding)).

(** The process environment and file system the constructor reads. *)
Record Env := {
  getenv_IBM_CREDENTIALS_FILE : option string;
  getenv_VCAP_SERVICES : option VcapDoc;
  (** [join(expanduser('~'), DEFAULT_CREDENTIALS_FILE_NAME)] *)
  home_credentials_file : string;
  (** [join(dirname(dirname(abspath(__file__))), DEFAULT_CREDENTIALS_FILE_NAME)] *)
  project_credentials_file : string;
  (** the lines of the file at a path; [None] when there is no such file *)
  read_lines : string -> option (list string)
}.

Definition isfile (E : Env) (p : string) : bool := bool_decide (is_Some (read_lines E p)).

(** [__version__], the [platform] module and [sys.version_info]. *)
Record Platform := {
  version : string;
  platform_system : string;
  platform_release : string;
  platform_python_version : string;
  python3 : bool
}.

(** ** The service object *)

Record BaseService := {
  url : option string;
  http_config : gmap string Atom;
  jar : option CookieJar;
  api_key : option string;
  username : option string;
  password : option string;
  default_headers : option Dict;
  iam_apikey : option string;
  iam_access_token : option string;
  iam_url : option string;
  token_manager : option IAMTokenManager;
  verify : option bool;
  user_agent_header : option Dict;
  vcap_service_credentials : option Credentials
}.

Definition with_url v (s : BaseService) : BaseService :=
  {| url := v; http_config := http_config s; jar := jar s; api_key := api_key s;
     username := username s; password := password s;
     default_headers := default_headers s; iam_apikey := iam_apikey s;
     iam_access_token := iam_access_token s; iam_url := iam_url s;
     token_manager := token_manager s; verify := verify s;
     user_agent_header := user_agent_header s;
     vcap_service_credentials := vcap_service_credentials s |}.
Definition with_http_config v (s : BaseService) : BaseService :=
  {| url := url s; http_config := v; jar := jar s; api_key := api_key s;
     username := username s; password := password s;
     default_headers := default_headers s; iam_apikey := iam_apikey s;
     iam_access_token := iam_access_token s; iam_url := iam_url s;
     token_manager := token_manager s; verify := verify s;
     user_agent_header := user_agent_header s;
     vcap_service_credentials := vcap_service_credentials s |}.
Definition with_jar v (s : BaseService) : BaseService :=
  {| url := url s; http_config := http_config s; jar := v; api_key := api_key s;
     username := username s; password := password s;
     default_headers := default_headers s; iam_apikey := iam_apikey s;
     iam_access_token := iam_access_token s; iam_url := iam_url s;
     token_manager := token_manager s; verify := verify s;
     user_agent_header := user_agent_header s;
     vcap_service_credentials := vcap_service_credentials s |}.
Definition with_username v (s : BaseService) : BaseService :=
  {| url := url s; http_config := http_config s; jar := jar s; api_key := api_key s;
     username := v; password := password s;
     default_headers := default_headers s; iam_apikey := iam_apikey s;
     iam_access_token := iam_access_token s; iam_url := iam_url s;
     token_manager := token_manager s; verify := verify s;
     user_agent_header := user_agent_header s;
     vcap_service_credentials := vcap_service_credentials s |}.
Definition with_password v (s : BaseService) : BaseService :=
  {| url := url s; http_config := http_config s; jar := jar s; api_key := api_key s;
     username := username s; password := v;
     default_headers := default_headers s; iam_apikey := iam_apikey s;
     iam_access_token := iam_access_token s; iam_url := iam_url s;
     token_manager := token_manager s; verify := verify s;
     user_agent_header := user_agent_header s;
     vcap_service_credentials := vcap_service_credentials s |}.
Definition with_default_headers v (s : BaseService) : BaseService :=
  {| url := url s; http_config := http_config s; jar := jar s; api_key := api_key s;
     username := username s; password := password s;
     default_headers := v; iam_apikey := iam_apikey s;
     iam_access_token := iam_access_token s; iam_url := iam_url s;
     token_manager := token_manager s; verify := verify s;
     user_agent_header := user_agent_header s;
     vcap_service_credentials := vcap_service_credentials s |}.
Definition with_iam_apikey v (s : BaseService) : BaseService :=
  {| url := url s; http_config := http_config s; jar := jar s; api_key := api_key s;
     username := username s; password := password s;
     default_headers := default_headers s; iam_apikey := v;
     iam_access_token := iam_access_token s; iam_url := iam_url s;
     token_manager := token_manager s; verify := verify s;
     user_agent_header := user_agent_header s;
     vcap_service_credentials := vcap_service_credentials s |}.
Definition with_iam_access_token v (s : BaseService) : BaseService :=
  {| url := url s; http_config := http_config s; jar := jar s; api_key := api_key s;
     username := username s; password := password s;
     default_headers := default_headers s; iam_apikey := iam_apikey s;
     iam_access_token := v; iam_url := iam_url s;
     token_manager := token_manager s; verify := verify s;
     user_agent_header := user_agent_header s;
     vcap_service_credentials := vcap_service_credentials s |}.
Definition with_iam_url v (s : BaseService) : BaseService :=
  {| url := url s; http_config := http_config s; jar := jar s; api_key := api_key s;
     username := username s; password := password s;
     default_headers := default_headers s; iam_apikey := iam_apikey s;
     iam_access_token := iam_access_token s; iam_url := v;
     token_manager := token_manager s; verify := verify s;
     user_agent_header := user_agent_header s;
     vcap_service_credentials := vcap_service_credentials s |}.
Definition with_token_manager v (s : BaseService) : BaseService :=
  {| url := url s; http_config := http_config s; jar := jar s; api_key := api_key s;
     username := username s; password := password s;
     default_headers := default_headers s; iam_apikey := iam_apikey s;
     iam_access_token := iam_access_token s; iam_url := iam_url s;
     token_manager := v; verify := verify s;
     user_agent_header := user_agent_header s;
     vcap_service_credentials := vcap_service_credentials s |}.
Definition with_verify v (s : BaseService) : BaseService :=
  {| url := url s; http_config := http_config s; jar := jar s; api_key := api_key s;
     username := username s; password := password s;
     default_headers := default_headers s; iam_apikey := iam_apikey s;
     iam_access_token := iam_access_token s; iam_url := iam_url s;
     token_manager := token_manager s; verify := v;
     user_agent_header := user_agent_header s;
     vcap_service_credentials := vcap_service_credentials s |}.
Definition with_user_agent_header v (s : BaseService) : BaseService :=
  {| url := url s; http_config := http_config s; jar := jar s; api_key := api_key s;
     username := username s; password := password s;
     default_headers := default_headers s; iam_apikey := iam_apikey s;
     iam_access_token := iam_access_token s; iam_url := iam_url s;
     token_manager := token_manager s; verify := verify s;
     user_agent_header := v;
     vcap_service_credentials := vcap_service_credentials s |}.
Definition with_vcap_service_credentials v (s : BaseService) : BaseService :=
  {| url := url s; http_config := http_config s; jar := jar s; api_key := api_key s;
     username := username s; password := password s;
     default_headers := default_headers s; iam_apikey := iam_apikey s;
     iam_access_token := iam_access_token s; iam_url := iam_url s;
     token_manager := token_manager s; verify := verify s;
     user_agent_header := user_agent_header s;
     vcap_service_credentials := v |}.

(** ** Methods as state transformers that may raise

    A method takes [self] and gives back what it returned or raised together
    with [self] as the method left it: an assignment made before a [raise]
    stays made. *)

Definition St (S A : Type) : Type := S -> Outcome A * S.

Definition ret {S A} (a : A) : St S A := fun s => (Ok a, s).
Definition raise {S A} (e : Exception) : St S A := fun s => (Raise e, s).
Definition bind {S A B} (m : St S A) (k : A -> St S B) : St S B :=
  fun s =>
    match m s with
    | (Ok a, s') => k a s'
    | (Raise e, s') => (Raise e, s')
    end.
Definition get {S} : St S S := fun s => (Ok s, s).

(** Methods of [BaseService] run on [self]. *)
Definition M (A : Type) : Type := St BaseService A.

Definition assign (f : BaseService -> BaseService) : M unit :=
  fun self => (Ok tt, f self).

Notation "x <- m ;; k" := (bind m (fun x => k))
  (at level 20, m at level 99, k at level 200, only parsing).
Notation "'do' m ;; k" := (bind m (fun _ => k))
  (at level 20, m at level 99, k at level 200, only parsing).

(** [for x in xs: body(x)] *)
Fixpoint for_each {A} (xs : list A) (body : A -> M unit) : M unit :=
  match xs with
  | [] => ret tt
  | x :: xs' => do body x ;; for_each xs' body
  end.

(** Python truthiness of an optional [str]: [None] and the empty string are
    false. *)
Definition truthy (o : option string) : bool :=
  match o with
  | Some (String _ _) => true
  | _ => false
  end.

(** ** utils *)

Definition bad_char (c : ascii) : bool :=
  (Ascii.eqb c "{" || Ascii.eqb c "}" || Ascii.eqb c Str.quote_char)%bool.

(** Modelled from the spec: [utils.has_bad_first_or_last_char] (utils.py is
    not among the sources). The spec: the string must not start or end with
    a brace (opening or closing) or a double-quote character. An absent
    value ([None]) has no such character. *)
Definition has_bad_first_or_last_char (o : option string) : bool :=
  match o with
  | None => false
  | Some s =>
      (from_option bad_char false (Str.first s)
       || from_option bad_char false (Str.last s))%bool
  end.

Definition is_null (a : Atom) : bool :=
  match a with ANone => true | _ => false end.

(** Modelled from the spec: [utils.remove_null_values] (utils.py is not
    among the sources). The spec: null-valued entries are stripped from
    headers, query parameters, JSON body, form body and file-attachment
    maps; what is not a map is passed on as it is. *)
Definition remove_null_values (d : Dict) : Dict :=
  List.filter (fun kv => negb (is_null kv.2)) d.

Definition remove_null_values_body (b : Body) : Body :=
  match b with
  | BDict d => BDict (remove_null_values d)
  | other => other
  end.

(** ** Class constants *)

Definition BEARER : string := "Bearer".
Definition ICP_PREFIX : string := "icp-".
Definition APIKEY : string := "apikey".
Definition IAM_ACCESS_TOKEN : string := "iam_access_token".
Definition URL : string := "url".
Definition USERNAME : string := "username".
Definition PASSWORD : string := "password".
Definition IAM_APIKEY : string := "iam_apikey".
Definition IAM_URL : string := "iam_url".
Definition DEFAULT_CREDENTIALS_FILE_NAME : string := "ibm-credentials.env".

(** ** Setters *)

Definition set_username_and_password (username password : option string) : M unit :=
  do (if has_bad_first_or_last_char username
      then raise (ValueError_bad_char FUsername) else ret tt) ;;
  do (if has_bad_first_or_last_char password
      then raise (ValueError_bad_char FPassword) else ret tt) ;;
  do assign (with_username username) ;;
  do assign (with_password password) ;;
  assign (with_jar (Some EmptyJar)).

Definition set_token_manager (iam_apikey iam_access_token iam_url : option string)
  : M unit :=
  do (if has_bad_first_or_last_char iam_apikey
      then raise (ValueError_bad_char FCredentials) else ret tt) ;;
  do assign (with_token_manager
               (Some {| tm_iam_apikey := iam_apikey;
                        tm_iam_access_token := iam_access_token;
                        tm_iam_url := iam_url |})) ;;
  do assign (with_iam_apikey iam_apikey) ;;
  do assign (with_iam_access_token iam_access_token) ;;
  do assign (with_iam_url iam_url) ;;
  assign (with_jar (Some EmptyJar)).

Definition set_iam_access_token (iam_access_token : option string) : M unit :=
  self <- get ;;
  do match token_manager self with
     | Some tm =>
         assign (with_token_manager (Some (tm_set_access_token iam_access_token tm)))
     | None =>
         assign (with_token_manager
                   (Some {| tm_iam_apikey := None;
                            tm_iam_access_token := iam_access_token;
                            tm_iam_url := None |}))
     end ;;
  do assign (with_iam_access_token iam_access_token) ;;
  assign (with_jar (Some EmptyJar)).

Definition set_iam_url (iam_url : option string) : M unit :=
  self <- get ;;
  do match token_manager self with
     | Some tm =>
         assign (with_token_manager (Some (tm_set_iam_url iam_url tm)))
     | None =>
         assign (with_token_manager
                   (Some {| tm_iam_apikey := None;
                            tm_iam_access_token := None;
                            tm_iam_url := iam_url |}))
     end ;;
  do assign (with_iam_url iam_url) ;;
  assign (with_jar (Some EmptyJar)).

Definition set_iam_apikey (iam_apikey : option string) : M unit :=
  do (if has_bad_first_or_last_char iam_apikey
      then raise (ValueError_bad_char FCredentials) else ret tt) ;;
  self <- get ;;
  do match token_manager self with
     | Some tm =>
         assign (with_token_manager (Some (tm_set_iam_apikey iam_apikey tm)))
     | None =>
         assign (with_token_manager
                   (Some {| tm_iam_apikey := iam_apikey;
                            tm_iam_access_token := None;
                            tm_iam_url := None |}))
     end ;;
  do assign (with_iam_apikey iam_apikey) ;;
  assign (with_jar (Some EmptyJar)).

Definition set_url (url : option string) : M unit :=
  do (if has_bad_first_or_last_char url
      then raise (ValueError_bad_char FUrl) else ret tt) ;;
  assign (with_url url).

Definition set_default_headers (headers : Dict) : M unit :=
  assign (with_default_headers (Some headers)).

Definition get_os_info (P : Platform) : string :=
  let user_agent_string := EmptyString in
  let user_agent_string := user_agent_string +:+ " " +:+ platform_system P in
  let user_agent_string := user_agent_string +:+ " " +:+ platform_release P in
  let user_agent_string := user_agent_string +:+ " " +:+ platform_python_version P in
  user_agent_string.

Definition get_user_agent_header : M (option Dict) :=
  self <- get ;; ret (user_agent_header self).

(** The method has no [return]: the call evaluates to [None]. *)
Definition set_user_agent_header (user_agent_string : option string)
  : M (option Dict) :=
  do assign (with_user_agent_header
               (Some [("user-agent",
                       match user_agent_string with
                       | Some s => AStr s
                       | None => ANone
                       end)])) ;;
  ret None.

Definition set_http_config (http_config : gmap string Atom) : M unit :=
  assign (with_http_config http_config).

Definition disable_SSL_verification : M unit :=
  assign (with_verify (Some false)).

(** ** Credentials file *)

Definition _set_credential_based_on_type (service_name key value : string) : M unit :=
  if Str.contains service_name key then
    if Str.contains APIKEY key then set_iam_apikey (Some value)
    else if Str.contains URL key then set_url (Some value)
    else if Str.contains USERNAME key then assign (with_username (Some value))
    else if Str.contains PASSWORD key then assign (with_password (Some value))
    else if Str.contains IAM_APIKEY key then set_iam_apikey (Some value)
    else if Str.contains IAM_URL key then set_iam_url (Some value)
    else ret tt
  else ret tt.

Definition _load_from_credential_file (E : Env) (service_name : string)
    (separator : string) : M unit :=
  (* File path specified by an env variable *)
  let credential_file_path := getenv_IBM_CREDENTIALS_FILE E in
  (* Home directory *)
  let credential_file_path :=
    match credential_file_path with
    | None =>
        let file_path := home_credentials_file E in
        if isfile E file_path then Some file_path else None
    | Some p => Some p
    end in
  (* Top-level of the project directory *)
  let credential_file_path :=
    match credential_file_path with
    | None =>
        let file_path := project_credentials_file E in
        if isfile E file_path then Some file_path else None
    | Some p => Some p
    end in
  match credential_file_path with
  | Some p =>
      match read_lines E p with
      | None => raise IOError
      | Some fp =>
          for_each fp (fun line =>
            match separator with
            | EmptyString => raise ValueError_empty_separator
            | _ =>
                let key_val := Str.split separator (Str.strip line) in
                match key_val with
                | [k; v] =>
                    _set_credential_based_on_type service_name (Str.lower k) v
                | _ => ret tt
                end
            end)
      end
  | None => ret tt
  end.

(** ** Service catalog *)

Definition _load_from_vcap_services (E : Env) (service_name : string)
  : M (option Credentials) :=
  match getenv_VCAP_SERVICES E with
  | Some vcap_services =>
      match vcap_services with
      | VcapInvalid => raise ValueError_json
      | VcapObject services =>
          match services !! service_name with
          | Some bindings =>
              match bindings with
              | [] => raise IndexError
              | None :: _ => raise (KeyError "credentials")
              | Some c :: _ => ret (Some c)
              end
          | None => ret None
          end
      end
  | None => ret None
  end.

(** ** Constructor *)

(** A [str] handed in as [username]: its characters, and whether it is the
    very object the class attribute [APIKEY] is bound to, which is what
    [username is self.APIKEY] asks. Such an object has the characters of
    [APIKEY]; a string with these characters built at run time is another
    object. *)
Record StrObj := {
  chars : string;
  is_APIKEY_object : bool
}.


Record InitArgs := {
  a_vcap_services_name : string;
  a_url : option string;
  a_username : option StrObj;
  a_password : option string;
  a_use_vcap_services : bool;
  a_api_key : option string;
  a_iam_apikey : option string;
  a_iam_access_token : option string;
  a_iam_url : option string;
  a_display_name : option string
}.

(** The object before [__init__] has assigned anything. *)
Definition fresh : BaseService :=
  {| url := None; http_config := ∅; jar := None; api_key := None;
     username := None; password := None; default_headers := None;
     iam_apikey := None; iam_access_token := None; iam_url := None;
     token_manager := None; verify := None; user_agent_header := None;
     vcap_service_credentials := None |}.

(** 1. Credentials are passed in constructor *)
Definition credentials_from_constructor (a : InitArgs) : M unit :=
  match a_api_key a with
  | Some api_key =>
      if Str.startswith ICP_PREFIX api_key
      then set_username_and_password (Some APIKEY) (Some api_key)
      else set_token_manager (Some api_key) (a_iam_access_token a) (a_iam_url a)
  | None =>
      match a_username a, a_password a with
      | Some username, Some password =>
          if (is_APIKEY_object username
              && negb (Str.startswith ICP_PREFIX password))%bool
          then set_token_manager (Some password) (a_iam_access_token a) (a_iam_url a)
          else set_username_and_password (Some (chars username)) (Some password)
      | _, _ =>
          if (bool_decide (is_Some (a_iam_access_token a))
              || bool_decide (is_Some (a_iam_apikey a)))%bool
          then
            if (truthy (a_iam_apikey a)
                && from_option (Str.startswith ICP_PREFIX) false (a_iam_apikey a))%bool
            then set_username_and_password (Some APIKEY) (a_iam_apikey a)
            else set_token_manager (a_iam_apikey a) (a_iam_access_token a) (a_iam_url a)
          else ret tt
      end
  end.

(** 2. Credentials from credential file *)
Definition credentials_from_file (E : Env) (a : InitArgs) : M unit :=
  self <- get ;;
  if (truthy (a_display_name a) && negb (truthy (username self))
      && negb (bool_decide (is_Some (token_manager self))))%bool
  then
    let service_name :=
      Str.lower (Str.replace " " "_" (default EmptyString (a_display_name a))) in
    _load_from_credential_file E service_name "="
  else ret tt.

(** 3. Credentials from VCAP *)
Definition credentials_from_vcap (E : Env) (a : InitArgs) : M unit :=
  self <- get ;;
  if (a_use_vcap_services a && negb (truthy (username self))
      && negb (bool_decide (is_Some (token_manager self))))%bool
  then
    creds <- _load_from_vcap_services E (a_vcap_services_name a) ;;
    do assign (with_vcap_service_credentials creds) ;;
    match creds with
    | Some (CredDict d) =>
        do match d !! URL with
           | Some u => assign (with_url u)
           | None => raise (KeyError URL)
           end ;;
        do match d !! USERNAME with
           | Some v => assign (with_username v)
           | None => ret tt
           end ;;
        do match d !! PASSWORD with
           | Some v => assign (with_password v)
           | None => ret tt
           end ;;
        do match d !! APIKEY with
           | Some v => set_iam_apikey v
           | None => ret tt
           end ;;
        do match d !! IAM_APIKEY with
           | Some v => set_iam_apikey v
           | None => ret tt
           end ;;
        match d !! IAM_ACCESS_TOKEN with
        | Some v => set_iam_access_token v
        | None => ret tt
        end
    | _ => ret tt
    end
  else ret tt.

(** The closing check of [__init__]. *)
Definition require_credentials : M unit :=
  self <- get ;;
  if ((bool_decide (username self = None) || bool_decide (password self = None))
      && bool_decide (token_manager self = None))%bool
  then raise ValueError_no_credentials
  else ret tt.

(** The attribute assignments that open [__init__]. *)
Definition init_attributes (a : InitArgs) : M unit :=
  do assign (with_url (a_url a)) ;;
  do assign (with_http_config ∅) ;;
  do assign (with_jar None) ;;
  do assign (with_username None) ;;
  do assign (with_password None) ;;
  do assign (with_default_headers None) ;;
  do assign (with_iam_apikey None) ;;
  do assign (with_iam_access_token None) ;;
  do assign (with_iam_url None) ;;
  do assign (with_token_manager None) ;;
  assign (with_verify None).

Definition __init__ (P : Platform) (E : Env) (a : InitArgs) : M unit :=
  do init_attributes a ;;
  self <- get ;;
  do (if has_bad_first_or_last_char (url self)
      then raise (ValueError_bad_char FUrl) else ret tt) ;;
  let user_agent_string := "ibm-python-sdk-core-" +:+ version P +:+ get_os_info P in
  r <- set_user_agent_header (Some user_agent_string) ;;
  do assign (with_user_agent_header r) ;;
  do credentials_from_constructor a ;;
  do credentials_from_file E a ;;
  do credentials_from_vcap E a ;;
  require_credentials.

(** [BaseService(...)]: the object when [__init__] returns, the exception
    when it raises. *)
Definition construct (P : Platform) (E : Env) (a : InitArgs) : Outcome BaseService :=
  match __init__ P E a fresh with
  | (Ok _, self) => Ok self
  | (Raise e, _) => Raise e
  end.

(** [__init__] as far as the explicit arguments go: everything before
    [# 2. Credentials from credential file]. *)
Definition arguments_phase (P : Platform) (a : InitArgs) : M unit :=
  do init_attributes a ;;
  self <- get ;;
  do (if has_bad_first_or_last_char (url self)
      then raise (ValueError_bad_char FUrl) else ret tt) ;;
  let user_agent_string := "ibm-python-sdk-core-" +:+ version P +:+ get_os_info P in
  r <- set_user_agent_header (Some user_agent_string) ;;
  do assign (with_user_agent_header r) ;;
  credentials_from_constructor a.

(** ** Request dispatch *)

(** What [requests.request] is called with. *)
Record TransportRequest := {
  tr_method : string;
  tr_url : string;
  tr_cookies : option CookieJar;
  tr_auth : option (string * string);
  tr_headers : gmap string (string * Atom);
  tr_params : option Dict;
  tr_data : option Body;
  tr_files : option Dict;
  tr_kwargs : gmap string Atom
}.

(** What [request] calls and does not define.
    - [cleanup_value]: utils.cleanup_values is not among the sources and the
      spec does not say what it does to a value; it is taken as a function
      applied to each value of the dictionary, keys kept.
    - [get_token]: [IAMTokenManager.get_token], a token or an exception.
    - [requests_request]: the HTTP transport, a response or an exception. *)
Record Collaborators := {
  cleanup_value : Atom -> Atom;
  get_token : IAMTokenManager -> Outcome string;
  requests_request : TransportRequest -> Outcome Response
}.

Definition cleanup_values (C : Collaborators) (d : Dict) : Dict :=
  (fun kv => (kv.1, cleanup_value C kv.2)) <$> d.

(** Truthiness of [data]: [None], and an empty dict, str, bytes or list, are
    false. *)
Definition body_truthy (data : option Body) : bool :=
  match data with
  | None => false
  | Some (BDict d) => negb (bool_decide (d = []))
  | Some (BStr s) => negb (bool_decide (s = EmptyString))
  | Some (BBytes s) => negb (bool_decide (s = EmptyString))
  | Some (BList l) => negb (bool_decide (l = []))
  end.

(** [json.dumps] inside [request], where [json] is the parameter holding the
    body (the module is imported as [json_import]): the attribute [dumps] is
    looked up on the body, and a dict, str, bytes or list has none. *)
Definition getattr_dumps (json : Body) : Outcome (Body -> string) :=
  match json with
  | BDict _ | BStr _ | BBytes _ | BList _ => Raise AttributeError
  end.

(** The keyword names [request] itself passes to [requests.request]. *)
Definition explicit_keywords : list string :=
  ["method"; "url"; "cookies"; "auth"; "headers"; "params"; "data"; "files"].

(** The call of the transport, recorded on the wire. *)
Definition send (C : Collaborators) (tr : TransportRequest)
  : St (list TransportRequest) Response :=
  fun wire => (requests_request C tr, wire ++ [tr]).

Definition UNAUTHORIZED : string :=
  "Unauthorized: Access is denied due to invalid credentials".

(** [self.url], for where a parameter is called [url] too. *)
Definition self_url (self : BaseService) : option string := url self.

Definition request (C : Collaborators) (P : Platform) (self : BaseService)
    (method url : string) (accept_json : bool) (headers params : option Dict)
    (json data : option Body) (files : option Dict) (kwargs : gmap string Atom)
  : St (list TransportRequest) DetailedResponse :=
  full_url <- match self_url self with
              | Some base => ret (base +:+ url)
              | None => raise TypeError
              end ;;
  let input_headers :=
    match headers with
    | Some ((_ :: _) as h) => remove_null_values h
    | _ => []
    end in
  let input_headers := cleanup_values C input_headers in

  let headers := CaseInsensitiveDict (user_agent_header self) in
  let headers :=
    match default_headers self with
    | Some d => ci_update d headers
    | None => headers
    end in
  let headers :=
    if accept_json then ci_set "accept" (AStr "application/json") headers
    else headers in
  let headers := ci_update input_headers headers in

  (* Remove keys with None values *)
  let params := remove_null_values <$> params in
  let params := cleanup_values C <$> params in
  let json := remove_null_values_body <$> json in
  let data := remove_null_values_body <$> data in
  let files := remove_null_values <$> files in

  let data :=
    match data with
    | Some (BStr s) => if python3 P then Some (BBytes s) else data
    | _ => data
    end in

  dh <- match json with
        | Some j =>
            if negb (body_truthy data) then
              dumps <- match getattr_dumps j with
                       | Ok f => ret f
                       | Raise e => raise e
                       end ;;
              ret (Some (BStr (dumps j)),
                   ci_update [("content-type", AStr "application/json")] headers)
            else ret (data, headers)
        | None => ret (data, headers)
        end ;;
  let data := dh.1 in
  let headers := dh.2 in

  let auth := None in
  headers <- match token_manager self with
             | Some tm =>
                 access_token <- match get_token C tm with
                                 | Ok t => ret t
                                 | Raise e => raise e
                                 end ;;
                 ret (ci_set "Authorization"
                        (AStr (BEARER +:+ " " +:+ access_token)) headers)
             | None => ret headers
             end ;;
  let auth :=
    match username self, password self with
    | Some u, Some p =>
        if (truthy (Some u) && truthy (Some p))%bool then Some (u, p) else auth
    | _, _ => auth
    end in

  let kwargs := kwargs ∪ {["timeout" := AInt 60]} in
  let kwargs := http_config self ∪ kwargs in
  let kwargs :=
    match verify self with
    | Some v => <["verify" := ABool v]> kwargs
    | None => kwargs
    end in

  do (if existsb (fun k => bool_decide (is_Some (kwargs !! k))) explicit_keywords
      then raise TypeError else ret tt) ;;
  response <- send C {| tr_method := method; tr_url := full_url;
                        tr_cookies := jar self; tr_auth := auth;
                        tr_headers := headers; tr_params := params;
                        tr_data := data; tr_files := files;
                        tr_kwargs := kwargs |} ;;

  if ((200 <=? status_code response) && (status_code response <=? 299))%bool then
    if ((status_code response =? 204) || String.eqb method "HEAD")%bool then
      ret {| dr_result := RNone; dr_headers := resp_headers response;
             dr_status_code := status_code response |}
    else if accept_json then
      match json_result response with
      | None =>
          ret {| dr_result := RNone; dr_headers := resp_headers response;
                 dr_status_code := status_code response |}
      | Some response_json =>
          ret {| dr_result := RJson response_json;
                 dr_headers := resp_headers response;
                 dr_status_code := status_code response |}
      end
    else
      ret {| dr_result := RRaw response; dr_headers := resp_headers response;
             dr_status_code := status_code response |}
  else
    let error_message := None in
    let error_message :=
      if status_code response =? 401 then Some UNAUTHORIZED else error_message in
    raise (ApiException (status_code response) error_message response).

(** * Notions the properties are stated with, and sample inputs *)

(** ** Running methods *)


(** The headers a service holds for every request: its user-agent header
    and its default headers. *)
Definition header_defaults (s : BaseService) : option Dict * option Dict :=
  (user_agent_header s, default_headers s).

(** The object when [__init__] has made its first assignments. *)
Definition initial (a : InitArgs) : BaseService := with_url (a_url a) fresh.

(** A property of [self] that a method leaves as it found it. *)
Definition keeps {A X} (f : BaseService -> X) (m : M A) : Prop :=
  forall s o s', m s = (o, s') -> f s' = f s.

(** ** Sample platform, environments and arguments *)

Definition linux : Platform :=
  {| version := "1.0.0"; platform_system := "Linux"; platform_release := "5.4.0";
     platform_python_version := "3.7.3"; python3 := true |}.

(** No credentials file anywhere, no VCAP_SERVICES. *)
Definition bare_env : Env :=
  {| getenv_IBM_CREDENTIALS_FILE := None; getenv_VCAP_SERVICES := None;
     home_credentials_file := "/home/dev/ibm-credentials.env";
     project_credentials_file := "/srv/app/ibm-credentials.env";
     read_lines := fun _ => None |}.

(** IBM_CREDENTIALS_FILE names a file with the given lines. *)
Definition file_env (lines : list string) : Env :=
  {| getenv_IBM_CREDENTIALS_FILE := Some "/etc/ibm-credentials.env";
     getenv_VCAP_SERVICES := None;
     home_credentials_file := "/home/dev/ibm-credentials.env";
     project_credentials_file := "/srv/app/ibm-credentials.env";
     read_lines := fun p =>
       if String.eqb p "/etc/ibm-credentials.env" then Some lines else None |}.

(** VCAP_SERVICES binds the service to the given credentials object. *)
Definition vcap_env (service : string) (d : gmap string (option string)) : Env :=
  {| getenv_IBM_CREDENTIALS_FILE := None;
     getenv_VCAP_SERVICES := Some (VcapObject {[ service := [Some (CredDict d)] ]});
     home_credentials_file := "/home/dev/ibm-credentials.env";
     project_credentials_file := "/srv/app/ibm-credentials.env";
     read_lines := fun _ => None |}.

(** [BaseService(vcap_services_name, url)] with every keyword argument at
    its default. *)
Definition positional (vcap_services_name : string) (url : option string) : InitArgs :=
  {| a_vcap_services_name := vcap_services_name; a_url := url;
     a_username := None; a_password := None; a_use_vcap_services := true;
     a_api_key := None; a_iam_apikey := None; a_iam_access_token := None;
     a_iam_url := None; a_display_name := None |}.

(** ... with [api_key=k] *)
Definition with_api_key (k : string) (a : InitArgs) : InitArgs :=
  {| a_vcap_services_name := a_vcap_services_name a; a_url := a_url a;
     a_username := a_username a; a_password := a_password a;
     a_use_vcap_services := a_use_vcap_services a;
     a_api_key := Some k; a_iam_apikey := a_iam_apikey a;
     a_iam_access_token := a_iam_access_token a;
     a_iam_url := a_iam_url a; a_display_name := a_display_name a |}.

(** ... with [username=u, password=p] *)
Definition with_login (u : StrObj) (p : string) (a : InitArgs) : InitArgs :=
  {| a_vcap_services_name := a_vcap_services_name a; a_url := a_url a;
     a_username := Some u; a_password := Some p;
     a_use_vcap_services := a_use_vcap_services a;
     a_api_key := a_api_key a; a_iam_apikey := a_iam_apikey a;
     a_iam_access_token := a_iam_access_token a;
     a_iam_url := a_iam_url a; a_display_name := a_display_name a |}.

(** ... with [display_name=n] *)
Definition with_display_name (n : string) (a : InitArgs) : InitArgs :=
  {| a_vcap_services_name := a_vcap_services_name a; a_url := a_url a;
     a_username := a_username a; a_password := a_password a;
     a_use_vcap_services := a_use_vcap_services a;
     a_api_key := a_api_key a; a_iam_apikey := a_iam_apikey a;
     a_iam_access_token := a_iam_access_token a;
     a_iam_url := a_iam_url a; a_display_name := Some n |}.

(** ** C1: authentication modes after construction *)

Definition basic_auth_set (s : BaseService) : Prop :=
  is_Some (username s) /\ is_Some (password s).

Definition token_manager_present (s : BaseService) : Prop :=
  is_Some (token_manager s).

Definition exactly_one_mode (s : BaseService) : Prop :=
  (basic_auth_set s /\ ~ token_manager_present s) \/
  (~ basic_auth_set s /\ token_manager_present s).

(** A service binding with a username, a password and an API key. *)
Definition bound_credentials : gmap string (option string) :=
  {[ "url" := Some "https://gateway.test/api"; "username" := Some "bob";
     "password" := Some "hunter2"; "apikey" := Some "k3y" ]}.

(** The service that binding gives. *)
Definition both_modes_service : BaseService :=
  {| url := Some "https://gateway.test/api"; http_config := ∅;
     jar := Some EmptyJar; api_key := None;
     username := Some "bob"; password := Some "hunter2";
     default_headers := None; iam_apikey := Some "k3y";
     iam_access_token := None; iam_url := None;
     token_manager :=
       Some {| tm_iam_apikey := Some "k3y"; tm_iam_access_token := None;
               tm_iam_url := None |};
     verify := None; user_agent_header := None;
     vcap_service_credentials := Some (CredDict bound_credentials) |}.

(** [BaseService('assistant', 'https://default.test', api_key='k3y')] *)
Definition api_key_service : BaseService :=
  {| url := Some "https://default.test"; http_config := ∅;
     jar := Some EmptyJar; api_key := None; username := None; password := None;
     default_headers := None; iam_apikey := Some "k3y";
     iam_access_token := None; iam_url := None;
     token_manager :=
       Some {| tm_iam_apikey := Some "k3y"; tm_iam_access_token := None;
               tm_iam_url := None |};
     verify := None; user_agent_header := None;
     vcap_service_credentials := None |}.

(** ** C3: the credentials-file line for the IAM URL *)

(** The IAM URL held by the token manager, if there is one. *)
Definition token_manager_iam_url (s : BaseService) : option string :=
  tm ← token_manager s; tm_iam_url tm.

(** A credentials file that gives the service an API key and an IAM URL. *)
Definition iam_url_file : list string :=
  ["MY_SERVICE_APIKEY=k3y" +:+ String "010"%char EmptyString;
   "MY_SERVICE_IAM_URL=https://iam.test/token" +:+ String "010"%char EmptyString].

Definition iam_url_file_service : BaseService :=
  {| url := Some "https://iam.test/token"; http_config := ∅;
     jar := Some EmptyJar; api_key := None; username := None; password := None;
     default_headers := None; iam_apikey := Some "k3y";
     iam_access_token := None; iam_url := None;
     token_manager :=
       Some {| tm_iam_apikey := Some "k3y"; tm_iam_access_token := None;
               tm_iam_url := None |};
     verify := None; user_agent_header := None;
     vcap_service_credentials := None |}.

(** ** C5: routing of an explicit API key and of username [apikey] *)

(** A username read at run time: the characters of [apikey], another object. *)
Definition runtime_apikey : StrObj :=
  {| chars := "apikey"; is_APIKEY_object := false |}.

Definition runtime_apikey_service : BaseService :=
  {| url := Some "https://default.test"; http_config := ∅;
     jar := Some EmptyJar; api_key := None;
     username := Some "apikey"; password := Some "s3cret";
     default_headers := None; iam_apikey := None;
     iam_access_token := None; iam_url := None; token_manager := None;
     verify := None; user_agent_header := None;
     vcap_service_credentials := None |}.

Definition runtime_apikey_args : InitArgs :=
  with_login runtime_apikey "s3cret"
    (positional "assistant" (Some "https://default.test")).

(** ** C6: precedence of the explicit arguments *)

(** The explicit arguments have set credentials: when the arguments phase
    returns, a (non-empty) username or a token manager is there. This is
    the test [__init__] makes before it turns to the file and to the
    service catalog. *)
Definition arguments_set_credentials (P : Platform) (a : InitArgs) : Prop :=
  forall u s1,
    arguments_phase P a fresh = (Ok u, s1) ->
    truthy (username s1) = true \/ is_Some (token_manager s1).

(** A credentials file with a username and password for the service. *)
Definition login_file : list string :=
  ["MY_SERVICE_USERNAME=carol" +:+ String "010"%char EmptyString;
   "MY_SERVICE_PASSWORD=pa55" +:+ String "010"%char EmptyString;
   "MY_SERVICE_URL=https://file.test/api" +:+ String "010"%char EmptyString].

(** An explicit API key, with a display name that would find the file. *)
Definition explicit_key_args : InitArgs :=
  with_api_key "k3y"
    (with_display_name "My Service"
       (positional "my_service" (Some "https://default.test"))).

(** Credentials among the explicit arguments that the constructor takes as
    such: an [api_key]; or a [username] that is not the empty string,
    with a [password]; or, without such a pair, an [iam_access_token] or an
    [iam_apikey]. *)
Definition explicit_credentials (a : InitArgs) : Prop :=
  is_Some (a_api_key a) \/
  (exists u p, a_username a = Some u /\ a_password a = Some p /\
               chars u <> EmptyString) \/
  ((a_username a = None \/ a_password a = None) /\
   (is_Some (a_iam_access_token a) \/ is_Some (a_iam_apikey a))).

(** An explicit username that is the empty string, with a password, and a
    display name that finds the file. *)
Definition empty_username_args : InitArgs :=
  with_login {| chars := EmptyString; is_APIKEY_object := false |} "pw"
    (with_display_name "My Service"
       (positional "my_service" (Some "https://default.test"))).

(** What the explicit arguments of [empty_username_args] leave, and the
    service the construction ends with when the file of [login_file] is
    there. *)
Definition empty_username_service : BaseService :=
  {| url := Some "https://default.test"; http_config := ∅;
     jar := Some EmptyJar; api_key := None;
     username := Some EmptyString; password := Some "pw";
     default_headers := None; iam_apikey := None;
     iam_access_token := None; iam_url := None; token_manager := None;
     verify := None; user_agent_header := None;
     vcap_service_credentials := None |}.

Definition overwritten_login_service : BaseService :=
  {| url := Some "https://file.test/api"; http_config := ∅;
     jar := Some EmptyJar; api_key := None;
     username := Some "carol"; password := Some "pa55";
     default_headers := None; iam_apikey := None;
     iam_access_token := None; iam_url := None; token_manager := None;
     verify := None; user_agent_header := None;
     vcap_service_credentials := None |}.

(** ** Request dispatch: what goes on the wire *)

(** The per-call headers as [request] merges them. *)
Definition input_headers_of (C : Collaborators) (headers : option Dict) : Dict :=
  cleanup_values C
    match headers with
    | Some ((_ :: _) as h) => remove_null_values h
    | _ => []
    end.

(** The header map after the four overlays of [request]: user-agent header,
    default headers, [accept], per-call headers. *)
Definition merged_headers (C : Collaborators) (self : BaseService)
    (accept_json : bool) (headers : option Dict) : gmap string (string * Atom) :=
  let h := CaseInsensitiveDict (user_agent_header self) in
  let h := match default_headers self with
           | Some d => ci_update d h
           | None => h
           end in
  let h := if accept_json then ci_set "accept" (AStr "application/json") h else h in
  ci_update (input_headers_of C headers) h.

(** The [auth] argument of the transport call. *)
Definition basic_auth_of (self : BaseService) : option (string * string) :=
  match username self, password self with
  | Some u, Some p =>
      if (truthy (Some u) && truthy (Some p))%bool then Some (u, p) else None
  | _, _ => None
  end.

(** The last step of [request]: from the response to what is returned or
    raised. *)
Definition response_mapping (method : string) (accept_json : bool)
    (response : Response) : Outcome DetailedResponse :=
  if ((200 <=? status_code response) && (status_code response <=? 299))%bool then
    if ((status_code response =? 204) || String.eqb method "HEAD")%bool then
      Ok {| dr_result := RNone; dr_headers := resp_headers response;
            dr_status_code := status_code response |}
    else if accept_json then
      match json_result response with
      | None =>
          Ok {| dr_result := RNone; dr_headers := resp_headers response;
                dr_status_code := status_code response |}
      | Some response_json =>
          Ok {| dr_result := RJson response_json;
                dr_headers := resp_headers response;
                dr_status_code := status_code response |}
      end
    else
      Ok {| dr_result := RRaw response; dr_headers := resp_headers response;
            dr_status_code := status_code response |}
  else
    Raise (ApiException (status_code response)
             (if status_code response =? 401 then Some UNAUTHORIZED else None)
             response).

(** ** C4: a JSON body without raw data *)

(** Collaborators for the sample runs: values are left as they are, the
    token manager hands out a fixed token, the transport answers every
    request with the given response. *)
Definition answering (response : Response) : Collaborators :=
  {| cleanup_value := fun v => v;
     get_token := fun _ => Ok "t0k3n";
     requests_request := fun _ => Ok response |}.

Definition response_with (status : Z) (body : option Body) : Response :=
  {| status_code := status;
     resp_headers := {[ "content-type" := ("Content-Type", "application/json") ]};
     resp_text := EmptyString;
     json_result := body |}.

(** ** C7 and C8: mapping the response *)

(** [service.request('GET', '/v1/status', accept_json=True)] on the service
    built from an API key: what the transport is called with. *)
Definition status_request : TransportRequest :=
  {| tr_method := "GET"; tr_url := "https://default.test/v1/status";
     tr_cookies := Some EmptyJar; tr_auth := None;
     tr_headers :=
       ci_set "Authorization" (AStr "Bearer t0k3n")
         (ci_set "accept" (AStr "application/json") ∅);
     tr_params := None; tr_data := None; tr_files := None;
     tr_kwargs := {[ "timeout" := AInt 60 ]} |}.

Definition no_content : DetailedResponse :=
  {| dr_result := RNone;
     dr_headers := resp_headers (response_with 204 None);
     dr_status_code := 204 |}.

(** ** C10: a service with both a token manager and a username/password *)





(** * More of the module, and notions for its properties *)

(** ** Static helpers *)

(** [_convert_list(val)]: a list (of [str]) is joined with commas, any
    other value is returned as it is. *)
Definition _convert_list (val : list string + Atom) : Atom :=
  match val with
  | inl l => AStr (String.concat "," l)
  | inr v => v
  end.

(** How often a character occurs in a string. *)
Fixpoint count_char (c : ascii) (s : string) : nat :=
  match s with
  | EmptyString => 0
  | String d s' => (if Ascii.eqb d c then 1 else 0) + count_char c s'
  end.

(** ** Credentials file: notions *)

(** The path [_load_from_credential_file] opens: the one named by
    IBM_CREDENTIALS_FILE, else the file in the home directory if there is
    one, else the file in the project directory if there is one. *)
Definition located_file (E : Env) : option string :=
  match getenv_IBM_CREDENTIALS_FILE E with
  | Some p => Some p
  | None =>
      if isfile E (home_credentials_file E) then Some (home_credentials_file E)
      else if isfile E (project_credentials_file E)
           then Some (project_credentials_file E)
           else None
  end.

(** What the loop of [_load_from_credential_file] does with one line. *)
Definition apply_line (service_name separator line : string) : M unit :=
  match separator with
  | EmptyString => raise ValueError_empty_separator
  | _ =>
      match Str.split separator (Str.strip line) with
      | [k; v] => _set_credential_based_on_type service_name (Str.lower k) v
      | _ => ret tt
      end
  end.

(** A line the loader has no use for: it does not consist of exactly one
    key and one value, or its key does not name the service. *)
Definition foreign_line (service_name line : string) : Prop :=
  count_char "=" (Str.strip line) <> 1%nat \/
  forall k v, Str.split "=" (Str.strip line) = [k; v] ->
              Str.contains service_name (Str.lower k) = false.

(** No credentials among the explicit arguments: no [api_key], not both
    [username] and [password], no [iam_apikey], no [iam_access_token]. *)
Definition no_explicit_credentials (a : InitArgs) : Prop :=
  a_api_key a = None /\
  (a_username a = None \/ a_password a = None) /\
  a_iam_apikey a = None /\ a_iam_access_token a = None.

(** A file whose lines the loader has no use for when it looks for
    [my_service]: a comment, a line of another service, a value with a
    second [=] in it. *)
Definition foreign_file : list string :=
  ["# credentials" +:+ String "010"%char EmptyString;
   "OTHER_SERVICE_APIKEY=abc" +:+ String "010"%char EmptyString;
   "MY_SERVICE_URL=https://file.test/api?version=1" +:+ String "010"%char EmptyString].

(** A file with one line for [my_service], between a comment and a line of
    another service. *)
Definition key_file : list string :=
  ["# credentials" +:+ String "010"%char EmptyString;
   "  MY_SERVICE_APIKEY=K3y-Value " +:+ String "010"%char EmptyString;
   "OTHER_SERVICE_APIKEY=abc" +:+ String "010"%char EmptyString].

(** ** Constructor: notions *)

(** The arguments without [username] and [password]. *)
Definition without_login (a : InitArgs) : InitArgs :=
  {| a_vcap_services_name := a_vcap_services_name a; a_url := a_url a;
     a_username := None; a_password := None;
     a_use_vcap_services := a_use_vcap_services a;
     a_api_key := a_api_key a; a_iam_apikey := a_iam_apikey a;
     a_iam_access_token := a_iam_access_token a;
     a_iam_url := a_iam_url a; a_display_name := a_display_name a |}.

(** The environment with another content of VCAP_SERVICES. *)
Definition with_VCAP_SERVICES (v : option VcapDoc) (E : Env) : Env :=
  {| getenv_IBM_CREDENTIALS_FILE := getenv_IBM_CREDENTIALS_FILE E;
     getenv_VCAP_SERVICES := v;
     home_credentials_file := home_credentials_file E;
     project_credentials_file := project_credentials_file E;
     read_lines := read_lines E |}.

(** The credentials file gives nothing: no display name to look for, or no
    file found. *)
Definition no_file_credentials (E : Env) (a : InitArgs) : Prop :=
  truthy (a_display_name a) = false \/ located_file E = None.

(** The service catalog gives nothing: it is not to be used, or
    VCAP_SERVICES is not set, or it has no entry for the service. *)
Definition no_catalog_credentials (E : Env) (a : InitArgs) : Prop :=
  a_use_vcap_services a = false \/
  getenv_VCAP_SERVICES E = None \/
  exists services,
    getenv_VCAP_SERVICES E = Some (VcapObject services) /\
    services !! a_vcap_services_name a = None.

(** IBM_CREDENTIALS_FILE names a file that is not there, while the home
    directory has a credentials file. *)
Definition missing_file_env : Env :=
  {| getenv_IBM_CREDENTIALS_FILE := Some "/etc/missing.env";
     getenv_VCAP_SERVICES := None;
     home_credentials_file := "/home/dev/ibm-credentials.env";
     project_credentials_file := "/srv/app/ibm-credentials.env";
     read_lines := fun p =>
       if String.eqb p "/home/dev/ibm-credentials.env"
       then Some ["MY_SERVICE_APIKEY=k3y"] else None |}.

Definition my_service_args : InitArgs :=
  with_display_name "My Service"
    (positional "my_service" (Some "https://default.test")).

(** The settings of a service that the credentials do not touch. *)
Definition settings (s : BaseService)
  : option string * gmap string Atom * option bool * option Dict :=
  (api_key s, http_config s, verify s, default_headers s).

(** The arguments with [use_vcap_services=False]. *)
Definition without_vcap (a : InitArgs) : InitArgs :=
  {| a_vcap_services_name := a_vcap_services_name a; a_url := a_url a;
     a_username := a_username a; a_password := a_password a;
     a_use_vcap_services := false;
     a_api_key := a_api_key a; a_iam_apikey := a_iam_apikey a;
     a_iam_access_token := a_iam_access_token a;
     a_iam_url := a_iam_url a; a_display_name := a_display_name a |}.

(** The arguments with [username] only. *)
Definition with_username_only (u : StrObj) (a : InitArgs) : InitArgs :=
  {| a_vcap_services_name := a_vcap_services_name a; a_url := a_url a;
     a_username := Some u; a_password := None;
     a_use_vcap_services := a_use_vcap_services a;
     a_api_key := a_api_key a; a_iam_apikey := a_iam_apikey a;
     a_iam_access_token := a_iam_access_token a;
     a_iam_url := a_iam_url a; a_display_name := a_display_name a |}.

(** A service binding without URL. *)
Definition binding_without_url : gmap string (option string) :=
  {[ "username" := Some "bob"; "password" := Some "hunter2" ]}.

(** A service binding whose values have braces and quotes around them. *)
Definition braced_credentials : gmap string (option string) :=
  {[ "url" := Some "{https://gateway.test/api}"; "username" := Some "{bob}";
     "password" := Some "{hunter2}" ]}.

Definition braced_service : BaseService :=
  {| url := Some "{https://gateway.test/api}"; http_config := ∅;
     jar := None; api_key := None;
     username := Some "{bob}"; password := Some "{hunter2}";
     default_headers := None; iam_apikey := None;
     iam_access_token := None; iam_url := None; token_manager := None;
     verify := None; user_agent_header := None;
     vcap_service_credentials := Some (CredDict braced_credentials) |}.

(** ** Invariants *)

(** A property of [self] that a method keeps: it holds when the method
    returns or raises if it held before. *)
Definition preserves {A} (I : BaseService -> Prop) (m : M A) : Prop :=
  forall s o s', I s -> m s = (o, s') -> I s'.

(** The IAM attributes of the service are unset as long as it has no token
    manager. *)
Definition iam_fields_need_token_manager (s : BaseService) : Prop :=
  token_manager s = None ->
  iam_apikey s = None /\ iam_access_token s = None /\ iam_url s = None.

(** The service built from a username and a password. *)
Definition login_service : BaseService :=
  {| url := Some "https://default.test"; http_config := ∅;
     jar := Some EmptyJar; api_key := None;
     username := Some "bob"; password := Some "hunter2";
     default_headers := None; iam_apikey := None;
     iam_access_token := None; iam_url := None; token_manager := None;
     verify := None; user_agent_header := None;
     vcap_service_credentials := None |}.

(** ** What [request] hands to the transport *)

(** The keyword arguments: the caller's over the one-minute timeout, the
    service's [http_config] over those, [verify] over all when it is set. *)
Definition sent_kwargs (self : BaseService) (kwargs : gmap string Atom)
  : gmap string Atom :=
  let kwargs := kwargs ∪ {["timeout" := AInt 60]} in
  let kwargs := http_config self ∪ kwargs in
  match verify self with
  | Some v => <["verify" := ABool v]> kwargs
  | None => kwargs
  end.

(** The body: [data] without its null entries, a [str] encoded on Python 3. *)
Definition sent_data (P : Platform) (data : option Body) : option Body :=
  let data := remove_null_values_body <$> data in
  match data with
  | Some (BStr s) => if python3 P then Some (BBytes s) else data
  | _ => data
  end.

(** A caller's keyword argument, or an [http_config] entry, named like one
    of the arguments [request] passes itself. *)
Definition clashes (self : BaseService) (kwargs : gmap string Atom) : Prop :=
  exists k, k ∈ explicit_keywords /\
            (is_Some (kwargs !! k) \/ is_Some (http_config self !! k)).

(** A token manager whose [get_token] fails. *)
Definition failing_token (e : Exception) (response : Response) : Collaborators :=
  {| cleanup_value := fun v => v;
     get_token := fun _ => Raise e;
     requests_request := fun _ => Ok response |}.

(** ** Calls on a constructed service *)

(** The methods a client calls to configure a service. *)
Inductive Call :=
| call_set_username_and_password (username password : option string)
| call_set_token_manager (iam_apikey iam_access_token iam_url : option string)
| call_set_iam_access_token (iam_access_token : option string)
| call_set_iam_url (iam_url : option string)
| call_set_iam_apikey (iam_apikey : option string)
| call_set_url (url : option string)
| call_set_default_headers (headers : Dict)
| call_set_user_agent_header (user_agent_string : option string)
| call_set_http_config (http_config : gmap string Atom)
| call_disable_SSL_verification.

Definition call (c : Call) : M unit :=
  match c with
  | call_set_username_and_password u p => set_username_and_password u p
  | call_set_token_manager k t u => set_token_manager k t u
  | call_set_iam_access_token t => set_iam_access_token t
  | call_set_iam_url u => set_iam_url u
  | call_set_iam_apikey k => set_iam_apikey k
  | call_set_url u => set_url u
  | call_set_default_headers h => set_default_headers h
  | call_set_user_agent_header ua => do set_user_agent_header ua ;; ret tt
  | call_set_http_config c => set_http_config c
  | call_disable_SSL_verification => disable_SSL_verification
  end.

(** The service after a sequence of calls, each of which returned or raised. *)
Definition after_calls (cs : list Call) (s : BaseService) : BaseService :=
  fold_left (fun s c => (call c s).2) cs s.

(** A client that sets a timeout of its own and switches certificate
    checks off. *)
Definition tuned_service : BaseService :=
  after_calls [call_set_http_config {[ "timeout" := AInt 5; "verify" := ABool true ]};
               call_disable_SSL_verification;
               call_set_username_and_password None None]
    both_modes_service.

Definition tuned_request : TransportRequest :=
  {| tr_method := "GET"; tr_url := "https://gateway.test/api/v1/status";
     tr_cookies := Some EmptyJar; tr_auth := None;
     tr_headers :=
       ci_set "Authorization" (AStr "Bearer t0k3n")
         (ci_set "accept" (AStr "application/json") ∅);
     tr_params := None; tr_data := Some (BBytes "ping"); tr_files := None;
     tr_kwargs := {[ "timeout" := AInt 5; "verify" := ABool false ]} |}.

(** The first of two optional values that is there. *)
Definition or_else {A} (x y : option A) : option A :=
  match x with
  | Some _ => x
  | None => y
  end.

(** The value a [dict] of headers gives for a name, names compared without
    case: the one of the last entry of that name. *)
Definition header_named (k : string) (d : Dict) : option Atom :=
  snd <$> last (List.filter (fun kv => String.eqb (Str.lower kv.1) (Str.lower k)) d).

(** A service with default headers, and what it sends when the caller asks
    for JSON and passes headers of its own. *)
Definition headers_service : BaseService :=
  after_calls [call_set_default_headers
                 [("Accept", AStr "text/plain"); ("X-Test", AStr "default");
                  ("X-Trace", AStr "on")];
               call_set_user_agent_header (Some "sdk-1.0.0")]
    api_key_service.

Definition headers_request : TransportRequest :=
  {| tr_method := "GET"; tr_url := "https://default.test/v1/status";
     tr_cookies := Some EmptyJar; tr_auth := None;
     tr_headers :=
       {[ "user-agent" := ("user-agent", AStr "sdk-1.0.0");
          "authorization" := ("Authorization", AStr "Bearer t0k3n");
          "accept" := ("accept", AStr "application/json");
          "x-test" := ("x-TEST", AStr "second");
          "x-trace" := ("X-Trace", AStr "on") ]};
     tr_params := None; tr_data := None; tr_files := None;
     tr_kwargs := {[ "timeout" := AInt 60 ]} |}.

(** * Properties *)

(** ** Python [str] methods on sample strings *)

Example split_ex1 : Str.split "=" "A_B=c=d" = ["A_B"; "c"; "d"].
Proof. reflexivity. Qed.
Example split_ex2 : Str.split "==" "a===b" = ["a"; "=b"].
Proof. reflexivity. Qed.
Example split_ex3 : Str.split "=" "k=" = ["k"; EmptyString].
Proof. reflexivity. Qed.
Example strip_ex : Str.strip ("  a b " +:+ String "010"%char EmptyString) = "a b".
Proof. reflexivity. Qed.
Example lower_ex : Str.lower "My_Service_IAM_URL" = "my_service_iam_url".
Proof. reflexivity. Qed.

(** The letters A to Z and nothing else are mapped by [lower]. *)
Example lower_ex_bounds : Str.lower "@AMZ[`amz{09 _-" = "@amz[`amz{09 _-".
Proof. reflexivity. Qed.

(** The characters 9 to 13, 28 to 31 and the blank are dropped at both ends
    by [strip], their neighbours 8, 14, 27 and 33 are not. *)
Example strip_ex_spaces :
  Str.strip
    (String "009"%char (String "010"%char (String "011"%char
       (String "012"%char (String "013"%char (String "028"%char
          (String "029"%char (String "030"%char (String "031"%char
             (String "032"%char
                ("k=v w" +:+
                 String "032"%char (String "031"%char (String "028"%char
                   (String "013"%char (String "009"%char EmptyString)))))))))))))))
  = "k=v w".
Proof. reflexivity. Qed.

Example strip_ex_kept :
  Str.strip (String "008"%char (String "014"%char (String "027"%char "!x!")))
  = (String "008"%char (String "014"%char (String "027"%char "!x!"))) /\
  Str.strip
    ("!x" +:+ String "027"%char (String "014"%char (String "008"%char EmptyString)))
  = "!x" +:+ String "027"%char (String "014"%char (String "008"%char EmptyString)).
Proof. split; reflexivity. Qed.

Example is_ascii_ex :
  Str.is_ascii "MY_SERVICE_APIKEY=k3y~" = true /\
  Str.is_ascii (String "127"%char EmptyString) = true /\
  Str.is_ascii (String "128"%char EmptyString) = false /\
  Str.is_ascii ("k3y" +:+ String "194"%char (String "160"%char EmptyString)) = false.
Proof. repeat split; reflexivity. Qed.

(** ** Strings *)

Lemma append_cons (c : ascii) (a b : string) :
  String c a +:+ b = String c (a +:+ b).
Proof. reflexivity. Qed.

Lemma append_empty (b : string) : EmptyString +:+ b = b.
Proof. reflexivity. Qed.

Lemma prefix_app (p s : string) :
  String.prefix p s = true <-> exists r, s = p +:+ r.
Proof.
  revert s. induction p as [|c p IH]; intros s.
  - destruct s; split; intros; try reflexivity; eexists; apply eq_sym, append_empty.
  - destruct s as [|d s].
    + split; [discriminate | intros [r Hr]; rewrite append_cons in Hr; discriminate].
    + change (String.prefix (String c p) (String d s))
        with (if Ascii.ascii_dec c d then String.prefix p s else false).
      destruct (Ascii.ascii_dec c d) as [->|Hne].
      * rewrite IH. split; intros [r Hr]; exists r; rewrite append_cons in *; congruence.
      * split; [discriminate|].
        intros [r Hr]. rewrite append_cons in Hr. congruence.
Qed.

Lemma app_assoc_string (a b c : string) : (a +:+ b) +:+ c = a +:+ (b +:+ c).
Proof.
  induction a as [|x a IH]; [reflexivity|].
  rewrite !append_cons. congruence.
Qed.

(** [sub in s] holds exactly when [s] is some text, [sub], some text. *)
Lemma contains_app (sub s : string) :
  Str.contains sub s = true <-> exists l r, s = l +:+ sub +:+ r.
Proof.
  induction s as [|c s IH].
  - change (Str.contains sub EmptyString)
      with (String.prefix sub EmptyString || false)%bool.
    rewrite orb_false_r, prefix_app. split.
    + intros [r Hr]. exists EmptyString, r. exact Hr.
    + intros (l & r & H). destruct l as [|d l].
      * rewrite append_empty in H. eauto.
      * rewrite append_cons in H. discriminate.
  - change (Str.contains sub (String c s))
      with (String.prefix sub (String c s) || Str.contains sub s)%bool.
    rewrite orb_true_iff, prefix_app, IH. split.
    + intros [[r Hr] | (l & r & H)].
      * exists EmptyString, r. exact Hr.
      * exists (String c l), r. rewrite append_cons. congruence.
    + intros (l & r & H). destruct l as [|d l].
      * left. rewrite append_empty in H. eauto.
      * right. exists l, r. rewrite append_cons in H. congruence.
Qed.

(** A key that has [a ++ b] in it has [b] in it. *)
Lemma contains_suffix (a b s : string) :
  Str.contains (a +:+ b) s = true -> Str.contains b s = true.
Proof.
  rewrite !contains_app. intros (l & r & ->).
  exists (l +:+ a), r. rewrite !app_assoc_string. reflexivity.
Qed.

Lemma contains_iam_url_url (key : string) :
  Str.contains IAM_URL key = true -> Str.contains URL key = true.
Proof. apply (contains_suffix "iam_" URL). Qed.

Lemma contains_iam_apikey_apikey (key : string) :
  Str.contains IAM_APIKEY key = true -> Str.contains APIKEY key = true.
Proof. apply (contains_suffix "iam_" APIKEY). Qed.

(** ** Running methods *)

Lemma bind_ok {S A B} (m : St S A) (k : A -> St S B) s a s' :
  m s = (Ok a, s') -> bind m k s = k a s'.
Proof. intros H. unfold bind. rewrite H. reflexivity. Qed.

Lemma bind_raise {S A B} (m : St S A) (k : A -> St S B) s e s' :
  m s = (Raise e, s') -> bind m k s = (Raise e, s').
Proof. intros H. unfold bind. rewrite H. reflexivity. Qed.






(** [__init__] is its arguments phase, then the file, then the service
    catalog, then the closing check. *)
Lemma __init___phases (P : Platform) (E : Env) (a : InitArgs) (s : BaseService) :
  __init__ P E a s =
    (do arguments_phase P a ;;
     do credentials_from_file E a ;;
     do credentials_from_vcap E a ;;
     require_credentials) s.
Proof.
  unfold __init__, arguments_phase, bind.
  destruct (init_attributes a s) as [[[]|e] s1]; [|reflexivity].
  unfold get.
  destruct (if has_bad_first_or_last_char (url s1) then _ else _) as [[[]|e] s2];
    [|reflexivity].
  destruct (set_user_agent_header _ s2) as [[r|e] s3]; [|reflexivity].
  destruct (assign _ s3) as [[[]|e] s4]; [|reflexivity].
  destruct (credentials_from_constructor a s4) as [[[]|e] s5]; reflexivity.
Qed.

Lemma arguments_phase_run (P : Platform) (a : InitArgs) :
  arguments_phase P a fresh =
    if has_bad_first_or_last_char (a_url a)
    then (Raise (ValueError_bad_char FUrl), initial a)
    else credentials_from_constructor a (initial a).
Proof.
  unfold arguments_phase, init_attributes, bind, assign, get, set_user_agent_header.
  simpl. destruct (has_bad_first_or_last_char (a_url a)); reflexivity.
Qed.

(** Unfolds the setters and the monad. *)
Ltac run :=
  unfold set_username_and_password, set_token_manager, set_iam_access_token,
    set_iam_url, set_iam_apikey, set_url, bind, assign, get, ret, raise in *;
  simpl in *.

(** What the explicit arguments can leave behind: an exception about braces
    and quotes, nothing, a username and password, or a token manager. *)
Lemma credentials_from_constructor_modes (a : InitArgs) o s1 :
  credentials_from_constructor a (initial a) = (o, s1) ->
  header_defaults s1 = (None, None) /\
  match o with
  | Raise e => exists f, e = ValueError_bad_char f
  | Ok _ =>
      s1 = initial a \/
      (is_Some (username s1) /\ is_Some (password s1) /\ token_manager s1 = None) \/
      (username s1 = None /\ password s1 = None /\ is_Some (token_manager s1))
  end.
Proof.
  unfold credentials_from_constructor. intros H.
  destruct (a_iam_apikey a) as [k|] eqn:Hk;
    repeat case_match; run; repeat case_match; simplify_eq; simpl;
    (split; [reflexivity|]); eauto 10.
Qed.

Lemma truthy_is_Some (o : option string) : truthy o = true -> is_Some o.
Proof. destruct o; [eauto | discriminate]. Qed.

(** Once a non-empty username or a token manager is there, the credentials
    file is not looked for. *)
Lemma credentials_from_file_skip (E : Env) (a : InitArgs) (self : BaseService) :
  truthy (username self) = true \/ is_Some (token_manager self) ->
  credentials_from_file E a self = (Ok tt, self).
Proof.
  intros H. unfold credentials_from_file, bind, get.
  destruct H as [->| [tm ->]]; simpl;
    rewrite ?andb_false_r; reflexivity.
Qed.

(** Nor is the service catalog read. *)
Lemma credentials_from_vcap_skip (E : Env) (a : InitArgs) (self : BaseService) :
  truthy (username self) = true \/ is_Some (token_manager self) ->
  credentials_from_vcap E a self = (Ok tt, self).
Proof.
  intros H. unfold credentials_from_vcap, bind, get.
  destruct H as [->| [tm ->]]; simpl;
    rewrite ?andb_false_r; reflexivity.
Qed.

Lemma keeps_bind {A B X} (f : BaseService -> X) (m : M A) (k : A -> M B) :
  keeps f m -> (forall x, keeps f (k x)) -> keeps f (bind m k).
Proof.
  intros Hm Hk s o s' H. unfold bind in H.
  destruct (m s) as [[x|e] s1] eqn:E1.
  - rewrite (Hk x _ _ _ H). eauto.
  - simplify_eq. eauto.
Qed.

Lemma keeps_ret {A X} (f : BaseService -> X) (x : A) : keeps f (ret x).
Proof. intros s o s' H. unfold ret in H. by simplify_eq. Qed.

Lemma keeps_raise {A X} (f : BaseService -> X) e : keeps f (@raise _ A e).
Proof. intros s o s' H. unfold raise in H. by simplify_eq. Qed.

Lemma keeps_for_each {A X} (f : BaseService -> X) (xs : list A) (body : A -> M unit) :
  (forall x, keeps f (body x)) -> keeps f (for_each xs body).
Proof.
  intros Hb. induction xs as [|x xs IH]; simpl.
  - apply keeps_ret.
  - apply keeps_bind; auto.
Qed.

Ltac keeps_setter :=
  intros ? ? ? ?; run; repeat case_match; simplify_eq; reflexivity.

Lemma set_iam_apikey_keeps_ua k : keeps header_defaults (set_iam_apikey k).
Proof. keeps_setter. Qed.

Lemma set_iam_access_token_keeps_ua k :
  keeps header_defaults (set_iam_access_token k).
Proof. keeps_setter. Qed.

Lemma set_iam_url_keeps_ua k : keeps header_defaults (set_iam_url k).
Proof. keeps_setter. Qed.

Lemma set_url_keeps_ua k : keeps header_defaults (set_url k).
Proof. keeps_setter. Qed.

Lemma _set_credential_based_on_type_keeps_ua sn key value :
  keeps header_defaults (_set_credential_based_on_type sn key value).
Proof.
  unfold _set_credential_based_on_type.
  repeat case_match;
    auto using set_iam_apikey_keeps_ua, set_url_keeps_ua, set_iam_url_keeps_ua,
      keeps_ret;
    keeps_setter.
Qed.

Lemma credentials_from_file_keeps_ua E a :
  keeps header_defaults (credentials_from_file E a).
Proof.
  unfold credentials_from_file. apply keeps_bind; [keeps_setter|].
  intros self. case_match; [|apply keeps_ret].
  unfold _load_from_credential_file.
  repeat case_match; try apply keeps_ret; try apply keeps_raise;
    apply keeps_for_each; intros line;
    repeat case_match; try apply keeps_ret; try apply keeps_raise;
    apply _set_credential_based_on_type_keeps_ua.
Qed.

Lemma credentials_from_vcap_keeps_ua E a :
  keeps header_defaults (credentials_from_vcap E a).
Proof.
  unfold credentials_from_vcap. apply keeps_bind; [keeps_setter|].
  intros self. case_match; [|apply keeps_ret].
  apply keeps_bind.
  { unfold _load_from_vcap_services.
    repeat case_match; try apply keeps_ret; apply keeps_raise. }
  intros creds. apply keeps_bind; [keeps_setter|]. intros _.
  destruct creds as [[d|]|]; try apply keeps_ret.
  repeat (apply keeps_bind; [|intros _]);
    repeat case_match;
    auto using set_iam_apikey_keeps_ua, set_iam_access_token_keeps_ua,
      keeps_ret, keeps_raise;
    keeps_setter.
Qed.

Lemma require_credentials_keeps {X} (f : BaseService -> X) :
  keeps f require_credentials.
Proof. intros s o s' H. unfold require_credentials in H. run. by case_match; simplify_eq. Qed.

(** ** Constructor: the outcome of the arguments phase decides *)

Lemma arguments_phase_modes (P : Platform) (a : InitArgs) o s1 :
  arguments_phase P a fresh = (o, s1) ->
  header_defaults s1 = (None, None) /\
  match o with
  | Raise e => exists f, e = ValueError_bad_char f
  | Ok _ =>
      s1 = initial a \/
      (is_Some (username s1) /\ is_Some (password s1) /\ token_manager s1 = None) \/
      (username s1 = None /\ password s1 = None /\ is_Some (token_manager s1))
  end.
Proof.
  rewrite arguments_phase_run.
  destruct (has_bad_first_or_last_char (a_url a)).
  - intros [= <- <-]. split; [reflexivity | eauto].
  - apply credentials_from_constructor_modes.
Qed.

Lemma construct_raise_early (P : Platform) (E : Env) (a : InitArgs) e s1 :
  arguments_phase P a fresh = (Raise e, s1) -> construct P E a = Raise e.
Proof.
  intros H. unfold construct. rewrite __init___phases.
  rewrite (bind_raise _ _ _ _ _ H). reflexivity.
Qed.

(** When the arguments leave a non-empty username or a token manager, the
    object [__init__] ends with is the one they left. *)
Lemma construct_decided (P : Platform) (E : Env) (a : InitArgs) u s1 :
  arguments_phase P a fresh = (Ok u, s1) ->
  truthy (username s1) = true \/ is_Some (token_manager s1) ->
  construct P E a = Ok s1.
Proof.
  intros H Hset. unfold construct. rewrite __init___phases.
  rewrite (bind_ok _ _ _ _ _ H).
  rewrite (bind_ok _ _ _ _ _ (credentials_from_file_skip E a s1 Hset)).
  rewrite (bind_ok _ _ _ _ _ (credentials_from_vcap_skip E a s1 Hset)).
  destruct (arguments_phase_modes P a _ _ H) as [_ [-> | [(Hu & Hp & _) | (_ & _ & Ht)]]].
  - destruct Hset as [Hset | [tm Htm]]; discriminate.
  - destruct Hu as [x Hu], Hp as [y Hp].
    unfold require_credentials, bind, get. rewrite Hu, Hp. reflexivity.
  - destruct Ht as [tm Ht].
    unfold require_credentials, bind, get. rewrite Ht.
    simpl. rewrite andb_false_r. reflexivity.
Qed.

(** An explicit [api_key] is routed by its prefix. *)
Lemma credentials_from_constructor_api_key (a : InitArgs) (k : string) s :
  a_api_key a = Some k ->
  credentials_from_constructor a s =
    if Str.startswith ICP_PREFIX k
    then set_username_and_password (Some APIKEY) (Some k) s
    else set_token_manager (Some k) (a_iam_access_token a) (a_iam_url a) s.
Proof.
  intros H. unfold credentials_from_constructor. rewrite H.
  destruct (Str.startswith ICP_PREFIX k); reflexivity.
Qed.

Lemma arguments_phase_api_key (P : Platform) (a : InitArgs) (k : string) u s1 :
  a_api_key a = Some k ->
  arguments_phase P a fresh = (Ok u, s1) ->
  if Str.startswith ICP_PREFIX k
  then username s1 = Some APIKEY /\ password s1 = Some k /\ token_manager s1 = None
  else username s1 = None /\ password s1 = None /\ iam_apikey s1 = Some k /\
       token_manager s1 =
         Some {| tm_iam_apikey := Some k;
                 tm_iam_access_token := a_iam_access_token a;
                 tm_iam_url := a_iam_url a |}.
Proof.
  intros Hk. rewrite arguments_phase_run.
  destruct (has_bad_first_or_last_char (a_url a)); [discriminate|].
  rewrite (credentials_from_constructor_api_key a k _ Hk).
  destruct (Str.startswith ICP_PREFIX k); intros H; run;
    repeat case_match; simplify_eq; auto.
Qed.

Lemma api_key_decides (P : Platform) (a : InitArgs) (k : string) u s1 :
  a_api_key a = Some k ->
  arguments_phase P a fresh = (Ok u, s1) ->
  truthy (username s1) = true \/ is_Some (token_manager s1).
Proof.
  intros Hk H. pose proof (arguments_phase_api_key P a k u s1 Hk H) as R.
  destruct (Str.startswith ICP_PREFIX k).
  - destruct R as (-> & _). left. reflexivity.
  - destruct R as (_ & _ & _ & ->). right. eauto.
Qed.

(** ** C1: authentication modes after construction *)

Lemma construct_both_modes_service :
  construct linux (vcap_env "assistant" bound_credentials)
    (positional "assistant" (Some "https://default.test")) = Ok both_modes_service.
Proof. vm_compute. reflexivity. Qed.

(** C1, as stated, fails: a service binding that carries a username, a
    password and an API key constructs a service with both modes active. *)
Lemma C1_catalog_sets_both_modes :
  construct linux (vcap_env "assistant" bound_credentials)
    (positional "assistant" (Some "https://default.test")) = Ok both_modes_service /\
  basic_auth_set both_modes_service /\
  token_manager_present both_modes_service /\
  ~ exactly_one_mode both_modes_service.
Proof.
  assert (Hb : basic_auth_set both_modes_service) by (split; eexists; reflexivity).
  assert (Ht : token_manager_present both_modes_service) by (eexists; reflexivity).
  split; [apply construct_both_modes_service|].
  split; [exact Hb|]. split; [exact Ht|].
  intros [[_ Hn] | [Hn _]]; contradiction.
Qed.

Lemma require_credentials_ok u (s s' : BaseService) :
  require_credentials s = (Ok u, s') ->
  s' = s /\ (basic_auth_set s \/ token_manager_present s).
Proof.
  unfold require_credentials, bind, get, raise, ret,
    basic_auth_set, token_manager_present.
  destruct (username s) as [x|], (password s) as [y|], (token_manager s) as [t|];
    simpl; intros ?; simplify_eq; (split; [reflexivity|]); eauto.
Qed.

Lemma bind_ok_inv {S A B} (m : St S A) (k : A -> St S B) s b s' :
  bind m k s = (Ok b, s') ->
  exists a s1, m s = (Ok a, s1) /\ k a s1 = (Ok b, s').
Proof.
  unfold bind. destruct (m s) as [[x|e] s1]; [eauto | discriminate].
Qed.

Lemma outcome_of_run_inv {A} (x : Outcome A * BaseService) (s : BaseService) :
  match x with
  | (Ok _, self) => Ok self
  | (Raise e, _) => Raise e
  end = Ok s ->
  exists u, x = (Ok u, s).
Proof. destruct x as [[u|e] s']; intros H; simplify_eq. eauto. Qed.

Lemma construct_eq (P : Platform) (E : Env) (a : InitArgs) :
  construct P E a =
    match __init__ P E a fresh with
    | (Ok _, self) => Ok self
    | (Raise e, _) => Raise e
    end.
Proof. reflexivity. Qed.

(** A construction that succeeds went through all four phases. *)
Lemma construct_inv (P : Platform) (E : Env) (a : InitArgs) (s : BaseService) :
  construct P E a = Ok s ->
  exists u1 s1 u2 s2 u3 s3 u4,
    arguments_phase P a fresh = (Ok u1, s1) /\
    credentials_from_file E a s1 = (Ok u2, s2) /\
    credentials_from_vcap E a s2 = (Ok u3, s3) /\
    require_credentials s3 = (Ok u4, s).
Proof.
  intros H. rewrite construct_eq in H.
  apply outcome_of_run_inv in H as [u H].
  rewrite __init___phases in H.
  apply bind_ok_inv in H as (u1 & s1 & H1 & H).
  apply bind_ok_inv in H as (u2 & s2 & H2 & H).
  apply bind_ok_inv in H as (u3 & s3 & H3 & H).
  exists u1, s1, u2, s2, u3, s3, u. auto.
Qed.

(** C1, amended: after every successful construction at least one mode is
    active -- username and password are both set, or a token manager is
    present -- and with an explicit [api_key] argument exactly one is. *)
Theorem C1_at_least_one_mode (P : Platform) (E : Env) (a : InitArgs) (s : BaseService) :
  construct P E a = Ok s ->
  (basic_auth_set s \/ token_manager_present s) /\
  (is_Some (a_api_key a) -> exactly_one_mode s).
Proof.
  intros H. split.
  - apply construct_inv in H
      as (u1 & s1 & u2 & s2 & u3 & s3 & u4 & _ & _ & _ & H).
    apply require_credentials_ok in H as [-> H]. exact H.
  - intros [k Hk].
    destruct (arguments_phase P a fresh) as [[u|e] s1] eqn:Ha.
    + pose proof (api_key_decides P a k u s1 Hk Ha) as Hd.
      rewrite (construct_decided P E a u s1 Ha Hd) in H. injection H as <-.
      pose proof (arguments_phase_api_key P a k u s1 Hk Ha) as R.
      unfold exactly_one_mode, basic_auth_set, token_manager_present.
      destruct (Str.startswith ICP_PREFIX k).
      * destruct R as (Hu & Hp & Ht). rewrite Hu, Hp, Ht. left.
        split; [split; eexists; reflexivity|].
        intros [t Hn]. discriminate Hn.
      * destruct R as (Hu & Hp & _ & Ht). rewrite Hu, Ht. right.
        split; [|eexists; reflexivity].
        intros [[x Hn] _]. discriminate Hn.
    + rewrite (construct_raise_early P E a e s1 Ha) in H. discriminate.
Qed.

Lemma construct_api_key_service (E : Env) :
  construct linux E
    (with_api_key "k3y" (positional "assistant" (Some "https://default.test")))
  = Ok api_key_service.
Proof.
  apply (construct_decided linux E _ tt api_key_service).
  - vm_compute. reflexivity.
  - right. eexists. reflexivity.
Qed.

Lemma C1_at_least_one_mode_witness :
  (basic_auth_set api_key_service \/ token_manager_present api_key_service) /\
  (is_Some (Some "k3y") -> exactly_one_mode api_key_service).
Proof.
  apply (C1_at_least_one_mode linux bare_env
           (with_api_key "k3y" (positional "assistant" (Some "https://default.test")))
           api_key_service).
  vm_compute. reflexivity.
Defined.

(** ** C2: braces and quotes *)





(** ** C3: the credentials-file line for the IAM URL *)

Lemma set_iam_apikey_keeps_iam_url k : keeps iam_url (set_iam_apikey k).
Proof. keeps_setter. Qed.

Lemma set_url_keeps_iam_url k : keeps iam_url (set_url k).
Proof. keeps_setter. Qed.

Lemma set_iam_apikey_keeps_tm_iam_url k :
  keeps token_manager_iam_url (set_iam_apikey k).
Proof.
  intros s o s' H. unfold token_manager_iam_url. run.
  repeat case_match; simplify_eq; simpl; try reflexivity.
  all: match goal with Ht : token_manager _ = _ |- _ => rewrite Ht end;
    reflexivity.
Qed.

Lemma set_url_keeps_tm_iam_url k : keeps token_manager_iam_url (set_url k).
Proof. keeps_setter. Qed.

(** C3 (defect in the code): a line whose key has the service name and
    [iam_url] in it never reaches [set_iam_url]: [url] is part of [iam_url]
    and is tested first, so the line's value becomes the service URL (or,
    with [apikey] in the key too, the API key); the IAM URL of the service
    and of its token manager stay as they were. *)
Theorem C3_iam_url_line_sets_service_url
    (service_name key value : string) (self : BaseService) :
  Str.contains service_name key = true ->
  Str.contains IAM_URL key = true ->
  _set_credential_based_on_type service_name key value self =
    (if Str.contains APIKEY key then set_iam_apikey (Some value) self
     else set_url (Some value) self) /\
  forall o self',
    _set_credential_based_on_type service_name key value self = (o, self') ->
    iam_url self' = iam_url self /\
    token_manager_iam_url self' = token_manager_iam_url self.
Proof.
  intros Hname Hiam.
  assert (Heq : _set_credential_based_on_type service_name key value self =
    (if Str.contains APIKEY key then set_iam_apikey (Some value) self
     else set_url (Some value) self)).
  { unfold _set_credential_based_on_type.
    rewrite Hname, (contains_iam_url_url key Hiam).
    destruct (Str.contains APIKEY key); reflexivity. }
  split; [exact Heq|].
  intros o self' H. rewrite Heq in H.
  destruct (Str.contains APIKEY key).
  - split.
    + exact (set_iam_apikey_keeps_iam_url _ _ _ _ H).
    + exact (set_iam_apikey_keeps_tm_iam_url _ _ _ _ H).
  - split.
    + exact (set_url_keeps_iam_url _ _ _ _ H).
    + exact (set_url_keeps_tm_iam_url _ _ _ _ H).
Qed.

Lemma C3_iam_url_line_sets_service_url_witness :
  _set_credential_based_on_type "my_service" "my_service_iam_url"
    "https://iam.test/token" api_key_service =
    (if Str.contains APIKEY "my_service_iam_url"
     then set_iam_apikey (Some "https://iam.test/token") api_key_service
     else set_url (Some "https://iam.test/token") api_key_service) /\
  forall o self',
    _set_credential_based_on_type "my_service" "my_service_iam_url"
      "https://iam.test/token" api_key_service = (o, self') ->
    iam_url self' = iam_url api_key_service /\
    token_manager_iam_url self' = token_manager_iam_url api_key_service.
Proof.
  apply (C3_iam_url_line_sets_service_url "my_service" "my_service_iam_url"
           "https://iam.test/token" api_key_service); reflexivity.
Defined.

(** Constructed from that file, the service has the IAM URL as its base URL
    and a token manager without IAM URL. *)
Lemma construct_iam_url_file_service :
  construct linux (file_env iam_url_file)
    (with_display_name "My Service"
       (positional "my_service" (Some "https://default.test")))
  = Ok iam_url_file_service.
Proof. vm_compute. reflexivity. Qed.

(** ** C5: routing of an explicit API key and of username [apikey] *)

(** The part of C5 about [api_key] holds: with the prefix, basic auth with
    username [apikey] and the key as password; without, a token manager. *)
Lemma api_key_routing (P : Platform) (E : Env) (a : InitArgs) (k : string)
    (s : BaseService) :
  a_api_key a = Some k ->
  construct P E a = Ok s ->
  if Str.startswith ICP_PREFIX k
  then username s = Some APIKEY /\ password s = Some k /\ token_manager s = None
  else username s = None /\ password s = None /\ iam_apikey s = Some k /\
       token_manager s =
         Some {| tm_iam_apikey := Some k;
                 tm_iam_access_token := a_iam_access_token a;
                 tm_iam_url := a_iam_url a |}.
Proof.
  intros Hk H.
  destruct (arguments_phase P a fresh) as [[u|e] s1] eqn:Ha.
  - pose proof (api_key_decides P a k u s1 Hk Ha) as Hd.
    rewrite (construct_decided P E a u s1 Ha Hd) in H. injection H as <-.
    exact (arguments_phase_api_key P a k u s1 Hk Ha).
  - rewrite (construct_raise_early P E a e s1 Ha) in H. discriminate.
Qed.

(** So does the part about a username that is the [APIKEY] object itself. *)
Lemma apikey_object_username_redirected (P : Platform) (E : Env) (a : InitArgs)
    (u : StrObj) (p : string) (s : BaseService) :
  a_api_key a = None -> a_username a = Some u -> a_password a = Some p ->
  is_APIKEY_object u = true -> Str.startswith ICP_PREFIX p = false ->
  construct P E a = Ok s ->
  username s = None /\
  token_manager s =
    Some {| tm_iam_apikey := Some p;
            tm_iam_access_token := a_iam_access_token a;
            tm_iam_url := a_iam_url a |}.
Proof.
  intros Hk Hu Hp Hobj Hicp H.
  destruct (arguments_phase P a fresh) as [[x|e] s1] eqn:Ha.
  - assert (R : username s1 = None /\
                token_manager s1 =
                  Some {| tm_iam_apikey := Some p;
                          tm_iam_access_token := a_iam_access_token a;
                          tm_iam_url := a_iam_url a |}).
    { rewrite arguments_phase_run in Ha.
      destruct (has_bad_first_or_last_char (a_url a)); [discriminate|].
      unfold credentials_from_constructor in Ha.
      rewrite Hk, Hu, Hp, Hobj, Hicp in Ha. simpl in Ha.
      run. repeat case_match; simplify_eq; auto. }
    assert (Hd : truthy (username s1) = true \/ is_Some (token_manager s1)).
    { right. destruct R as [_ ->]. eauto. }
    rewrite (construct_decided P E a x s1 Ha Hd) in H. injection H as <-.
    exact R.
  - rewrite (construct_raise_early P E a e s1 Ha) in H. discriminate.
Qed.

(** C5 (defect in the code): the comparison is [username is self.APIKEY],
    on the object and not on its characters. A username with the characters
    of [apikey] that is another object, with a password without the prefix,
    is not redirected: the service gets basic auth and no token manager. *)
Theorem C5_equal_username_not_redirected (P : Platform) (E : Env) (a : InitArgs)
    (u : StrObj) (p : string) (s : BaseService) :
  a_api_key a = None -> a_username a = Some u -> a_password a = Some p ->
  chars u = APIKEY -> is_APIKEY_object u = false ->
  Str.startswith ICP_PREFIX p = false ->
  construct P E a = Ok s ->
  username s = Some APIKEY /\ password s = Some p /\ token_manager s = None.
Proof.
  intros Hk Hu Hp Hc Hobj Hicp H.
  destruct (arguments_phase P a fresh) as [[x|e] s1] eqn:Ha.
  - assert (R : username s1 = Some APIKEY /\ password s1 = Some p /\
                token_manager s1 = None).
    { rewrite arguments_phase_run in Ha.
      destruct (has_bad_first_or_last_char (a_url a)); [discriminate|].
      unfold credentials_from_constructor in Ha.
      rewrite Hk, Hu, Hp, Hobj, Hc in Ha. simpl in Ha.
      run. repeat case_match; simplify_eq; auto. }
    assert (Hd : truthy (username s1) = true \/ is_Some (token_manager s1)).
    { left. destruct R as [-> _]. reflexivity. }
    rewrite (construct_decided P E a x s1 Ha Hd) in H. injection H as <-.
    exact R.
  - rewrite (construct_raise_early P E a e s1 Ha) in H. discriminate.
Qed.

Lemma construct_runtime_apikey_service :
  construct linux bare_env runtime_apikey_args = Ok runtime_apikey_service.
Proof. vm_compute. reflexivity. Qed.

Lemma C5_equal_username_not_redirected_witness :
  username runtime_apikey_service = Some APIKEY /\
  password runtime_apikey_service = Some "s3cret" /\
  token_manager runtime_apikey_service = None.
Proof.
  apply (C5_equal_username_not_redirected linux bare_env runtime_apikey_args
           runtime_apikey "s3cret" runtime_apikey_service);
    [reflexivity | reflexivity | reflexivity | reflexivity | reflexivity
    | reflexivity | vm_compute; reflexivity].
Defined.

(** ** C6: precedence of the explicit arguments *)

(** The explicit credentials leave a non-empty username or a token manager
    whenever the arguments phase returns. *)
Lemma explicit_credentials_set (P : Platform) (a : InitArgs) :
  explicit_credentials a -> arguments_set_credentials P a.
Proof.
  intros H u s1 Ha.
  destruct (a_api_key a) as [k|] eqn:Hk.
  { exact (api_key_decides P a k u s1 Hk Ha). }
  rewrite arguments_phase_run in Ha.
  destruct (has_bad_first_or_last_char (a_url a)); [discriminate|].
  unfold credentials_from_constructor in Ha. rewrite Hk in Ha.
  destruct H as [[k Hk'] | [(x & p & Hu & Hp & Hx) | [Hlogin Hiam]]].
  - congruence.
  - rewrite Hu, Hp in Ha.
    destruct (is_APIKEY_object x && negb (Str.startswith ICP_PREFIX p))%bool.
    + right. clear Hx. run. repeat case_match; simplify_eq; simpl; eauto.
    + left. run. repeat case_match; simplify_eq; simpl.
      destruct (chars x); [contradiction|reflexivity].
  - assert (Hif : (bool_decide (is_Some (a_iam_access_token a))
                   || bool_decide (is_Some (a_iam_apikey a)))%bool = true).
    { apply orb_true_iff.
      destruct Hiam as [Hi|Hi]; [left|right]; apply bool_decide_eq_true; exact Hi. }
    assert (Hrun :
      (if (truthy (a_iam_apikey a)
           && from_option (Str.startswith ICP_PREFIX) false (a_iam_apikey a))%bool
       then set_username_and_password (Some APIKEY) (a_iam_apikey a)
       else set_token_manager (a_iam_apikey a) (a_iam_access_token a) (a_iam_url a))
        (initial a) = (Ok u, s1)).
    { destruct Hlogin as [Hn|Hn]; rewrite Hn in Ha.
      - rewrite Hif in Ha. exact Ha.
      - destruct (a_username a); rewrite Hif in Ha; exact Ha. }
    clear Ha Hif Hlogin Hiam.
    destruct (truthy (a_iam_apikey a)
              && from_option (Str.startswith ICP_PREFIX) false (a_iam_apikey a))%bool.
    + left. run. repeat case_match; simplify_eq; reflexivity.
    + right. run. repeat case_match; simplify_eq; simpl; eauto.
Qed.

(** C6, amended: with credentials among the explicit arguments -- an
    [api_key]; a [username] that is not the empty string, with a
    [password]; or an [iam_access_token] or [iam_apikey] -- the outcome of
    the construction is the same whatever the credentials file and
    VCAP_SERVICES hold. With an explicit [api_key] without braces and
    quotes around it, and such a [url], the construction succeeds and the
    key is the credential of the service: the password of user [apikey]
    when it starts with [icp-], the API key of the token manager
    otherwise. *)
Theorem C6_explicit_arguments_take_precedence (P : Platform) (E E' : Env)
    (a : InitArgs) :
  explicit_credentials a ->
  construct P E a = construct P E' a /\
  forall k,
    a_api_key a = Some k ->
    has_bad_first_or_last_char (a_url a) = false ->
    has_bad_first_or_last_char (Some k) = false ->
    exists s,
      construct P E a = Ok s /\
      if Str.startswith "icp-" k
      then username s = Some "apikey" /\ password s = Some k /\
           token_manager s = None
      else username s = None /\ password s = None /\
           iam_apikey s = Some k /\
           (tm_iam_apikey <$> token_manager s) = Some (Some k).
Proof.
  intros H.
  pose proof (explicit_credentials_set P a H) as Hset.
  split.
  - destruct (arguments_phase P a fresh) as [[u|e] s1] eqn:Ha.
    + rewrite (construct_decided P E a u s1 Ha (Hset u s1 Ha)).
      rewrite (construct_decided P E' a u s1 Ha (Hset u s1 Ha)). reflexivity.
    + rewrite (construct_raise_early P E a e s1 Ha).
      rewrite (construct_raise_early P E' a e s1 Ha). reflexivity.
  - intros k Hk Hurl Hbad.
    assert (Hrun : exists s1, arguments_phase P a fresh = (Ok tt, s1)).
    { rewrite arguments_phase_run, Hurl.
      rewrite (credentials_from_constructor_api_key a k _ Hk).
      destruct (Str.startswith ICP_PREFIX k).
      - unfold set_username_and_password, bind.
        change (has_bad_first_or_last_char (Some APIKEY)) with false.
        rewrite Hbad. eexists. reflexivity.
      - unfold set_token_manager, bind. rewrite Hbad. eexists. reflexivity. }
    destruct Hrun as [s1 Ha]. exists s1.
    pose proof (construct_decided P E a tt s1 Ha (Hset tt s1 Ha)) as Hc.
    split; [exact Hc|].
    pose proof (api_key_routing P E a k s1 Hk Hc) as R.
    change (Str.startswith "icp-" k) with (Str.startswith ICP_PREFIX k).
    destruct (Str.startswith ICP_PREFIX k).
    + exact R.
    + destruct R as (Hu & Hp & Hi & Ht). rewrite Ht. auto.
Qed.

(** C6, as stated, fails: an explicit [username] that is the empty string,
    with a [password], is set by the arguments -- both are there, not
    [None] -- and still the credentials file is read and its login and URL
    replace them. *)
Lemma C6_empty_username_yields_to_file :
  arguments_phase linux empty_username_args fresh = (Ok tt, empty_username_service) /\
  basic_auth_set empty_username_service /\
  construct linux bare_env empty_username_args = Ok empty_username_service /\
  construct linux (file_env login_file) empty_username_args
    = Ok overwritten_login_service /\
  construct linux (file_env login_file) empty_username_args
    <> construct linux bare_env empty_username_args.
Proof.
  assert (H1 : construct linux bare_env empty_username_args
               = Ok empty_username_service) by (vm_compute; reflexivity).
  assert (H2 : construct linux (file_env login_file) empty_username_args
               = Ok overwritten_login_service) by (vm_compute; reflexivity).
  split; [vm_compute; reflexivity|].
  split; [split; eexists; reflexivity|].
  split; [exact H1|]. split; [exact H2|].
  rewrite H1, H2. intros Heq. discriminate Heq.
Qed.

(** Without explicit credentials that file is what the service is built
    from. *)
Lemma construct_from_login_file :
  exists s,
    construct linux (file_env login_file)
      (with_display_name "My Service"
         (positional "my_service" (Some "https://default.test"))) = Ok s /\
    username s = Some "carol" /\ password s = Some "pa55" /\
    url s = Some "https://file.test/api".
Proof.
  exists {| url := Some "https://file.test/api"; http_config := ∅;
            jar := None; api_key := None;
            username := Some "carol"; password := Some "pa55";
            default_headers := None; iam_apikey := None;
            iam_access_token := None; iam_url := None; token_manager := None;
            verify := None; user_agent_header := None;
            vcap_service_credentials := None |}.
  split; [vm_compute; reflexivity|]. repeat split.
Qed.

Lemma C6_explicit_arguments_take_precedence_witness :
  construct linux (file_env login_file) explicit_key_args
  = construct linux bare_env explicit_key_args /\
  exists s,
    construct linux (file_env login_file) explicit_key_args = Ok s /\
    username s = None /\ password s = None /\
    iam_apikey s = Some "k3y" /\
    (tm_iam_apikey <$> token_manager s) = Some (Some "k3y").
Proof.
  destruct (C6_explicit_arguments_take_precedence linux (file_env login_file)
              bare_env explicit_key_args) as [Hsame Hkey].
  - left. eexists. reflexivity.
  - split; [exact Hsame|].
    apply (Hkey "k3y"); reflexivity.
Defined.

(** ** Request dispatch: what goes on the wire *)

Lemma bind_inv {S A B} (m : St S A) (k : A -> St S B) s o s' :
  bind m k s = (o, s') ->
  (exists e, m s = (Raise e, s') /\ o = Raise e) \/
  (exists a s1, m s = (Ok a, s1) /\ k a s1 = (o, s')).
Proof.
  unfold bind. destruct (m s) as [[x|e] s1]; intros H.
  - right. eauto.
  - left. simplify_eq. eauto.
Qed.

Lemma app_singleton_neq {A} (l : list A) (x : A) : l ++ [x] <> l.
Proof.
  intros H. apply (f_equal length) in H. rewrite length_app in H.
  simpl in H. lia.
Qed.

(** Every run of [request] either raises before the transport is called, or
    calls it once, with the URL, cookies, auth and headers below, and maps
    its answer. *)
Lemma request_inv (C : Collaborators) (P : Platform) (self : BaseService)
    (method url : string) (accept_json : bool) (headers params : option Dict)
    (json data : option Body) (files : option Dict) (kwargs : gmap string Atom)
    (wire : list TransportRequest) o wire' :
  request C P self method url accept_json headers params json data files kwargs wire
    = (o, wire') ->
  (wire' = wire /\ exists e, o = Raise e) \/
  (exists base tr,
     self_url self = Some base /\
     wire' = wire ++ [tr] /\
     tr_method tr = method /\
     tr_url tr = base +:+ url /\
     tr_cookies tr = jar self /\
     tr_auth tr = basic_auth_of self /\
     match token_manager self with
     | Some tm =>
         exists access_token,
           get_token C tm = Ok access_token /\
           tr_headers tr =
             ci_set "Authorization" (AStr (BEARER +:+ " " +:+ access_token))
               (merged_headers C self accept_json headers)
     | None => tr_headers tr = merged_headers C self accept_json headers
     end /\
     o = match requests_request C tr with
         | Ok response => response_mapping method accept_json response
         | Raise e => Raise e
         end).
Proof.
  intros H. unfold request in H.
  apply bind_inv in H as [(e & H1 & ->) | (full_url & w1 & H1 & H)].
  { left. destruct (self_url self); unfold raise, ret in H1; simplify_eq. eauto. }
  destruct (self_url self) as [base|] eqn:Hbase;
    unfold raise, ret in H1; simplify_eq.
  cbv zeta in H.
  apply bind_inv in H as [(e & H2 & ->) | (dh & w2 & H2 & H)].
  { left. destruct json as [j|]; simpl in H2; [|unfold ret in H2; simplify_eq].
    match type of H2 with context [negb ?b] => destruct (negb b) end;
      [|unfold ret in H2; simplify_eq].
    unfold bind, raise, ret in H2. destruct j; simpl in H2; simplify_eq; eauto. }
  assert (Hdh : w2 = w1 /\ dh.2 = merged_headers C self accept_json headers).
  { destruct json as [j|]; simpl in H2;
      [|unfold ret in H2; simplify_eq; split; reflexivity].
    match type of H2 with context [negb ?b] => destruct (negb b) end;
      [|unfold ret in H2; simplify_eq; split; reflexivity].
    unfold bind, raise, ret in H2. destruct j; simpl in H2; simplify_eq. }
  destruct Hdh as [-> Hdh].
  apply bind_inv in H as [(e & H3 & ->) | (hs & w3 & H3 & H)].
  { left. destruct (token_manager self) as [tm|]; [|unfold ret in H3; simplify_eq].
    unfold bind, raise, ret in H3.
    destruct (get_token C tm); simplify_eq. eauto. }
  assert (Hhs : w3 = w1 /\
    match token_manager self with
    | Some tm =>
        exists access_token,
          get_token C tm = Ok access_token /\
          hs = ci_set "Authorization" (AStr (BEARER +:+ " " +:+ access_token))
                 (merged_headers C self accept_json headers)
    | None => hs = merged_headers C self accept_json headers
    end).
  { destruct (token_manager self) as [tm|].
    - unfold bind, raise, ret in H3.
      destruct (get_token C tm) as [t|] eqn:Ht; simplify_eq.
      rewrite Hdh. eauto.
    - unfold ret in H3. simplify_eq. auto. }
  destruct Hhs as [-> Hhs].
  apply bind_inv in H as [(e & H4 & ->) | ([] & w4 & H4 & H)].
  { left. destruct (existsb _ _); unfold raise, ret in H4; simplify_eq. eauto. }
  assert (w4 = w1) as ->.
  { destruct (existsb _ _); unfold raise, ret in H4; simplify_eq. reflexivity. }
  apply bind_inv in H as [(e & H5 & ->) | (response & w5 & H5 & H)].
  - right. unfold send in H5. injection H5 as Hreq <-.
    eexists base, _. split; [reflexivity|]. split; [reflexivity|]. simpl.
    do 4 (split; [reflexivity|]). split; [exact Hhs|].
    rewrite Hreq. reflexivity.
  - right. unfold send in H5. injection H5 as Hreq <-.
    match type of H with
    | _ (_ ++ [?t]) = _ =>
        assert (Hmap : o = response_mapping method accept_json response /\
                       wire' = w1 ++ [t])
    end.
    { clear -H. unfold response_mapping. unfold ret, raise in H.
      repeat case_match; simplify_eq; split; reflexivity. }
    destruct Hmap as [-> ->].
    eexists base, _. split; [reflexivity|]. split; [reflexivity|]. simpl.
    do 4 (split; [reflexivity|]). split; [exact Hhs|].
    rewrite Hreq. reflexivity.
Qed.

(** When the transport was called, the request on the wire and the outcome
    are those of [request_inv]. *)
Lemma request_sent (C : Collaborators) (P : Platform) (self : BaseService)
    (method url : string) (accept_json : bool) (headers params : option Dict)
    (json data : option Body) (files : option Dict) (kwargs : gmap string Atom)
    (wire : list TransportRequest) o tr :
  request C P self method url accept_json headers params json data files kwargs wire
    = (o, wire ++ [tr]) ->
  tr_auth tr = basic_auth_of self /\
  match token_manager self with
  | Some tm =>
      exists access_token,
        get_token C tm = Ok access_token /\
        tr_headers tr =
          ci_set "Authorization" (AStr (BEARER +:+ " " +:+ access_token))
            (merged_headers C self accept_json headers)
  | None => tr_headers tr = merged_headers C self accept_json headers
  end /\
  o = match requests_request C tr with
      | Ok response => response_mapping method accept_json response
      | Raise e => Raise e
      end.
Proof.
  intros H. apply request_inv in H as [[Hw _] | (base & tr' & _ & Hw & _ & _ & _ & Ha & Hh & Ho)].
  - exfalso. exact (app_singleton_neq _ _ Hw).
  - apply app_inj_tail in Hw as [_ ->]. auto.
Qed.

(** ** C4: a JSON body without raw data *)

(** C4 (defect in the code): inside [request] the name [json] is the body,
    not the module, so [json.dumps(json)] looks [dumps] up on the body and
    raises [AttributeError]: with a JSON body and no data, nothing is
    serialized, no content-type is set and the transport is never called. *)
Theorem C4_json_body_raises_AttributeError (C : Collaborators) (P : Platform)
    (self : BaseService) (method url : string) (accept_json : bool)
    (headers params : option Dict) (j : Body) (files : option Dict)
    (kwargs : gmap string Atom) (wire : list TransportRequest) (base : string) :
  self_url self = Some base ->
  request C P self method url accept_json headers params (Some j) None files
    kwargs wire
  = (Raise AttributeError, wire).
Proof.
  intros Hbase. unfold request, bind. rewrite Hbase. simpl.
  destruct j; reflexivity.
Qed.

(** The same for any falsy [data]: an empty dict, str, bytes or list. *)
Lemma json_body_with_falsy_data_raises (C : Collaborators) (P : Platform)
    (self : BaseService) (method url : string) (accept_json : bool)
    (headers params : option Dict) (j : Body) (data : Body)
    (files : option Dict) (kwargs : gmap string Atom)
    (wire : list TransportRequest) (base : string) :
  self_url self = Some base ->
  data = BDict [] \/ data = BStr EmptyString \/ data = BBytes EmptyString \/
  data = BList [] ->
  request C P self method url accept_json headers params (Some j) (Some data)
    files kwargs wire
  = (Raise AttributeError, wire).
Proof.
  intros Hbase Hd. unfold request, bind. rewrite Hbase.
  destruct Hd as [-> | [-> | [-> | ->]]]; simpl;
    destruct (python3 P); simpl; destruct j; reflexivity.
Qed.

Lemma C4_json_body_raises_AttributeError_witness :
  request (answering (response_with 200 None)) linux api_key_service
    "POST" "/v1/messages" true None None
    (Some (BDict [("text", AStr "hello")])) None None ∅ []
  = (Raise AttributeError, []).
Proof.
  apply (C4_json_body_raises_AttributeError _ _ _ _ _ _ _ _ _ _ _ _
           "https://default.test").
  reflexivity.
Defined.

(** ** C7 and C8: mapping the response *)

(** C7: when the transport answers with a status from 200 to 299, [request]
    returns a [DetailedResponse] with the headers and status of the
    response; its body is absent for status 204 and for method HEAD;
    otherwise, with a JSON response asked for, it is the parsed body, or
    absent when parsing fails; otherwise it is the raw response. *)
Theorem C7_success_mapping (C : Collaborators) (P : Platform) (self : BaseService)
    (method url : string) (accept_json : bool) (headers params : option Dict)
    (json data : option Body) (files : option Dict) (kwargs : gmap string Atom)
    (wire : list TransportRequest) o tr response :
  request C P self method url accept_json headers params json data files kwargs wire
    = (o, wire ++ [tr]) ->
  requests_request C tr = Ok response ->
  200 <= status_code response <= 299 ->
  exists dr,
    o = Ok dr /\
    dr_headers dr = resp_headers response /\
    dr_status_code dr = status_code response /\
    (status_code response = 204 \/ method = "HEAD" -> dr_result dr = RNone) /\
    (status_code response <> 204 -> method <> "HEAD" -> accept_json = true ->
     dr_result dr = match json_result response with
                    | Some parsed => RJson parsed
                    | None => RNone
                    end) /\
    (status_code response <> 204 -> method <> "HEAD" -> accept_json = false ->
     dr_result dr = RRaw response).
Proof.
  intros H Hreq Hst. apply request_sent in H as (_ & _ & ->).
  rewrite Hreq. unfold response_mapping.
  assert (H2xx : ((200 <=? status_code response)
                  && (status_code response <=? 299))%bool = true).
  { apply andb_true_iff. split; apply Z.leb_le; lia. }
  rewrite H2xx.
  destruct (status_code response =? 204) eqn:H204; simpl.
  { apply Z.eqb_eq in H204. eexists. split; [reflexivity|]. simpl.
    repeat split; auto; intros; contradiction. }
  apply Z.eqb_neq in H204.
  destruct (String.eqb method "HEAD") eqn:Hhead.
  { apply String.eqb_eq in Hhead. eexists. split; [reflexivity|]. simpl.
    repeat split; auto; intros; contradiction. }
  apply String.eqb_neq in Hhead.
  destruct accept_json.
  - destruct (json_result response); eexists; (split; [reflexivity|]); simpl;
      repeat split; auto; try discriminate; intros [?|?]; contradiction.
  - eexists; (split; [reflexivity|]); simpl;
      repeat split; auto; try discriminate; intros [?|?]; contradiction.
Qed.

(** C8: when the transport answers with a status outside 200 to 299,
    [request] raises an [ApiException] with that status and the raw
    response; its message is the text [Unauthorized: Access is denied due
    to invalid credentials] exactly for 401, and [None] for every other
    status. *)
Theorem C8_failure_mapping (C : Collaborators) (P : Platform) (self : BaseService)
    (method url : string) (accept_json : bool) (headers params : option Dict)
    (json data : option Body) (files : option Dict) (kwargs : gmap string Atom)
    (wire : list TransportRequest) o tr response :
  request C P self method url accept_json headers params json data files kwargs wire
    = (o, wire ++ [tr]) ->
  requests_request C tr = Ok response ->
  status_code response < 200 \/ 299 < status_code response ->
  exists message,
    o = Raise (ApiException (status_code response) message response) /\
    (message = Some "Unauthorized: Access is denied due to invalid credentials"
     <-> status_code response = 401) /\
    (status_code response <> 401 -> message = None).
Proof.
  intros H Hreq Hst. apply request_sent in H as (_ & _ & ->).
  rewrite Hreq. unfold response_mapping, UNAUTHORIZED.
  assert (H2xx : ((200 <=? status_code response)
                  && (status_code response <=? 299))%bool = false).
  { apply andb_false_iff. destruct Hst; [left | right]; apply Z.leb_gt; lia. }
  rewrite H2xx. eexists. split; [reflexivity|].
  destruct (status_code response =? 401) eqn:H401.
  - apply Z.eqb_eq in H401. split; [tauto | intros; contradiction].
  - apply Z.eqb_neq in H401. split; [split; [discriminate | contradiction] | auto].
Qed.

Lemma C7_success_mapping_witness :
  exists dr,
    Ok no_content = Ok dr /\
    dr_headers dr = resp_headers (response_with 204 None) /\
    dr_status_code dr = status_code (response_with 204 None) /\
    (status_code (response_with 204 None) = 204 \/ "GET" = "HEAD" ->
     dr_result dr = RNone) /\
    (status_code (response_with 204 None) <> 204 -> "GET" <> "HEAD" ->
     true = true ->
     dr_result dr = match json_result (response_with 204 None) with
                    | Some parsed => RJson parsed
                    | None => RNone
                    end) /\
    (status_code (response_with 204 None) <> 204 -> "GET" <> "HEAD" ->
     true = false -> dr_result dr = RRaw (response_with 204 None)).
Proof.
  apply (C7_success_mapping (answering (response_with 204 None)) linux
           api_key_service "GET" "/v1/status" true None None None None None ∅
           [] (Ok no_content) status_request (response_with 204 None)).
  - vm_compute. reflexivity.
  - reflexivity.
  - simpl. lia.
Defined.

Lemma C8_failure_mapping_witness :
  exists message,
    @Raise DetailedResponse
      (ApiException 401
         (Some "Unauthorized: Access is denied due to invalid credentials")
         (response_with 401 None))
    = Raise (ApiException (status_code (response_with 401 None)) message
               (response_with 401 None)) /\
    (message = Some "Unauthorized: Access is denied due to invalid credentials"
     <-> status_code (response_with 401 None) = 401) /\
    (status_code (response_with 401 None) <> 401 -> message = None).
Proof.
  apply (C8_failure_mapping (answering (response_with 401 None)) linux
           api_key_service "GET" "/v1/status" true None None None None None ∅
           [] _ status_request (response_with 401 None)).
  - vm_compute. reflexivity.
  - reflexivity.
  - right. simpl. lia.
Defined.

(** ** C10: a service with both a token manager and a username/password *)

Lemma ci_get_ci_set {V} (k : string) (v : V) (m : gmap string (string * V)) :
  ci_get k (ci_set k v m) = Some v.
Proof. unfold ci_get, ci_set. rewrite lookup_insert_eq. reflexivity. Qed.


(** ** C9: the headers of a request *)

Lemma ci_get_ci_set_ne {V} (k k' : string) (v : V) (m : gmap string (string * V)) :
  Str.lower k' <> Str.lower k -> ci_get k (ci_set k' v m) = ci_get k m.
Proof. intros H. unfold ci_get, ci_set. rewrite lookup_insert_ne; auto. Qed.

Lemma ci_update_cons {V} (k : string) (v : V) d (m : gmap string (string * V)) :
  ci_update ((k, v) :: d) m = ci_update d (ci_set k v m).
Proof. reflexivity. Qed.

(** Names not written by an update keep their value. *)
Lemma ci_get_ci_update_other {V} (d : list (string * V)) m (k : string) :
  (forall kv, kv ∈ d -> Str.lower kv.1 <> Str.lower k) ->
  ci_get k (ci_update d m) = ci_get k m.
Proof.
  revert m. induction d as [|[k' v'] d IH]; intros m H; [reflexivity|].
  rewrite ci_update_cons, IH.
  - apply ci_get_ci_set_ne. apply (H (k', v')). left.
  - intros kv Hkv. apply H. right. exact Hkv.
Qed.

(** A name written once by an update (up to case) has the value written. *)
Lemma ci_get_ci_update_in {V} (d : list (string * V)) m (k : string) (v : V) :
  NoDup ((fun kv => Str.lower kv.1) <$> d) -> (k, v) ∈ d ->
  ci_get k (ci_update d m) = Some v.
Proof.
  revert m. induction d as [|[k' v'] d IH]; intros m Hnd Hin.
  - inversion Hin.
  - rewrite ci_update_cons. apply NoDup_cons in Hnd as [Hnot Hnd].
    apply elem_of_cons in Hin as [Heq | Hin].
    + injection Heq as <- <-.
      rewrite ci_get_ci_update_other; [apply ci_get_ci_set|].
      intros kv Hkv Hl. apply Hnot. simpl. rewrite <- Hl.
      apply (list_elem_of_fmap_2 (fun kv => Str.lower kv.1) _ _ Hkv).
    + apply IH; assumption.
Qed.

(** The merge order of [request] holds as the spec has it: the per-call
    headers are laid over the others last, names compared without case. *)
Lemma per_call_header_wins (C : Collaborators) (self : BaseService)
    (accept_json : bool) (headers : option Dict) (k : string) (v : Atom) :
  NoDup ((fun kv => Str.lower kv.1) <$> input_headers_of C headers) ->
  (k, v) ∈ input_headers_of C headers ->
  ci_get k (merged_headers C self accept_json headers) = Some v.
Proof. intros Hnd Hin. unfold merged_headers. apply ci_get_ci_update_in; assumption. Qed.

(** A per-call [x-test] overrides a default [X-Test]. *)
Example x_test_overrides_default :
  ci_get "X-Test"
    (merged_headers (answering (response_with 200 None))
       (with_default_headers (Some [("X-Test", AStr "default")]) api_key_service)
       false (Some [("x-test", AStr "call")]))
  = Some (AStr "call").
Proof. vm_compute. reflexivity. Qed.

(** A constructed service holds no user-agent header and no default
    headers. *)
Lemma construct_header_defaults (P : Platform) (E : Env) (a : InitArgs)
    (s : BaseService) :
  construct P E a = Ok s -> header_defaults s = (None, None).
Proof.
  intros H.
  apply construct_inv in H
    as (u1 & s1 & u2 & s2 & u3 & s3 & u4 & H1 & H2 & H3 & H4).
  apply arguments_phase_modes in H1 as [H1 _].
  rewrite (require_credentials_keeps header_defaults _ _ _ H4).
  rewrite (credentials_from_vcap_keeps_ua E a _ _ _ H3).
  rewrite (credentials_from_file_keeps_ua E a _ _ _ H2).
  exact H1.
Qed.

(** C9 (defect in the code): [__init__] assigns to [self.user_agent_header]
    what [set_user_agent_header] returns, which is [None]; the header the
    setter had just stored is lost. So a constructed service has no
    user-agent header, and a request it sends without per-call headers
    carries none: the merge starts from nothing. *)
Theorem C9_constructed_service_sends_no_user_agent (P : Platform) (E : Env)
    (a : InitArgs) (s : BaseService) :
  construct P E a = Ok s ->
  user_agent_header s = None /\
  forall (C : Collaborators) (P' : Platform) (method url : string)
         (accept_json : bool) (params : option Dict) (json data : option Body)
         (files : option Dict) (kwargs : gmap string Atom)
         (wire : list TransportRequest) o tr,
    request C P' s method url accept_json None params json data files kwargs wire
      = (o, wire ++ [tr]) ->
    ci_get "user-agent" (tr_headers tr) = None.
Proof.
  intros H. apply construct_header_defaults in H.
  injection H as Hua Hdef. split; [exact Hua|].
  intros C P' method url accept_json params json data files kwargs wire o tr H.
  apply request_sent in H as (_ & Hh & _).
  assert (Hm : ci_get "user-agent" (merged_headers C s accept_json None) = None).
  { unfold merged_headers. rewrite Hua, Hdef.
    rewrite ci_get_ci_update_other by (intros kv Hkv; inversion Hkv).
    destruct accept_json; [|reflexivity].
    rewrite ci_get_ci_set_ne by (intros Hl; vm_compute in Hl; discriminate Hl).
    reflexivity. }
  destruct (token_manager s) as [tm|].
  - destruct Hh as (tok & _ & ->).
    rewrite ci_get_ci_set_ne by (intros Hl; vm_compute in Hl; discriminate Hl).
    exact Hm.
  - rewrite Hh. exact Hm.
Qed.

Lemma C9_constructed_service_sends_no_user_agent_witness :
  user_agent_header api_key_service = None /\
  forall (C : Collaborators) (P' : Platform) (method url : string)
         (accept_json : bool) (params : option Dict) (json data : option Body)
         (files : option Dict) (kwargs : gmap string Atom)
         (wire : list TransportRequest) o tr,
    request C P' api_key_service method url accept_json None params json data
      files kwargs wire
      = (o, wire ++ [tr]) ->
    ci_get "user-agent" (tr_headers tr) = None.
Proof.
  apply (C9_constructed_service_sends_no_user_agent linux bare_env
           (with_api_key "k3y" (positional "assistant" (Some "https://default.test")))
           api_key_service).
  vm_compute. reflexivity.
Defined.

(** The request of [status_request] is one such: it is what the constructed
    service sends, and it has no user-agent header. *)
Example status_request_sent :
  request (answering (response_with 204 None)) linux api_key_service
    "GET" "/v1/status" true None None None None None ∅ []
  = (Ok no_content, [status_request]) /\
  ci_get "user-agent" (tr_headers status_request) = None.
Proof. split; vm_compute; reflexivity. Qed.

(** With the header set through [set_user_agent_header] after construction,
    requests start from it. *)
Example user_agent_after_setter :
  exists s,
    set_user_agent_header (Some "ibm-python-sdk-core-1.0.0 Linux 5.4.0 3.7.3")
      api_key_service = (Ok None, s) /\
    ci_get "User-Agent"
      (merged_headers (answering (response_with 200 None)) s false None)
    = Some (AStr "ibm-python-sdk-core-1.0.0 Linux 5.4.0 3.7.3").
Proof.
  eexists. split; [reflexivity|]. vm_compute. reflexivity.
Qed.

(** * Further properties *)

(** ** Splitting and joining *)

Lemma prefix_one_char (c d : ascii) (s : string) :
  String.prefix (String c EmptyString) (String d s) = Ascii.eqb d c.
Proof.
  change (String.prefix (String c EmptyString) (String d s))
    with (if Ascii.ascii_dec c d then String.prefix EmptyString s else false).
  destruct (Ascii.ascii_dec c d) as [->|Hne].
  - rewrite Ascii.eqb_refl. destruct s; reflexivity.
  - symmetry. apply Ascii.eqb_neq. congruence.
Qed.

Lemma split_aux_one_char_cons (c d : ascii) (cur s : string) :
  Str.split_aux (String c EmptyString) 0 cur (String d s) =
    if Ascii.eqb d c
    then String.rev cur :: Str.split_aux (String c EmptyString) 0 EmptyString s
    else Str.split_aux (String c EmptyString) 0 (String d cur) s.
Proof.
  change (Str.split_aux (String c EmptyString) 0 cur (String d s))
    with (if String.prefix (String c EmptyString) (String d s)
          then String.rev cur
               :: Str.split_aux (String c EmptyString) 0 EmptyString s
          else Str.split_aux (String c EmptyString) 0 (String d cur) s).
  rewrite prefix_one_char. reflexivity.
Qed.

(** Splitting at a character gives one piece more than the character
    occurs. *)
Lemma split_aux_one_char_length (c : ascii) (s cur : string) :
  length (Str.split_aux (String c EmptyString) 0 cur s) = S (count_char c s).
Proof.
  revert cur. induction s as [|d s IH]; intros cur; [reflexivity|].
  rewrite split_aux_one_char_cons.
  change (count_char c (String d s))
    with ((if Ascii.eqb d c then 1 else 0) + count_char c s)%nat.
  destruct (Ascii.eqb d c); simpl; rewrite IH; reflexivity.
Qed.

Lemma split_one_char_length (c : ascii) (s : string) :
  length (Str.split (String c EmptyString) s) = S (count_char c s).
Proof. apply split_aux_one_char_length. Qed.

Lemma rev_app_rev_app (x y z : string) :
  String.rev_app (String.rev_app x y) z = String.rev_app y (x +:+ z).
Proof.
  revert y z. induction x as [|a x IH]; intros y z; [reflexivity|].
  change (String.rev_app (String a x) y) with (String.rev_app x (String a y)).
  rewrite IH. reflexivity.
Qed.

Lemma append_empty_r (x : string) : x +:+ EmptyString = x.
Proof. induction x as [|a x IH]; [reflexivity|]. rewrite append_cons, IH. reflexivity. Qed.

Lemma rev_rev_app (x : string) : String.rev (String.rev_app x EmptyString) = x.
Proof.
  unfold String.rev. rewrite rev_app_rev_app, append_empty_r. reflexivity.
Qed.

(** A piece without the separator is read up to the end or up to the next
    separator. *)
Lemma split_aux_piece_end (c : ascii) (x cur : string) :
  count_char c x = 0%nat ->
  Str.split_aux (String c EmptyString) 0 cur x = [String.rev (String.rev_app x cur)].
Proof.
  revert cur. induction x as [|d x IH]; intros cur H; [reflexivity|].
  rewrite split_aux_one_char_cons.
  change (count_char c (String d x))
    with ((if Ascii.eqb d c then 1 else 0) + count_char c x)%nat in H.
  destruct (Ascii.eqb d c); [discriminate|].
  apply IH. exact H.
Qed.

Lemma split_aux_piece_sep (c : ascii) (x cur rest : string) :
  count_char c x = 0%nat ->
  Str.split_aux (String c EmptyString) 0 cur (x +:+ String c rest) =
    String.rev (String.rev_app x cur)
    :: Str.split_aux (String c EmptyString) 0 EmptyString rest.
Proof.
  revert cur. induction x as [|d x IH]; intros cur H.
  - rewrite append_empty, split_aux_one_char_cons, Ascii.eqb_refl. reflexivity.
  - rewrite append_cons, split_aux_one_char_cons.
    change (count_char c (String d x))
      with ((if Ascii.eqb d c then 1 else 0) + count_char c x)%nat in H.
    destruct (Ascii.eqb d c); [discriminate|].
    apply IH. exact H.
Qed.

(** Joining with a character and splitting at it gives the list back, for
    a list that is not empty and whose strings do not have the character. *)
Lemma split_concat (c : ascii) (l : list string) :
  l <> [] -> Forall (fun x => count_char c x = 0%nat) l ->
  Str.split (String c EmptyString) (String.concat (String c EmptyString) l) = l.
Proof.
  intros Hne Hall. induction Hall as [|x l Hx Hall IH]; [contradiction|].
  destruct l as [|y l].
  - unfold Str.split. cbn [String.concat].
    rewrite split_aux_piece_end by exact Hx. rewrite rev_rev_app. reflexivity.
  - unfold Str.split in *.
    change (String.concat (String c EmptyString) (x :: y :: l))
      with (x +:+ String c (String.concat (String c EmptyString) (y :: l))).
    rewrite split_aux_piece_sep by exact Hx.
    rewrite rev_rev_app, IH by discriminate. reflexivity.
Qed.

(** X1: [_convert_list] joins a list with commas so that splitting at the
    commas gives the list back, for a non-empty list of strings without
    commas. *)
Theorem X1_convert_list_round_trip (l : list string) :
  l <> [] -> Forall (fun x => count_char "," x = 0%nat) l ->
  exists s, _convert_list (inl l) = AStr s /\ Str.split "," s = l.
Proof.
  intros Hne Hall. eexists. split; [reflexivity|].
  apply split_concat; assumption.
Qed.

Lemma X1_convert_list_round_trip_witness :
  exists s, _convert_list (inl ["en"; "fr"; "de"]) = AStr s /\
            Str.split "," s = ["en"; "fr"; "de"].
Proof.
  apply (X1_convert_list_round_trip ["en"; "fr"; "de"]).
  - discriminate.
  - repeat constructor.
Defined.

(** ** Credentials file *)

Lemma _load_from_credential_file_located (E : Env) (service_name separator : string)
    (self : BaseService) :
  _load_from_credential_file E service_name separator self =
    match located_file E with
    | Some p =>
        match read_lines E p with
        | None => (Raise IOError, self)
        | Some fp => for_each fp (apply_line service_name separator) self
        end
    | None => (Ok tt, self)
    end.
Proof.
  unfold _load_from_credential_file, located_file.
  destruct (getenv_IBM_CREDENTIALS_FILE E) as [p|].
  - destruct (read_lines E p); reflexivity.
  - destruct (isfile E (home_credentials_file E)).
    + destruct (read_lines E (home_credentials_file E)); reflexivity.
    + destruct (isfile E (project_credentials_file E)).
      * destruct (read_lines E (project_credentials_file E)); reflexivity.
      * reflexivity.
Qed.

Lemma apply_line_foreign (service_name line : string) (self : BaseService) :
  foreign_line service_name line ->
  apply_line service_name "=" line self = (Ok tt, self).
Proof.
  intros H. unfold apply_line.
  change (match "=" with EmptyString => raise ValueError_empty_separator | _ =>
          match Str.split "=" (Str.strip line) with
          | [k; v] => _set_credential_based_on_type service_name (Str.lower k) v
          | _ => ret tt
          end end self)
    with (match Str.split "=" (Str.strip line) with
          | [k; v] => _set_credential_based_on_type service_name (Str.lower k) v
          | _ => ret tt
          end self).
  pose proof (split_one_char_length "=" (Str.strip line)) as Hlen.
  destruct (Str.split "=" (Str.strip line)) as [|k [|v [|w l]]] eqn:Hs;
    try reflexivity.
  destruct H as [Hc | Hk].
  - exfalso. apply Hc. simpl in Hlen. lia.
  - unfold _set_credential_based_on_type. rewrite (Hk k v Hs). reflexivity.
Qed.

Lemma for_each_noop {A} (xs : list A) (body : A -> M unit) (self : BaseService) :
  (forall x, x ∈ xs -> body x self = (Ok tt, self)) ->
  for_each xs body self = (Ok tt, self).
Proof.
  induction xs as [|x xs IH]; intros H; [reflexivity|].
  simpl. unfold bind. rewrite (H x) by left.
  apply IH. intros y Hy. apply H. right. exact Hy.
Qed.

(** X2: a credentials file is read line by line, and a line is used only
    if it splits at [=] into exactly a key and a value and the key has the
    service name in it. A file of ASCII text with no such line -- lines
    without [=], lines with a second [=] (in the value, say), lines of
    other services -- leaves the object as it was, without an error. *)
Theorem X2_foreign_lines_ignored (E : Env) (service_name p : string)
    (fp : list string) (self : BaseService) :
  located_file E = Some p -> read_lines E p = Some fp ->
  (forall line, line ∈ fp -> Str.is_ascii line = true) ->
  (forall line, line ∈ fp -> foreign_line service_name line) ->
  _load_from_credential_file E service_name "=" self = (Ok tt, self).
Proof.
  intros Hp Hfp _ Hall. rewrite _load_from_credential_file_located, Hp, Hfp.
  apply for_each_noop. intros line Hl. apply apply_line_foreign, Hall, Hl.
Qed.

Lemma X2_foreign_lines_ignored_witness :
  _load_from_credential_file (file_env foreign_file) "my_service" "="
    api_key_service = (Ok tt, api_key_service).
Proof.
  apply (X2_foreign_lines_ignored (file_env foreign_file) "my_service"
           "/etc/ibm-credentials.env" foreign_file api_key_service).
  - reflexivity.
  - reflexivity.
  - intros line Hl. unfold foreign_file in Hl.
    repeat (apply elem_of_cons in Hl as [-> | Hl]; [vm_compute; reflexivity|]).
    inversion Hl.
  - intros line Hl. unfold foreign_file in Hl.
    apply elem_of_cons in Hl as [-> | Hl].
    { left. vm_compute. discriminate. }
    apply elem_of_cons in Hl as [-> | Hl].
    { right. intros k v H. vm_compute in H. injection H as <- <-.
      vm_compute. reflexivity. }
    apply elem_of_cons in Hl as [-> | Hl].
    { left. vm_compute. discriminate. }
    inversion Hl.
Defined.

(** ** Constructor: running the phases *)

Lemma construct_run (P : Platform) (E : Env) (a : InitArgs) u1 s1 u2 s2 u3 s3 :
  arguments_phase P a fresh = (Ok u1, s1) ->
  credentials_from_file E a s1 = (Ok u2, s2) ->
  credentials_from_vcap E a s2 = (Ok u3, s3) ->
  construct P E a =
    match require_credentials s3 with
    | (Ok _, s) => Ok s
    | (Raise e, _) => Raise e
    end.
Proof.
  intros H1 H2 H3. unfold construct. rewrite __init___phases.
  rewrite (bind_ok _ _ _ _ _ H1), (bind_ok _ _ _ _ _ H2), (bind_ok _ _ _ _ _ H3).
  reflexivity.
Qed.

Lemma construct_raise_file (P : Platform) (E : Env) (a : InitArgs) u1 s1 e s2 :
  arguments_phase P a fresh = (Ok u1, s1) ->
  credentials_from_file E a s1 = (Raise e, s2) ->
  construct P E a = Raise e.
Proof.
  intros H1 H2. unfold construct. rewrite __init___phases.
  rewrite (bind_ok _ _ _ _ _ H1), (bind_raise _ _ _ _ _ H2). reflexivity.
Qed.

Lemma construct_raise_vcap (P : Platform) (E : Env) (a : InitArgs)
    u1 s1 u2 s2 e s3 :
  arguments_phase P a fresh = (Ok u1, s1) ->
  credentials_from_file E a s1 = (Ok u2, s2) ->
  credentials_from_vcap E a s2 = (Raise e, s3) ->
  construct P E a = Raise e.
Proof.
  intros H1 H2 H3. unfold construct. rewrite __init___phases.
  rewrite (bind_ok _ _ _ _ _ H1), (bind_ok _ _ _ _ _ H2), (bind_raise _ _ _ _ _ H3).
  reflexivity.
Qed.

Lemma credentials_from_constructor_none (a : InitArgs) (s : BaseService) :
  no_explicit_credentials a -> credentials_from_constructor a s = (Ok tt, s).
Proof.
  intros (Hk & Hlogin & Hi & Ht). unfold credentials_from_constructor.
  rewrite Hk, Hi, Ht.
  destruct Hlogin as [-> | ->]; [reflexivity|].
  destruct (a_username a); reflexivity.
Qed.

Lemma arguments_phase_none (P : Platform) (a : InitArgs) :
  no_explicit_credentials a -> has_bad_first_or_last_char (a_url a) = false ->
  arguments_phase P a fresh = (Ok tt, initial a).
Proof.
  intros Hn Hu. rewrite arguments_phase_run, Hu.
  apply credentials_from_constructor_none, Hn.
Qed.

Lemma credentials_from_file_none (E : Env) (a : InitArgs) (s : BaseService) :
  no_file_credentials E a -> credentials_from_file E a s = (Ok tt, s).
Proof.
  intros H. unfold credentials_from_file, bind, get.
  destruct H as [H | H].
  - rewrite H. reflexivity.
  - destruct (_ && _ && _)%bool; [|reflexivity].
    rewrite _load_from_credential_file_located, H. reflexivity.
Qed.

Lemma credentials_from_vcap_none (E : Env) (a : InitArgs) (s : BaseService) :
  no_catalog_credentials E a ->
  exists s', credentials_from_vcap E a s = (Ok tt, s') /\
             username s' = username s /\ password s' = password s /\
             token_manager s' = token_manager s.
Proof.
  intros H. unfold credentials_from_vcap, bind, get.
  destruct H as [H | [H | (services & H & Hs)]].
  - rewrite H. eauto.
  - destruct (_ && _ && _)%bool; [|eauto].
    unfold _load_from_vcap_services. rewrite H. simpl. eauto.
  - destruct (_ && _ && _)%bool; [|eauto].
    unfold _load_from_vcap_services. rewrite H.
    unfold Binding in *. rewrite Hs. simpl. eauto.
Qed.

(** ** Constructor: what it raises and what it ignores *)

(** X3: when IBM_CREDENTIALS_FILE names a file that does not exist, and the
    explicit arguments give no credentials but a display name, the
    construction fails with [IOError]: the files in the home and project
    directories are not tried instead, and the service catalog is not
    reached. *)
Theorem X3_missing_named_file_raises (P : Platform) (E : Env) (a : InitArgs)
    (p : string) :
  no_explicit_credentials a ->
  has_bad_first_or_last_char (a_url a) = false ->
  truthy (a_display_name a) = true ->
  getenv_IBM_CREDENTIALS_FILE E = Some p -> read_lines E p = None ->
  construct P E a = Raise IOError.
Proof.
  intros Hn Hu Hd Hp Hr.
  apply (construct_raise_file P E a tt (initial a) IOError (initial a)).
  - apply arguments_phase_none; assumption.
  - unfold credentials_from_file, bind, get. rewrite Hd. simpl.
    rewrite _load_from_credential_file_located.
    unfold located_file. rewrite Hp, Hr. reflexivity.
Qed.

(** X4: with no credentials among the explicit arguments, none from a
    credentials file and none from the service catalog, the construction
    fails with the [ValueError] that asks for credentials. *)
Theorem X4_no_credentials_raises (P : Platform) (E : Env) (a : InitArgs) :
  no_explicit_credentials a ->
  has_bad_first_or_last_char (a_url a) = false ->
  no_file_credentials E a -> no_catalog_credentials E a ->
  construct P E a = Raise ValueError_no_credentials.
Proof.
  intros Hn Hu Hf Hc.
  destruct (credentials_from_vcap_none E a (initial a) Hc)
    as (s' & Hv & Hus & Hpw & Htm).
  rewrite (construct_run P E a tt (initial a) tt (initial a) tt s'
             (arguments_phase_none P a Hn Hu)
             (credentials_from_file_none E a _ Hf) Hv).
  unfold require_credentials, bind, get. rewrite Hus, Htm. reflexivity.
Qed.

Lemma X3_missing_named_file_raises_witness :
  construct linux missing_file_env my_service_args = Raise IOError.
Proof.
  apply (X3_missing_named_file_raises linux missing_file_env my_service_args
           "/etc/missing.env").
  - repeat split; auto.
  - reflexivity.
  - reflexivity.
  - reflexivity.
  - reflexivity.
Defined.

Lemma X4_no_credentials_raises_witness :
  construct linux bare_env (positional "assistant" (Some "https://default.test"))
  = Raise ValueError_no_credentials.
Proof.
  apply (X4_no_credentials_raises linux bare_env
           (positional "assistant" (Some "https://default.test"))).
  - repeat split; auto.
  - reflexivity.
  - left. reflexivity.
  - right. left. reflexivity.
Defined.

(** Constructions whose phases agree have the same outcome. *)
Lemma construct_ext (P P' : Platform) (E E' : Env) (a a' : InitArgs) :
  arguments_phase P a fresh = arguments_phase P' a' fresh ->
  (forall s, credentials_from_file E a s = credentials_from_file E' a' s) ->
  (forall s, credentials_from_vcap E a s = credentials_from_vcap E' a' s) ->
  construct P E a = construct P' E' a'.
Proof.
  intros H1 H2 H3. unfold construct. rewrite !__init___phases.
  unfold bind. rewrite H1.
  destruct (arguments_phase P' a' fresh) as [[u1|e1] s1]; [|reflexivity].
  rewrite H2.
  destruct (credentials_from_file E' a' s1) as [[u2|e2] s2]; [|reflexivity].
  rewrite H3. reflexivity.
Qed.

(** X5: a [username] given without [password], or a [password] without
    [username], is ignored altogether: the construction goes as if neither
    had been given. *)
Theorem X5_half_a_login_is_ignored (P : Platform) (E : Env) (a : InitArgs) :
  a_username a = None \/ a_password a = None ->
  construct P E a = construct P E (without_login a).
Proof.
  intros H. apply construct_ext; [|reflexivity|reflexivity].
  rewrite !arguments_phase_run.
  change (a_url (without_login a)) with (a_url a).
  change (initial (without_login a)) with (initial a).
  destruct (has_bad_first_or_last_char (a_url a)); [reflexivity|].
  unfold credentials_from_constructor.
  change (a_api_key (without_login a)) with (a_api_key a).
  destruct (a_api_key a); [reflexivity|].
  destruct H as [-> | ->]; [reflexivity|].
  destruct (a_username a); reflexivity.
Qed.

Lemma X5_half_a_login_is_ignored_witness :
  construct linux (file_env login_file)
    (with_username_only runtime_apikey my_service_args)
  = construct linux (file_env login_file)
      (without_login (with_username_only runtime_apikey my_service_args)).
Proof.
  apply (X5_half_a_login_is_ignored linux (file_env login_file)
           (with_username_only runtime_apikey my_service_args)).
  right. reflexivity.
Defined.

(** X6: with an explicit [api_key], the outcome of the construction is a
    function of [url], [api_key], [iam_access_token] and [iam_url] alone:
    the other arguments ([username], [password], [iam_apikey],
    [display_name], [use_vcap_services], the service name), the platform
    and the environment make no difference. *)
Theorem X6_api_key_decides_alone (P P' : Platform) (E E' : Env) (a a' : InitArgs)
    (k : string) :
  a_api_key a = Some k -> a_api_key a' = Some k ->
  a_url a' = a_url a ->
  a_iam_access_token a' = a_iam_access_token a ->
  a_iam_url a' = a_iam_url a ->
  construct P E a = construct P' E' a'.
Proof.
  intros Hk Hk' Hu Ht Hi.
  assert (Hp : arguments_phase P' a' fresh = arguments_phase P a fresh).
  { rewrite !arguments_phase_run. unfold initial. rewrite Hu.
    destruct (has_bad_first_or_last_char (a_url a)); [reflexivity|].
    rewrite (credentials_from_constructor_api_key a k _ Hk).
    rewrite (credentials_from_constructor_api_key a' k _ Hk').
    rewrite Ht, Hi. reflexivity. }
  destruct (arguments_phase P a fresh) as [[u|e] s1] eqn:Ha.
  - pose proof (api_key_decides P a k u s1 Hk Ha) as Hd.
    rewrite (construct_decided P E a u s1 Ha Hd).
    rewrite (construct_decided P' E' a' u s1 Hp Hd). reflexivity.
  - rewrite (construct_raise_early P E a e s1 Ha).
    rewrite (construct_raise_early P' E' a' e s1 Hp). reflexivity.
Qed.

Lemma X6_api_key_decides_alone_witness :
  construct linux (file_env login_file) explicit_key_args
  = construct linux (vcap_env "assistant" bound_credentials)
      (with_api_key "k3y" (positional "assistant" (Some "https://default.test"))).
Proof.
  apply (X6_api_key_decides_alone linux linux (file_env login_file)
           (vcap_env "assistant" bound_credentials) explicit_key_args
           (with_api_key "k3y" (positional "assistant" (Some "https://default.test")))
           "k3y"); reflexivity.
Defined.

(** X7: with [use_vcap_services=False] the content of VCAP_SERVICES makes
    no difference to the construction. *)
Theorem X7_vcap_switched_off (P : Platform) (E : Env) (a : InitArgs)
    (v : option VcapDoc) :
  a_use_vcap_services a = false ->
  construct P (with_VCAP_SERVICES v E) a = construct P E a.
Proof.
  intros H. apply construct_ext; [reflexivity|reflexivity|].
  intros s. unfold credentials_from_vcap, bind, get. rewrite H. reflexivity.
Qed.

Lemma X7_vcap_switched_off_witness :
  construct linux
    (with_VCAP_SERVICES
       (Some (VcapObject {[ "assistant" := [Some (CredDict bound_credentials)] ]}))
       bare_env)
    (without_vcap (positional "assistant" (Some "https://default.test")))
  = construct linux bare_env
      (without_vcap (positional "assistant" (Some "https://default.test"))).
Proof.
  apply (X7_vcap_switched_off linux bare_env
           (without_vcap (positional "assistant" (Some "https://default.test")))).
  reflexivity.
Defined.

(** ** Service catalog *)

Lemma credentials_from_vcap_guard (E : Env) (a : InitArgs) (s : BaseService) :
  a_use_vcap_services a = true -> username s = None -> token_manager s = None ->
  credentials_from_vcap E a s =
    (creds <- _load_from_vcap_services E (a_vcap_services_name a) ;;
     do assign (with_vcap_service_credentials creds) ;;
     match creds with
     | Some (CredDict d) =>
         do match d !! URL with
            | Some u => assign (with_url u)
            | None => raise (KeyError URL)
            end ;;
         do match d !! USERNAME with
            | Some v => assign (with_username v)
            | None => ret tt
            end ;;
         do match d !! PASSWORD with
            | Some v => assign (with_password v)
            | None => ret tt
            end ;;
         do match d !! APIKEY with
            | Some v => set_iam_apikey v
            | None => ret tt
            end ;;
         do match d !! IAM_APIKEY with
            | Some v => set_iam_apikey v
            | None => ret tt
            end ;;
         match d !! IAM_ACCESS_TOKEN with
         | Some v => set_iam_access_token v
         | None => ret tt
         end
     | _ => ret tt
     end) s.
Proof.
  intros Hv Hu Ht. unfold credentials_from_vcap at 1.
  unfold bind at 1. unfold get. rewrite Hv, Hu, Ht. reflexivity.
Qed.

Lemma _load_from_vcap_services_bound (E : Env) (name : string)
    (services : gmap string (list (option Credentials)))
    (bindings : list (option Credentials)) (s : BaseService) :
  getenv_VCAP_SERVICES E = Some (VcapObject services) ->
  services !! name = Some bindings ->
  _load_from_vcap_services E name s =
    match bindings with
    | [] => (Raise IndexError, s)
    | None :: _ => (Raise (KeyError "credentials"), s)
    | Some c :: _ => (Ok (Some c), s)
    end.
Proof.
  intros H Hs. unfold _load_from_vcap_services. rewrite H.
  unfold Binding in *. rewrite Hs. destruct bindings as [|[c|] bs]; reflexivity.
Qed.

(** What the explicit arguments and the file leave when they give nothing. *)
Lemma construct_reaches_catalog (P : Platform) (E : Env) (a : InitArgs) :
  no_explicit_credentials a ->
  has_bad_first_or_last_char (a_url a) = false ->
  no_file_credentials E a ->
  (forall e s3, credentials_from_vcap E a (initial a) = (Raise e, s3) ->
                construct P E a = Raise e) /\
  (forall s, construct P E a = Ok s ->
             exists u3, credentials_from_vcap E a (initial a) = (Ok u3, s)).
Proof.
  intros Hn Hu Hf. split.
  - intros e s3 H3.
    exact (construct_raise_vcap P E a tt (initial a) tt (initial a) e s3
             (arguments_phase_none P a Hn Hu)
             (credentials_from_file_none E a _ Hf) H3).
  - intros s H.
    apply construct_inv in H
      as (u1 & s1 & u2 & s2 & u3 & s3 & u4 & H1 & H2 & H3 & H4).
    rewrite (arguments_phase_none P a Hn Hu) in H1. simplify_eq.
    rewrite (credentials_from_file_none E a _ Hf) in H2. simplify_eq.
    apply require_credentials_ok in H4 as [-> _]. eauto.
Qed.

(** X8: when the construction comes to the service catalog (no explicit
    credentials, none from a file, [use_vcap_services] on), a catalog that
    is not as expected makes it fail: text that is not JSON with the
    [ValueError] of [json.loads], an empty list of bindings with
    [IndexError], a binding without [credentials] with [KeyError], and
    credentials without [url] with [KeyError] -- also when they hold a
    username and password or an API key. *)
Theorem X8_malformed_catalog_raises (P : Platform) (E : Env) (a : InitArgs) :
  no_explicit_credentials a ->
  has_bad_first_or_last_char (a_url a) = false ->
  no_file_credentials E a ->
  a_use_vcap_services a = true ->
  (getenv_VCAP_SERVICES E = Some VcapInvalid ->
   construct P E a = Raise ValueError_json) /\
  (forall services : gmap string (list (option Credentials)),
     getenv_VCAP_SERVICES E = Some (VcapObject services) ->
     services !! a_vcap_services_name a = Some [] ->
     construct P E a = Raise IndexError) /\
  (forall (services : gmap string (list (option Credentials))) bs,
     getenv_VCAP_SERVICES E = Some (VcapObject services) ->
     services !! a_vcap_services_name a = Some (None :: bs) ->
     construct P E a = Raise (KeyError "credentials")) /\
  (forall (services : gmap string (list (option Credentials))) d bs,
     getenv_VCAP_SERVICES E = Some (VcapObject services) ->
     services !! a_vcap_services_name a = Some (Some (CredDict d) :: bs) ->
     d !! URL = None ->
     construct P E a = Raise (KeyError URL)).
Proof.
  intros Hn Hu Hf Hv.
  destruct (construct_reaches_catalog P E a Hn Hu Hf) as [Hraise _].
  assert (Hg := credentials_from_vcap_guard E a (initial a) Hv eq_refl eq_refl).
  split; [|split; [|split]].
  - intros H. apply (Hraise _ (initial a)). rewrite Hg.
    apply bind_raise. unfold _load_from_vcap_services. rewrite H. reflexivity.
  - intros services H Hs. apply (Hraise _ (initial a)). rewrite Hg.
    apply bind_raise. rewrite (_load_from_vcap_services_bound E _ _ _ _ H Hs).
    reflexivity.
  - intros services bs H Hs. apply (Hraise _ (initial a)). rewrite Hg.
    apply bind_raise. rewrite (_load_from_vcap_services_bound E _ _ _ _ H Hs).
    reflexivity.
  - intros services d bs H Hs Hd.
    apply (Hraise _ (with_vcap_service_credentials (Some (CredDict d)) (initial a))).
    rewrite Hg.
    rewrite (bind_ok _ _ _ (Some (CredDict d)) (initial a)
               (_load_from_vcap_services_bound E _ _ _ _ H Hs)).
    unfold bind, assign. rewrite Hd. reflexivity.
Qed.

Lemma X8_malformed_catalog_raises_witness :
  (getenv_VCAP_SERVICES (vcap_env "assistant" binding_without_url)
     = Some VcapInvalid ->
   construct linux (vcap_env "assistant" binding_without_url)
     (positional "assistant" (Some "https://default.test"))
   = Raise ValueError_json) /\
  (forall services : gmap string (list (option Credentials)),
     getenv_VCAP_SERVICES (vcap_env "assistant" binding_without_url)
       = Some (VcapObject services) ->
     services !! "assistant" = Some [] ->
     construct linux (vcap_env "assistant" binding_without_url)
       (positional "assistant" (Some "https://default.test"))
     = Raise IndexError) /\
  (forall (services : gmap string (list (option Credentials))) bs,
     getenv_VCAP_SERVICES (vcap_env "assistant" binding_without_url)
       = Some (VcapObject services) ->
     services !! "assistant" = Some (None :: bs) ->
     construct linux (vcap_env "assistant" binding_without_url)
       (positional "assistant" (Some "https://default.test"))
     = Raise (KeyError "credentials")) /\
  (forall (services : gmap string (list (option Credentials))) d bs,
     getenv_VCAP_SERVICES (vcap_env "assistant" binding_without_url)
       = Some (VcapObject services) ->
     services !! "assistant" = Some (Some (CredDict d) :: bs) ->
     d !! URL = None ->
     construct linux (vcap_env "assistant" binding_without_url)
       (positional "assistant" (Some "https://default.test"))
     = Raise (KeyError URL)).
Proof.
  apply (X8_malformed_catalog_raises linux
           (vcap_env "assistant" binding_without_url)
           (positional "assistant" (Some "https://default.test"))).
  - repeat split; auto.
  - reflexivity.
  - left. reflexivity.
  - reflexivity.
Defined.

(** A binding with username and password but no URL: [KeyError]. *)
Example construct_binding_without_url :
  construct linux (vcap_env "assistant" binding_without_url)
    (positional "assistant" (Some "https://default.test"))
  = Raise (KeyError URL).
Proof. vm_compute. reflexivity. Qed.

(** The fields the IAM setters leave alone. *)
Lemma iam_setter_frame (m : M unit) (x y : BaseService) o :
  m = ret tt \/ (exists v, m = set_iam_apikey v) \/
  (exists v, m = set_iam_access_token v) ->
  m x = (Ok o, y) ->
  url y = url x /\ vcap_service_credentials y = vcap_service_credentials x /\
  username y = username x /\ password y = password x.
Proof.
  intros [-> | [[v ->] | [v ->]]] Hm; run;
    repeat case_match; simplify_eq; auto.
Qed.

(** What the catalog phase leaves of a binding that has a URL. *)
Lemma credentials_from_vcap_bound (E : Env) (a : InitArgs) (s0 : BaseService)
    (services : gmap string (list (option Credentials)))
    (d : gmap string (option string)) bs (u : option string) u3 s :
  a_use_vcap_services a = true -> username s0 = None -> token_manager s0 = None ->
  getenv_VCAP_SERVICES E = Some (VcapObject services) ->
  services !! a_vcap_services_name a = Some (Some (CredDict d) :: bs) ->
  d !! URL = Some u ->
  credentials_from_vcap E a s0 = (Ok u3, s) ->
  url s = u /\
  vcap_service_credentials s = Some (CredDict d) /\
  username s = default (username s0) (d !! USERNAME) /\
  password s = default (password s0) (d !! PASSWORD).
Proof.
  intros Hv Hu Ht H Hs Hd Hrun.
  rewrite (credentials_from_vcap_guard E a s0 Hv Hu Ht) in Hrun.
  apply bind_ok_inv in Hrun as (creds & s00 & H0 & Hrun).
  rewrite (_load_from_vcap_services_bound E _ _ _ _ H Hs) in H0.
  injection H0 as <- <-.
  apply bind_ok_inv in Hrun as ([] & sa & Ha & Hrun).
  apply bind_ok_inv in Hrun as ([] & sb & Hb & Hrun).
  apply bind_ok_inv in Hrun as ([] & s1 & H1 & Hrun).
  apply bind_ok_inv in Hrun as ([] & s2 & H2 & Hrun).
  apply bind_ok_inv in Hrun as ([] & s3 & H3 & Hrun).
  apply bind_ok_inv in Hrun as ([] & s4 & H4 & Hrun).
  assert (A : url s3 = url s2 /\
              vcap_service_credentials s3 = vcap_service_credentials s2 /\
              username s3 = username s2 /\ password s3 = password s2).
  { destruct (d !! APIKEY) as [v|].
    - apply (iam_setter_frame (set_iam_apikey v) _ _ tt); eauto.
    - apply (iam_setter_frame (ret tt) _ _ tt); eauto. }
  assert (B : url s4 = url s3 /\
              vcap_service_credentials s4 = vcap_service_credentials s3 /\
              username s4 = username s3 /\ password s4 = password s3).
  { destruct (d !! IAM_APIKEY) as [v|].
    - apply (iam_setter_frame (set_iam_apikey v) _ _ tt); eauto.
    - apply (iam_setter_frame (ret tt) _ _ tt); eauto. }
  assert (D : url s = url s4 /\
              vcap_service_credentials s = vcap_service_credentials s4 /\
              username s = username s4 /\ password s = password s4).
  { destruct (d !! IAM_ACCESS_TOKEN) as [v|].
    - apply (iam_setter_frame (set_iam_access_token v) _ _ u3); eauto.
    - apply (iam_setter_frame (ret tt) _ _ u3); eauto. }
  destruct D as (-> & -> & -> & ->). destruct B as (-> & -> & -> & ->).
  destruct A as (-> & -> & -> & ->).
  clear H3 H4 Hrun.
  rewrite Hd in Hb. unfold assign, ret in Ha, Hb, H1, H2.
  destruct (d !! USERNAME) as [vu|], (d !! PASSWORD) as [vp|];
    simplify_eq; simpl; auto.
Qed.

(** X9: the URL, username and password of a service binding are taken as
    they are: the URL of the binding replaces the [url] argument, and none
    of the three is checked for braces and quotes. *)
Theorem X9_catalog_values_unchecked (P : Platform) (E : Env) (a : InitArgs)
    (services : gmap string (list (option Credentials)))
    (d : gmap string (option string)) bs (u : option string) (s : BaseService) :
  no_explicit_credentials a ->
  has_bad_first_or_last_char (a_url a) = false ->
  no_file_credentials E a ->
  a_use_vcap_services a = true ->
  getenv_VCAP_SERVICES E = Some (VcapObject services) ->
  services !! a_vcap_services_name a = Some (Some (CredDict d) :: bs) ->
  d !! URL = Some u ->
  construct P E a = Ok s ->
  url s = u /\
  username s = default None (d !! USERNAME) /\
  password s = default None (d !! PASSWORD).
Proof.
  intros Hn Hu Hf Hv H Hs Hd Hc.
  destruct (construct_reaches_catalog P E a Hn Hu Hf) as [_ Hok].
  destruct (Hok s Hc) as [u3 Hrun].
  destruct (credentials_from_vcap_bound E a (initial a) services d bs u u3 s
              Hv eq_refl eq_refl H Hs Hd Hrun) as (H1 & _ & H2 & H3).
  auto.
Qed.

Lemma X9_catalog_values_unchecked_witness :
  url braced_service = Some "{https://gateway.test/api}" /\
  username braced_service = default None (braced_credentials !! USERNAME) /\
  password braced_service = default None (braced_credentials !! PASSWORD).
Proof.
  apply (X9_catalog_values_unchecked linux
           (vcap_env "assistant" braced_credentials)
           (positional "assistant" (Some "https://default.test"))
           {[ "assistant" := [Some (CredDict braced_credentials)] ]}
           braced_credentials [] (Some "{https://gateway.test/api}")
           braced_service).
  - repeat split; auto.
  - reflexivity.
  - left. reflexivity.
  - reflexivity.
  - reflexivity.
  - vm_compute. reflexivity.
  - vm_compute. reflexivity.
  - vm_compute. reflexivity.
Defined.

(** ** Invariants of the credentials code *)

Lemma preserves_bind {A B} (I : BaseService -> Prop) (m : M A) (k : A -> M B) :
  preserves I m -> (forall x, preserves I (k x)) -> preserves I (bind m k).
Proof.
  intros Hm Hk s o s' HI H. unfold bind in H.
  destruct (m s) as [[x|e] s1] eqn:E1.
  - exact (Hk x _ _ _ (Hm _ _ _ HI E1) H).
  - simplify_eq. exact (Hm _ _ _ HI E1).
Qed.

Lemma preserves_ret {A} (I : BaseService -> Prop) (x : A) : preserves I (ret x).
Proof. intros s o s' HI H. unfold ret in H. by simplify_eq. Qed.

Lemma preserves_raise {A} (I : BaseService -> Prop) e : preserves I (@raise _ A e).
Proof. intros s o s' HI H. unfold raise in H. by simplify_eq. Qed.

Lemma preserves_get (I : BaseService -> Prop) : preserves I get.
Proof. intros s o s' HI H. unfold get in H. by simplify_eq. Qed.

Lemma preserves_for_each {A} (I : BaseService -> Prop) (xs : list A)
    (body : A -> M unit) :
  (forall x, preserves I (body x)) -> preserves I (for_each xs body).
Proof.
  intros Hb. induction xs as [|x xs IH]; simpl.
  - apply preserves_ret.
  - apply preserves_bind; auto.
Qed.

Section Invariant.

Variable I : BaseService -> Prop.

Hypothesis I_url : forall v, preserves I (assign (with_url v)).
Hypothesis I_username : forall v, preserves I (assign (with_username v)).
Hypothesis I_password : forall v, preserves I (assign (with_password v)).
Hypothesis I_vcap : forall v, preserves I (assign (with_vcap_service_credentials v)).
Hypothesis I_set_iam_apikey : forall v, preserves I (set_iam_apikey v).
Hypothesis I_set_iam_access_token : forall v, preserves I (set_iam_access_token v).
Hypothesis I_set_iam_url : forall v, preserves I (set_iam_url v).
Hypothesis I_set_username_and_password :
  forall u p, preserves I (set_username_and_password u p).
Hypothesis I_set_token_manager : forall k t u, preserves I (set_token_manager k t u).

Lemma preserves_set_url v : preserves I (set_url v).
Proof.
  unfold set_url. apply preserves_bind; [|intros _; apply I_url].
  destruct (has_bad_first_or_last_char v);
    [apply preserves_raise | apply preserves_ret].
Qed.

Lemma preserves__set_credential_based_on_type sn key value :
  preserves I (_set_credential_based_on_type sn key value).
Proof.
  unfold _set_credential_based_on_type.
  repeat case_match;
    auto using preserves_ret, preserves_set_url.
Qed.

Lemma preserves_credentials_from_file E a : preserves I (credentials_from_file E a).
Proof.
  unfold credentials_from_file.
  apply preserves_bind; [apply preserves_get|]. intros self.
  case_match; [|apply preserves_ret].
  intros s o s' HI Hrun. rewrite _load_from_credential_file_located in Hrun.
  destruct (located_file E) as [p|]; [|by simplify_eq].
  destruct (read_lines E p) as [fp|]; [|by simplify_eq].
  revert s o s' HI Hrun. apply preserves_for_each. intros line.
  unfold apply_line.
  repeat case_match;
    auto using preserves_ret, preserves__set_credential_based_on_type.
Qed.

Lemma preserves_credentials_from_vcap E a : preserves I (credentials_from_vcap E a).
Proof.
  unfold credentials_from_vcap.
  apply preserves_bind; [apply preserves_get|]. intros self.
  case_match; [|apply preserves_ret].
  apply preserves_bind.
  { unfold _load_from_vcap_services.
    repeat case_match; try apply preserves_ret; apply preserves_raise. }
  intros creds. apply preserves_bind; [apply I_vcap|]. intros _.
  destruct creds as [[d|]|]; try apply preserves_ret.
  repeat (apply preserves_bind; [|intros _]);
    repeat case_match; auto using preserves_ret, preserves_raise.
Qed.

Lemma preserves_credentials_from_constructor a :
  preserves I (credentials_from_constructor a).
Proof.
  unfold credentials_from_constructor.
  repeat case_match; auto using preserves_ret.
Qed.

(** What holds of the object when [__init__] has made its first
    assignments, and is kept by the setters and assignments of the
    credentials code, holds of every constructed service. *)
Lemma construct_invariant (P : Platform) (E : Env) (a : InitArgs) (s : BaseService) :
  I (initial a) -> construct P E a = Ok s -> I s.
Proof.
  intros H0 H.
  apply construct_inv in H
    as (u1 & s1 & u2 & s2 & u3 & s3 & u4 & H1 & H2 & H3 & H4).
  rewrite arguments_phase_run in H1.
  destruct (has_bad_first_or_last_char (a_url a)); [discriminate|].
  apply require_credentials_ok in H4 as [-> _].
  apply (preserves_credentials_from_vcap E a _ _ _
           (preserves_credentials_from_file E a _ _ _
              (preserves_credentials_from_constructor a _ _ _ H0 H1) H2) H3).
Qed.

End Invariant.

(** ** Request dispatch: the rest of the transport call *)

(** When the transport was called, the keyword arguments, body, query
    parameters and files are the ones below; there was no JSON body without
    raw data, and no keyword argument clashed. *)
Lemma request_payload (C : Collaborators) (P : Platform) (self : BaseService)
    (method url : string) (accept_json : bool) (headers params : option Dict)
    (json data : option Body) (files : option Dict) (kwargs : gmap string Atom)
    (wire : list TransportRequest) o tr :
  request C P self method url accept_json headers params json data files kwargs wire
    = (o, wire ++ [tr]) ->
  tr_kwargs tr = sent_kwargs self kwargs /\
  tr_data tr = sent_data P data /\
  tr_params tr = (cleanup_values C <$> (remove_null_values <$> params)) /\
  tr_files tr = (remove_null_values <$> files) /\
  (json = None \/ body_truthy (sent_data P data) = true) /\
  existsb (fun k => bool_decide (is_Some (sent_kwargs self kwargs !! k)))
    explicit_keywords = false.
Proof.
  intros H. unfold request in H.
  apply bind_inv in H as [(e & H1 & Ho) | (full_url & w1 & H1 & H)].
  { exfalso. destruct (self_url self); unfold raise, ret in H1; simplify_eq.
    eapply app_singleton_neq; eauto. }
  destruct (self_url self) as [base|] eqn:Hbase;
    unfold raise, ret in H1; simplify_eq.
  cbv zeta in H.
  apply bind_inv in H as [(e & H2 & Ho) | (dh & w2 & H2 & H)].
  { exfalso. destruct json as [j|]; simpl in H2; [|unfold ret in H2; simplify_eq].
    match type of H2 with context [negb ?b] => destruct (negb b) end;
      [|unfold ret in H2; simplify_eq].
    unfold bind, raise, ret in H2. destruct j; simpl in H2; simplify_eq;
      eapply app_singleton_neq; eauto. }
  assert (Hdh : w2 = w1 /\ dh.1 = sent_data P data /\
                (json = None \/ body_truthy (sent_data P data) = true)).
  { destruct json as [j|]; simpl in H2;
      [|unfold ret in H2; simplify_eq; auto].
    match type of H2 with context [negb ?b] => destruct b eqn:Hb end; simpl in H2;
      [unfold ret in H2; simplify_eq; auto|].
    unfold bind, raise, ret in H2. destruct j; simpl in H2; simplify_eq. }
  destruct Hdh as (-> & Hdata & Hjson).
  apply bind_inv in H as [(e & H3 & Ho) | (hs & w3 & H3 & H)].
  { exfalso. destruct (token_manager self) as [tm|]; [|unfold ret in H3; simplify_eq].
    unfold bind, raise, ret in H3.
    destruct (get_token C tm); simplify_eq. eapply app_singleton_neq; eauto. }
  assert (w3 = w1) as ->.
  { destruct (token_manager self) as [tm|].
    - unfold bind, raise, ret in H3.
      destruct (get_token C tm) as [t|] eqn:Ht; simplify_eq. reflexivity.
    - unfold ret in H3. simplify_eq. auto. }
  apply bind_inv in H as [(e & H4 & Ho) | ([] & w4 & H4 & H)].
  { exfalso. destruct (existsb _ _); unfold raise, ret in H4; simplify_eq.
    eapply app_singleton_neq; eauto. }
  fold (sent_kwargs self kwargs) in H4, H.
  destruct (existsb _ explicit_keywords) eqn:Hk;
    unfold raise, ret in H4; simplify_eq.
  apply bind_inv in H as [(e & H5 & Ho) | (response & w5 & H5 & H)].
  - unfold send in H5. injection H5 as _ Hw.
    apply app_inj_tail in Hw as [_ <-]. simpl.
    rewrite Hdata. auto 10.
  - unfold send in H5. injection H5 as _ <-.
    match type of H with
    | _ (?w ++ [?t]) = (_, ?w2) => assert (Hw : w ++ [t] = w2)
    end.
    { clear -H. unfold ret, raise in H. repeat case_match; simplify_eq; reflexivity. }
    apply app_inj_tail in Hw as [_ <-]. simpl.
  rewrite Hdata. auto 10.
Qed.

(** ** What construction and the setters keep *)

Lemma keeps_preserves {A X} (f : BaseService -> X) (m : M A) (x : X) :
  keeps f m -> preserves (fun s => f s = x) m.
Proof. intros Hk s o s' HI H. rewrite (Hk _ _ _ H). exact HI. Qed.

(** X10: construction leaves the attribute [api_key], the HTTP
    configuration, the [verify] flag and the default headers as [__init__]
    first assigns them: unset and empty, whatever the arguments, the
    credentials file and VCAP_SERVICES hold. *)
Theorem X10_construction_leaves_settings_unset (P : Platform) (E : Env)
    (a : InitArgs) (s : BaseService) :
  construct P E a = Ok s -> settings s = (None, ∅, None, None).
Proof.
  apply (construct_invariant (fun s => settings s = (None, ∅, None, None)));
    try (intros; apply keeps_preserves; keeps_setter).
  reflexivity.
Qed.

Lemma X10_construction_leaves_settings_unset_witness :
  settings both_modes_service = (None, ∅, None, None).
Proof.
  apply (X10_construction_leaves_settings_unset linux
           (vcap_env "assistant" bound_credentials)
           (positional "assistant" (Some "https://default.test"))).
  vm_compute. reflexivity.
Defined.

Lemma preserves_call (I : BaseService -> Prop) :
  (forall c, preserves I (call c)) ->
  forall cs s, I s -> I (after_calls cs s).
Proof.
  intros Hc cs. unfold after_calls.
  induction cs as [|c cs IH]; intros s HI; simpl; [exact HI|].
  apply IH. destruct (call c s) as [o s'] eqn:E. exact (Hc c _ _ _ HI E).
Qed.

Ltac iam_attr_setter :=
  intros ? ? ? ? ?; unfold iam_fields_need_token_manager in *; run;
  repeat (first [progress simplify_eq /= | case_match]); intuition congruence.

Lemma iam_fields_call c : preserves iam_fields_need_token_manager (call c).
Proof.
  destruct c; simpl;
    unfold set_default_headers, set_user_agent_header, set_http_config,
      disable_SSL_verification; iam_attr_setter.
Qed.

(** X11: on a constructed service, and after any calls of its setters, the
    attributes [iam_apikey], [iam_access_token] and [iam_url] are unset as
    long as the service has no token manager: an IAM attribute is never set
    without a token manager being there. *)
Theorem X11_iam_attributes_need_token_manager (P : Platform) (E : Env)
    (a : InitArgs) (s : BaseService) (cs : list Call) :
  construct P E a = Ok s ->
  token_manager (after_calls cs s) = None ->
  iam_apikey (after_calls cs s) = None /\
  iam_access_token (after_calls cs s) = None /\
  iam_url (after_calls cs s) = None.
Proof.
  intros H.
  apply (preserves_call iam_fields_need_token_manager iam_fields_call).
  revert H.
  apply (construct_invariant iam_fields_need_token_manager);
    try (intros v; iam_attr_setter); try (intros v1 v2; iam_attr_setter);
    try (intros v1 v2 v3; iam_attr_setter).
  intros _. repeat split.
Qed.

Lemma X11_iam_attributes_need_token_manager_witness :
  iam_apikey
    (after_calls [call_set_url (Some "https://other.test");
                  call_set_iam_apikey (Some "{bad}");
                  call_set_username_and_password (Some "alice") (Some "s3cret")]
       login_service) = None /\
  iam_access_token
    (after_calls [call_set_url (Some "https://other.test");
                  call_set_iam_apikey (Some "{bad}");
                  call_set_username_and_password (Some "alice") (Some "s3cret")]
       login_service) = None /\
  iam_url
    (after_calls [call_set_url (Some "https://other.test");
                  call_set_iam_apikey (Some "{bad}");
                  call_set_username_and_password (Some "alice") (Some "s3cret")]
       login_service) = None.
Proof.
  apply (X11_iam_attributes_need_token_manager linux bare_env
           (with_login {| chars := "bob"; is_APIKEY_object := false |} "hunter2"
              (positional "assistant" (Some "https://default.test")))).
  - vm_compute. reflexivity.
  - vm_compute. reflexivity.
Defined.

Ltac field_setter :=
  intros ? ? ? ? ?; run;
  repeat (first [progress simplify_eq /= | case_match]); eauto.

Lemma token_manager_stays c :
  preserves (fun s => is_Some (token_manager s)) (call c).
Proof.
  destruct c; simpl;
    unfold set_default_headers, set_user_agent_header, set_http_config,
      disable_SSL_verification; field_setter.
Qed.

(** X12: no setter takes the token manager away. A service that has one
    keeps it through any calls of its setters, and every request it sends
    afterwards carries the bearer token of that token manager. *)
Theorem X12_token_manager_is_never_removed (C : Collaborators) (P : Platform)
    (s : BaseService) (cs : list Call)
    (method url : string) (accept_json : bool) (headers params : option Dict)
    (json data : option Body) (files : option Dict) (kwargs : gmap string Atom)
    (wire : list TransportRequest) o tr :
  is_Some (token_manager s) ->
  request C P (after_calls cs s) method url accept_json headers params json data
    files kwargs wire = (o, wire ++ [tr]) ->
  exists tm access_token,
    token_manager (after_calls cs s) = Some tm /\
    get_token C tm = Ok access_token /\
    ci_get "Authorization" (tr_headers tr)
      = Some (AStr (BEARER +:+ " " +:+ access_token)).
Proof.
  intros Hs H.
  destruct (preserves_call _ token_manager_stays cs s Hs) as [tm Htm].
  apply request_sent in H as (_ & Hh & _).
  rewrite Htm in Hh. destruct Hh as (t & Ht & Hh).
  exists tm, t. rewrite Hh. auto using ci_get_ci_set.
Qed.

Lemma X12_token_manager_is_never_removed_witness :
  exists tm access_token,
    token_manager tuned_service = Some tm /\
    get_token (answering (response_with 200 None)) tm = Ok access_token /\
    ci_get "Authorization" (tr_headers tuned_request)
      = Some (AStr (BEARER +:+ " " +:+ access_token)).
Proof.
  apply (X12_token_manager_is_never_removed
           (answering (response_with 200 None)) linux both_modes_service
           [call_set_http_config {[ "timeout" := AInt 5; "verify" := ABool true ]};
            call_disable_SSL_verification;
            call_set_username_and_password None None]
           "GET" "/v1/status" true None None None (Some (BStr "ping")) None
           {[ "timeout" := AInt 10 ]} []
           (Ok {| dr_result := RNone;
                  dr_headers := resp_headers (response_with 200 None);
                  dr_status_code := 200 |})
           tuned_request).
  - eexists. reflexivity.
  - vm_compute. reflexivity.
Defined.

(** X13: the timeout handed to the transport is the one of the service's
    HTTP configuration when it has one, else the caller's keyword argument,
    else 60 seconds. *)
Theorem X13_timeout_precedence (C : Collaborators) (P : Platform)
    (self : BaseService)
    (method url : string) (accept_json : bool) (headers params : option Dict)
    (json data : option Body) (files : option Dict) (kwargs : gmap string Atom)
    (wire : list TransportRequest) o tr :
  request C P self method url accept_json headers params json data files kwargs wire
    = (o, wire ++ [tr]) ->
  tr_kwargs tr !! "timeout"
  = Some (default (default (AInt 60) (kwargs !! "timeout"))
            (http_config self !! "timeout")).
Proof.
  intros H. apply request_payload in H as (-> & _).
  unfold sent_kwargs.
  assert (Hl : (http_config self ∪ (kwargs ∪ {["timeout" := AInt 60]})) !! "timeout"
               = Some (default (default (AInt 60) (kwargs !! "timeout"))
                         (http_config self !! "timeout"))).
  { rewrite !lookup_union, lookup_singleton_eq.
    destruct (http_config self !! "timeout"), (kwargs !! "timeout"); reflexivity. }
  destruct (verify self); [rewrite lookup_insert_ne by discriminate|]; exact Hl.
Qed.

Lemma X13_timeout_precedence_witness :
  tr_kwargs tuned_request !! "timeout"
  = Some (default (default (AInt 60)
                     (({[ "timeout" := AInt 10 ]} : gmap string Atom) !! "timeout"))
            (http_config tuned_service !! "timeout")).
Proof.
  apply (X13_timeout_precedence
           (answering (response_with 200 None)) linux tuned_service
           "GET" "/v1/status" true None None None (Some (BStr "ping")) None
           {[ "timeout" := AInt 10 ]} []
           (Ok {| dr_result := RNone;
                  dr_headers := resp_headers (response_with 200 None);
                  dr_status_code := 200 |})
           tuned_request).
  vm_compute. reflexivity.
Defined.

Lemma verify_off_stays c :
  preserves (fun s => verify s = Some false) (call c).
Proof.
  destruct c; simpl;
    unfold set_default_headers, set_user_agent_header, set_http_config,
      disable_SSL_verification; field_setter.
Qed.

Lemma verify_off_after (cs : list Call) (s : BaseService) :
  call_disable_SSL_verification ∈ cs -> verify (after_calls cs s) = Some false.
Proof.
  revert s. induction cs as [|c cs IH]; intros s Hin.
  - by apply elem_of_nil in Hin.
  - apply elem_of_cons in Hin as [<- | Hin].
    + change (verify (after_calls cs (with_verify (Some false) s)) = Some false).
      apply (preserves_call _ verify_off_stays). reflexivity.
    + apply (IH _ Hin).
Qed.

(** X14: once [disable_SSL_verification] has been called, no setter turns
    the certificate check on again: every request sent afterwards hands
    [verify=False] to the transport, whatever [verify] the caller's keyword
    arguments and the HTTP configuration give. *)
Theorem X14_disabled_verification_stays_off (C : Collaborators) (P : Platform)
    (s : BaseService) (cs : list Call)
    (method url : string) (accept_json : bool) (headers params : option Dict)
    (json data : option Body) (files : option Dict) (kwargs : gmap string Atom)
    (wire : list TransportRequest) o tr :
  call_disable_SSL_verification ∈ cs ->
  request C P (after_calls cs s) method url accept_json headers params json data
    files kwargs wire = (o, wire ++ [tr]) ->
  tr_kwargs tr !! "verify" = Some (ABool false).
Proof.
  intros Hin H. apply request_payload in H as (-> & _).
  unfold sent_kwargs. rewrite (verify_off_after cs s Hin).
  apply lookup_insert_eq.
Qed.

Lemma X14_disabled_verification_stays_off_witness :
  tr_kwargs tuned_request !! "verify" = Some (ABool false).
Proof.
  apply (X14_disabled_verification_stays_off
           (answering (response_with 200 None)) linux both_modes_service
           [call_set_http_config {[ "timeout" := AInt 5; "verify" := ABool true ]};
            call_disable_SSL_verification;
            call_set_username_and_password None None]
           "GET" "/v1/status" true None None None (Some (BStr "ping")) None
           {[ "timeout" := AInt 10 ]} []
           (Ok {| dr_result := RNone;
                  dr_headers := resp_headers (response_with 200 None);
                  dr_status_code := 200 |})
           tuned_request).
  - apply list_elem_of_further, list_elem_of_here.
  - vm_compute. reflexivity.
Defined.

(** X15: on Python 3 a [str] body goes to the transport as bytes, never as a
    [str]; on Python 2 it goes as it is. *)
Theorem X15_str_body_is_sent_as_bytes (C : Collaborators) (P : Platform)
    (self : BaseService)
    (method url : string) (accept_json : bool) (headers params : option Dict)
    (json : option Body) (body : string) (files : option Dict)
    (kwargs : gmap string Atom) (wire : list TransportRequest) o tr :
  request C P self method url accept_json headers params json (Some (BStr body))
    files kwargs wire = (o, wire ++ [tr]) ->
  tr_data tr = Some (if python3 P then BBytes body else BStr body).
Proof.
  intros H. apply request_payload in H as (_ & -> & _).
  unfold sent_data. simpl. destruct (python3 P); reflexivity.
Qed.

Lemma X15_str_body_is_sent_as_bytes_witness :
  tr_data tuned_request = Some (if python3 linux then BBytes "ping" else BStr "ping").
Proof.
  apply (X15_str_body_is_sent_as_bytes
           (answering (response_with 200 None)) linux tuned_service
           "GET" "/v1/status" true None None None "ping" None
           {[ "timeout" := AInt 10 ]} []
           (Ok {| dr_result := RNone;
                  dr_headers := resp_headers (response_with 200 None);
                  dr_status_code := 200 |})
           tuned_request).
  vm_compute. reflexivity.
Defined.

(** ** When a request reaches the transport *)

Lemma request_reaches_transport (C : Collaborators) (P : Platform)
    (self : BaseService)
    (method url : string) (accept_json : bool) (headers params : option Dict)
    (json data : option Body) (files : option Dict) (kwargs : gmap string Atom)
    (wire : list TransportRequest) :
  is_Some (self_url self) ->
  (json = None \/ body_truthy (sent_data P data) = true) ->
  (forall tm, token_manager self = Some tm -> exists t, get_token C tm = Ok t) ->
  existsb (fun k => bool_decide (is_Some (sent_kwargs self kwargs !! k)))
    explicit_keywords = false ->
  exists o tr,
    request C P self method url accept_json headers params json data files kwargs wire
    = (o, wire ++ [tr]).
Proof.
  intros [base Hbase] Hjson Htok Hk.
  unfold sent_kwargs in Hk. unfold sent_data in Hjson. cbv zeta in Hk, Hjson.
  unfold request. rewrite Hbase.
  erewrite bind_ok by reflexivity. cbv zeta.
  erewrite bind_ok;
    [|destruct json as [j|]; simpl;
      [destruct Hjson as [Hj|Hb]; [discriminate Hj|rewrite Hb; reflexivity]
      |reflexivity]].
  unfold bind, ret, raise, send.
  assert (Hmap : forall (response : Response) (w : list TransportRequest),
    (if ((200 <=? status_code response) && (status_code response <=? 299))%bool
     then
       if ((status_code response =? 204) || String.eqb method "HEAD")%bool
       then fun s => (Ok {| dr_result := RNone; dr_headers := resp_headers response;
                            dr_status_code := status_code response |}, s)
       else if accept_json
            then match json_result response with
                 | Some response_json =>
                     fun s => (Ok {| dr_result := RJson response_json;
                                     dr_headers := resp_headers response;
                                     dr_status_code := status_code response |}, s)
                 | None =>
                     fun s => (Ok {| dr_result := RNone;
                                     dr_headers := resp_headers response;
                                     dr_status_code := status_code response |}, s)
                 end
            else fun s => (Ok {| dr_result := RRaw response;
                                 dr_headers := resp_headers response;
                                 dr_status_code := status_code response |}, s)
     else fun s : list TransportRequest =>
            (Raise (ApiException (status_code response)
                      (if status_code response =? 401 then Some UNAUTHORIZED else None)
                      response), s)) w
    = (response_mapping method accept_json response, w)).
  { intros response w. unfold response_mapping. repeat case_match; reflexivity. }
  destruct (token_manager self) as [tm|];
    [destruct (Htok tm eq_refl) as [t Ht]; rewrite Ht|];
    rewrite Hk;
    (destruct (requests_request C _) as [response|e]; [rewrite Hmap|]; eauto).
Qed.

Lemma explicit_keyword_lookup (self : BaseService) (kwargs : gmap string Atom)
    (k : string) :
  k ∈ explicit_keywords ->
  is_Some (sent_kwargs self kwargs !! k)
  <-> is_Some (kwargs !! k) \/ is_Some (http_config self !! k).
Proof.
  intros Hin.
  assert (Hne : k <> "verify" /\ k <> "timeout").
  { apply list_elem_of_In in Hin. simpl in Hin.
    split; intros ->;
      repeat (destruct Hin as [Hin|Hin]; [discriminate Hin|]); exact Hin. }
  destruct Hne as [Hv Ht].
  assert (Hl : sent_kwargs self kwargs !! k = (http_config self ∪ kwargs) !! k).
  { unfold sent_kwargs. cbv zeta.
    destruct (verify self); [rewrite lookup_insert_ne by congruence|];
      rewrite !lookup_union, lookup_singleton_ne by congruence;
      destruct (http_config self !! k), (kwargs !! k); reflexivity. }
  rewrite Hl, lookup_union_is_Some. tauto.
Qed.

Lemma clashes_spec (self : BaseService) (kwargs : gmap string Atom) :
  existsb (fun k => bool_decide (is_Some (sent_kwargs self kwargs !! k)))
    explicit_keywords = true
  <-> clashes self kwargs.
Proof.
  rewrite existsb_exists. unfold clashes. split.
  - intros (k & Hin & Hk). apply list_elem_of_In in Hin.
    apply bool_decide_eq_true in Hk. exists k. split; [exact Hin|].
    apply explicit_keyword_lookup; assumption.
  - intros (k & Hin & Hk). exists k. split; [apply list_elem_of_In; exact Hin|].
    apply bool_decide_eq_true. apply explicit_keyword_lookup; assumption.
Qed.

(** X16: a call of [request] reaches the transport exactly when the service
    has a URL, the call has no JSON body or has raw data that is not empty
    once null entries are removed, the token manager, if there is one,
    hands out a token, and no keyword argument or HTTP configuration entry
    is named like an argument [request] passes itself. *)
Theorem X16_request_reaches_transport_iff (C : Collaborators) (P : Platform)
    (self : BaseService)
    (method url : string) (accept_json : bool) (headers params : option Dict)
    (json data : option Body) (files : option Dict) (kwargs : gmap string Atom)
    (wire : list TransportRequest) :
  (exists o tr,
     request C P self method url accept_json headers params json data files kwargs
       wire = (o, wire ++ [tr]))
  <->
  is_Some (self_url self) /\
  (json = None \/ body_truthy (sent_data P data) = true) /\
  (forall tm, token_manager self = Some tm -> exists t, get_token C tm = Ok t) /\
  ~ clashes self kwargs.
Proof.
  split.
  - intros (o & tr & H).
    destruct (request_payload _ _ _ _ _ _ _ _ _ _ _ _ _ _ _ H)
      as (_ & _ & _ & _ & Hjson & Hk).
    apply request_inv in H as [[Hw _] | (base & tr' & Hbase & _ & _ & _ & _ & _ & Hh & _)];
      [exfalso; exact (app_singleton_neq _ _ Hw)|].
    split; [eauto|]. split; [exact Hjson|]. split.
    + intros tm Htm. rewrite Htm in Hh. destruct Hh as (t & Ht & _). eauto.
    + intros Hc. apply clashes_spec in Hc. congruence.
  - intros (Hu & Hjson & Htok & Hc).
    apply request_reaches_transport; auto.
    destruct (existsb _ explicit_keywords) eqn:Hk; [|reflexivity].
    exfalso. apply Hc, clashes_spec, Hk.
Qed.

(** X17: when the token manager fails to hand out a token, [request] raises
    the token manager's exception and the transport is not called. *)
Theorem X17_token_failure_is_raised (C : Collaborators) (P : Platform)
    (self : BaseService)
    (method url : string) (accept_json : bool) (headers params : option Dict)
    (json data : option Body) (files : option Dict) (kwargs : gmap string Atom)
    (wire : list TransportRequest) (tm : IAMTokenManager) (e : Exception) :
  is_Some (self_url self) ->
  json = None \/ body_truthy (sent_data P data) = true ->
  token_manager self = Some tm ->
  get_token C tm = Raise e ->
  request C P self method url accept_json headers params json data files kwargs wire
  = (Raise e, wire).
Proof.
  intros [base Hbase] Hjson Htm Ht.
  unfold sent_data in Hjson. cbv zeta in Hjson.
  unfold request. rewrite Hbase.
  erewrite bind_ok by reflexivity. cbv zeta.
  erewrite bind_ok;
    [|destruct json as [j|]; simpl;
      [destruct Hjson as [Hj|Hb]; [discriminate Hj|rewrite Hb; reflexivity]
      |reflexivity]].
  apply bind_raise. rewrite Htm. apply bind_raise. rewrite Ht. reflexivity.
Qed.

Lemma X17_token_failure_is_raised_witness :
  request (failing_token (Foreign "token request refused") (response_with 200 None))
    linux api_key_service "GET" "/v1/status" true None None None None None ∅ []
  = (Raise (Foreign "token request refused"), []).
Proof.
  apply (X17_token_failure_is_raised
           (failing_token (Foreign "token request refused") (response_with 200 None))
           linux api_key_service "GET" "/v1/status" true None None None None None ∅ []
           {| tm_iam_apikey := Some "k3y"; tm_iam_access_token := None;
              tm_iam_url := None |}).
  - eexists. reflexivity.
  - left. reflexivity.
  - reflexivity.
  - reflexivity.
Defined.

(** X18: [request] calls the transport at most once. When it does not call
    it, it raises; when it does, an exception of the transport is passed on
    and a response is mapped, with no second attempt whatever the status. *)
Theorem X18_at_most_one_transport_call (C : Collaborators) (P : Platform)
    (self : BaseService)
    (method url : string) (accept_json : bool) (headers params : option Dict)
    (json data : option Body) (files : option Dict) (kwargs : gmap string Atom)
    (wire : list TransportRequest) o wire' :
  request C P self method url accept_json headers params json data files kwargs wire
    = (o, wire') ->
  (wire' = wire /\ exists e, o = Raise e) \/
  (exists tr,
     wire' = wire ++ [tr] /\
     o = match requests_request C tr with
         | Ok response => response_mapping method accept_json response
         | Raise e => Raise e
         end).
Proof.
  intros H.
  apply request_inv in H as [H | (base & tr & _ & Hw & _ & _ & _ & _ & _ & Ho)];
    [left; exact H | right; eauto].
Qed.

Lemma X18_at_most_one_transport_call_witness :
  ([status_request] = [] /\ exists e, Ok no_content = Raise e) \/
  (exists tr,
     [status_request] = [] ++ [tr] /\
     Ok no_content
     = match requests_request (answering (response_with 204 None)) tr with
       | Ok response => response_mapping "GET" true response
       | Raise e => Raise e
       end).
Proof.
  apply (X18_at_most_one_transport_call (answering (response_with 204 None)) linux
           api_key_service "GET" "/v1/status" true None None None None None ∅ []).
  vm_compute. reflexivity.
Defined.

(** ** Header layers *)

Lemma or_else_assoc {A} (x y z : option A) :
  or_else (or_else x y) z = or_else x (or_else y z).
Proof. destruct x; reflexivity. Qed.

Lemma header_named_cons (k k' : string) (v : Atom) (d : Dict) :
  header_named k ((k', v) :: d)
  = or_else (header_named k d)
      (if String.eqb (Str.lower k') (Str.lower k) then Some v else None).
Proof.
  unfold header_named. simpl.
  destruct (String.eqb (Str.lower k') (Str.lower k)).
  - rewrite last_cons. destruct (last _); reflexivity.
  - destruct (last _); reflexivity.
Qed.

(** [update] lays a dict over a case-insensitive dict: a name has the value
    the dict gives it, else the value it had. *)
Lemma ci_get_ci_update (d : Dict) (m : gmap string (string * Atom)) (k : string) :
  ci_get k (ci_update d m) = or_else (header_named k d) (ci_get k m).
Proof.
  revert m. induction d as [|[k' v] d IH]; intros m; [reflexivity|].
  rewrite ci_update_cons, IH, header_named_cons, or_else_assoc. f_equal.
  destruct (String.eqb_spec (Str.lower k') (Str.lower k)) as [He|Hne].
  - unfold ci_get, ci_set. rewrite He, lookup_insert_eq. reflexivity.
  - rewrite ci_get_ci_set_ne by exact Hne. reflexivity.
Qed.

Lemma ci_get_CaseInsensitiveDict (d : option Dict) (k : string) :
  ci_get k (CaseInsensitiveDict d) = d ≫= header_named k.
Proof.
  destruct d as [d|]; simpl; [|reflexivity].
  rewrite ci_get_ci_update. destruct (header_named k d); reflexivity.
Qed.

Lemma merged_headers_get (C : Collaborators) (self : BaseService)
    (accept_json : bool) (headers : option Dict) (k : string) :
  ci_get k (merged_headers C self accept_json headers)
  = or_else (header_named k (input_headers_of C headers))
      (or_else (if (accept_json && String.eqb (Str.lower k) "accept")%bool
                then Some (AStr "application/json") else None)
         (or_else (default_headers self ≫= header_named k)
            (user_agent_header self ≫= header_named k))).
Proof.
  unfold merged_headers. cbv zeta.
  rewrite ci_get_ci_update. f_equal.
  assert (Hd : ci_get k match default_headers self with
                        | Some d => ci_update d (CaseInsensitiveDict (user_agent_header self))
                        | None => CaseInsensitiveDict (user_agent_header self)
                        end
               = or_else (default_headers self ≫= header_named k)
                   (user_agent_header self ≫= header_named k)).
  { destruct (default_headers self) as [d|]; simpl.
    - rewrite ci_get_ci_update, ci_get_CaseInsensitiveDict. reflexivity.
    - apply ci_get_CaseInsensitiveDict. }
  destruct accept_json; simpl; [|exact Hd].
  destruct (String.eqb_spec (Str.lower k) "accept") as [He|Hne].
  - unfold ci_get, ci_set. rewrite He. simpl. rewrite lookup_insert_eq. reflexivity.
  - rewrite ci_get_ci_set_ne; [exact Hd|].
    intros He. apply Hne. rewrite <- He. reflexivity.
Qed.

(** X19: a header of a sent request, other than [Authorization], has the
    value of the first of these that gives one, names compared without case:
    the headers of the call, [application/json] for [Accept] when JSON is
    asked for, the default headers of the service, its user-agent header. *)
Theorem X19_header_layers (C : Collaborators) (P : Platform) (self : BaseService)
    (method url : string) (accept_json : bool) (headers params : option Dict)
    (json data : option Body) (files : option Dict) (kwargs : gmap string Atom)
    (wire : list TransportRequest) o tr (k : string) :
  Str.lower k <> "authorization" ->
  request C P self method url accept_json headers params json data files kwargs wire
    = (o, wire ++ [tr]) ->
  ci_get k (tr_headers tr)
  = or_else (header_named k (input_headers_of C headers))
      (or_else (if (accept_json && String.eqb (Str.lower k) "accept")%bool
                then Some (AStr "application/json") else None)
         (or_else (default_headers self ≫= header_named k)
            (user_agent_header self ≫= header_named k))).
Proof.
  intros Hk H. apply request_sent in H as (_ & Hh & _).
  rewrite <- merged_headers_get.
  destruct (token_manager self) as [tm|]; [|rewrite Hh; reflexivity].
  destruct Hh as (t & _ & ->). apply ci_get_ci_set_ne.
  intros He. apply Hk. rewrite <- He. reflexivity.
Qed.

Lemma X19_header_layers_witness :
  ci_get "X-Test" (tr_headers headers_request)
  = or_else
      (header_named "X-Test"
         (input_headers_of (answering (response_with 200 None))
            (Some [("x-test", AStr "first"); ("x-TEST", AStr "second");
                   ("X-Skip", ANone)])))
      (or_else (if (true && String.eqb (Str.lower "X-Test") "accept")%bool
                then Some (AStr "application/json") else None)
         (or_else (default_headers headers_service ≫= header_named "X-Test")
            (user_agent_header headers_service ≫= header_named "X-Test"))).
Proof.
  apply (X19_header_layers (answering (response_with 200 None)) linux headers_service
           "GET" "/v1/status" true
           (Some [("x-test", AStr "first"); ("x-TEST", AStr "second");
                  ("X-Skip", ANone)])
           None None None None ∅ []
           (Ok {| dr_result := RNone;
                  dr_headers := resp_headers (response_with 200 None);
                  dr_status_code := 200 |})
           headers_request "X-Test").
  - vm_compute. discriminate.
  - vm_compute. reflexivity.
Defined.

(** ** A login with an empty password *)

(** X20: a non-empty username that is not the class constant [APIKEY]
    itself (the object the constructor compares with [is]), given with an
    empty password, is accepted: the construction succeeds whatever the
    environment holds, since the final check only asks that username and
    password are not [None]. The requests of that service carry no
    credentials: no [auth], and no [Authorization] header but the
    caller's. *)
Theorem X20_empty_password_sends_no_credentials (P : Platform) (E : Env)
    (a : InitArgs) (u : StrObj) :
  a_api_key a = None -> a_username a = Some u -> a_password a = Some EmptyString ->
  is_APIKEY_object u = false ->
  truthy (Some (chars u)) = true ->
  has_bad_first_or_last_char (a_url a) = false ->
  has_bad_first_or_last_char (Some (chars u)) = false ->
  exists s,
    construct P E a = Ok s /\
    forall (C : Collaborators) (P' : Platform) (method url : string)
           (accept_json : bool) (headers params : option Dict)
           (json data : option Body) (files : option Dict)
           (kwargs : gmap string Atom) (wire : list TransportRequest) o tr,
      request C P' s method url accept_json headers params json data files kwargs
        wire = (o, wire ++ [tr]) ->
      tr_auth tr = None /\
      ci_get "Authorization" (tr_headers tr)
      = header_named "Authorization" (input_headers_of C headers).
Proof.
  intros Hk Hu Hp Hobj Htr Hurl Hbad.
  assert (Ha : arguments_phase P a fresh
               = (Ok tt, with_jar (Some EmptyJar)
                           (with_password (Some EmptyString)
                              (with_username (Some (chars u)) (initial a))))).
  { rewrite arguments_phase_run, Hurl. unfold credentials_from_constructor.
    rewrite Hk, Hu, Hp, Hobj. simpl.
    unfold set_username_and_password, bind. rewrite Hbad. reflexivity. }
  eexists. split.
  - apply (construct_decided P E a tt _ Ha). left. exact Htr.
  - intros C P' method url accept_json headers params json data files kwargs
      wire o tr H.
    apply request_sent in H as (Hauth & Hh & _). simpl in Hh.
    split.
    + rewrite Hauth. unfold basic_auth_of. simpl.
      destruct (chars u); [discriminate Htr|reflexivity].
    + rewrite Hh, merged_headers_get.
      destruct accept_json, (header_named _ _); reflexivity.
Qed.

Lemma X20_empty_password_sends_no_credentials_witness :
  exists s,
    construct linux (vcap_env "assistant" bound_credentials)
      (with_login {| chars := "bob"; is_APIKEY_object := false |} EmptyString
         (positional "assistant" (Some "https://default.test"))) = Ok s /\
    forall (C : Collaborators) (P' : Platform) (method url : string)
           (accept_json : bool) (headers params : option Dict)
           (json data : option Body) (files : option Dict)
           (kwargs : gmap string Atom) (wire : list TransportRequest) o tr,
      request C P' s method url accept_json headers params json data files kwargs
        wire = (o, wire ++ [tr]) ->
      tr_auth tr = None /\
      ci_get "Authorization" (tr_headers tr)
      = header_named "Authorization" (input_headers_of C headers).
Proof.
  apply (X20_empty_password_sends_no_credentials linux
           (vcap_env "assistant" bound_credentials)
           (with_login {| chars := "bob"; is_APIKEY_object := false |} EmptyString
              (positional "assistant" (Some "https://default.test")))
           {| chars := "bob"; is_APIKEY_object := false |});
    reflexivity.
Defined.

(** ** Credentials file: the line that counts *)

Lemma for_each_app_noop {A} (xs ys : list A) (body : A -> M unit)
    (self : BaseService) :
  (forall x s, x ∈ xs -> body x s = (Ok tt, s)) ->
  for_each (xs ++ ys) body self = for_each ys body self.
Proof.
  intros H. induction xs as [|x xs IH]; [reflexivity|].
  simpl. unfold bind. rewrite (H x self) by left.
  apply IH. intros y s Hy. apply H. right. exact Hy.
Qed.

Lemma split_key_value (k v : string) :
  count_char "=" k = 0%nat -> count_char "=" v = 0%nat ->
  Str.split "=" (k +:+ "=" +:+ v) = [k; v].
Proof.
  intros Hk Hv.
  apply (split_concat "=" [k; v]); [discriminate|].
  repeat constructor; assumption.
Qed.

(** X21: in a credentials file of ASCII text, the one line that is of use
    -- a key and a value around a single [=], the other lines being of no
    use -- is applied as if [_set_credential_based_on_type] were called
    with the key in lower case and the value as written, white space at
    the ends of the line dropped. *)
Theorem X21_file_line_is_applied (E : Env) (service_name p : string)
    (before after : list string) (line k v : string) (self : BaseService) :
  located_file E = Some p ->
  read_lines E p = Some (before ++ line :: after) ->
  (forall l, l ∈ before ++ line :: after -> Str.is_ascii l = true) ->
  (forall l, l ∈ before ++ after -> foreign_line service_name l) ->
  Str.strip line = k +:+ "=" +:+ v ->
  count_char "=" k = 0%nat -> count_char "=" v = 0%nat ->
  _load_from_credential_file E service_name "=" self
  = _set_credential_based_on_type service_name (Str.lower k) v self.
Proof.
  intros Hp Hfp _ Hall Hline Hk Hv.
  rewrite _load_from_credential_file_located, Hp, Hfp.
  rewrite for_each_app_noop.
  2:{ intros l s Hl. apply apply_line_foreign, Hall.
      apply elem_of_app. left. exact Hl. }
  change (for_each (line :: after) (apply_line service_name "=") self)
    with (bind (apply_line service_name "=" line)
            (fun _ => for_each after (apply_line service_name "=")) self).
  unfold bind.
  assert (Happ : apply_line service_name "=" line self
                 = _set_credential_based_on_type service_name (Str.lower k) v self).
  { unfold apply_line.
    change (match Str.split "=" (Str.strip line) with
            | [k0; v0] => _set_credential_based_on_type service_name (Str.lower k0) v0
            | _ => ret tt
            end self
            = _set_credential_based_on_type service_name (Str.lower k) v self).
    rewrite Hline, (split_key_value k v Hk Hv). reflexivity. }
  rewrite Happ.
  destruct (_set_credential_based_on_type service_name (Str.lower k) v self)
    as [[[]|e] s1]; [|reflexivity].
  apply for_each_noop. intros l Hl. apply apply_line_foreign, Hall.
  apply elem_of_app. right. exact Hl.
Qed.

Lemma X21_file_line_is_applied_witness :
  _load_from_credential_file (file_env key_file) "my_service" "=" login_service
  = _set_credential_based_on_type "my_service" "my_service_apikey"
      "K3y-Value" login_service.
Proof.
  apply (X21_file_line_is_applied (file_env key_file) "my_service"
           "/etc/ibm-credentials.env"
           ["# credentials" +:+ String "010"%char EmptyString]
           ["OTHER_SERVICE_APIKEY=abc" +:+ String "010"%char EmptyString]
           ("  MY_SERVICE_APIKEY=K3y-Value " +:+ String "010"%char EmptyString)
           "MY_SERVICE_APIKEY" "K3y-Value" login_service).
  - reflexivity.
  - reflexivity.
  - intros l Hl. simpl in Hl.
    repeat (apply elem_of_cons in Hl as [-> | Hl]; [vm_compute; reflexivity|]).
    inversion Hl.
  - intros l Hl.
    apply elem_of_cons in Hl as [-> | Hl].
    { left. vm_compute. discriminate. }
    apply elem_of_cons in Hl as [-> | Hl].
    { right. intros k v H. vm_compute in H. injection H as <- <-.
      vm_compute. reflexivity. }
    inversion Hl.
  - vm_compute. reflexivity.
  - reflexivity.
  - reflexivity.
Defined.

(** ** C10: both credentials on one request *)




